(** * Pixera countdown backend

    A shallow embedding of [pixera_backend/main.py]: the countdown parser,
    the payload builder, the JSON-RPC client, the data fetchers and the
    polling state machine, followed by the properties proved about them.

    Conventions of the embedding.
    - Python values that travel through the program (decoded JSON, the
      entries of [shared_data]) are terms of [pyval].  Numbers are the
      integers: a JSON number with a fraction or an exponent is a [float]
      in the program and has no counterpart here.  A dict is an association
      list in insertion order.
    - A Python [str] is a [string] whose characters are code points
      below 256.
    - An expression that may raise returns [res A]; [inl e] is the raised
      exception.  Code that also touches the module's globals is a function
      [World -> res A * World].
    - The engine, the UTF-8 decoder and [json.loads] are not part of the
      program: they are variables of the section that holds the fetchers.
    - Time is a clock in whole seconds; two readings of the clock within
      one block of code give the same second.  A run of the process is a
      list of events (a control request, a turn of the polling loop, a
      viewer connecting, time passing); each event runs to its end before
      the next one starts: a run is a schedule in which no handler and no
      turn of the loop is suspended at an [await] while another one runs.
    - Converting an [int] of more than 4300 digits to text raises
      [ValueError], in an f-string, in [str] and in [json.dumps].
      [json.loads] raises it on such a number too, so a value taken from a
      reply as it is (a handle, a project name) converts; a [totalMs]
      computed by the parser may not.
    - A call of [log] is part of the embedding where it can raise: where
      the f-string of its message formats a value of a cue or a computed
      integer, and where the level is not the name of a method of the
      logger.  The other calls return [None] and are left out. *)

From Stdlib Require Import ZArith List String Ascii Bool Lia SpecFloat.
From Stdlib Require Import DecimalString.
Import ListNotations.
Set Warnings "-register-all".
Open Scope string_scope.
Open Scope Z_scope.

(** ** Python values and exceptions *)

Inductive pyval : Type :=
| VNone
| VBool (b : bool)
| VInt (z : Z)
| VStr (s : string)
| VList (l : list pyval)
| VDict (d : list (pyval * pyval)).

Inductive exn : Type :=
| TypeError
| ValueError
| AttributeError
| OverflowError
| ZeroDivisionError
| OSError
| TimeoutError
| IncompleteReadError
| UnicodeDecodeError
| JSONDecodeError.

Definition res (A : Type) : Type := (exn + A)%type.

Definition rbind {A B : Type} (m : res A) (k : A -> res B) : res B :=
  match m with
  | inl e => inl e
  | inr a => k a
  end.

(** [try: body / except Exception: handler]. *)
Definition try_except {A : Type} (body : res A) (handler : exn -> res A) : res A :=
  match body with
  | inl e => handler e
  | inr a => inr a
  end.

Declare Scope res_scope.
Delimit Scope res_scope with res.
Notation "x <- m ;; k" := (rbind m (fun x => k))
  (at level 61, m at next level, right associativity) : res_scope.

(** Truth value of an object, as [if x:] and [not x] use it. *)
Definition truthy (v : pyval) : bool :=
  match v with
  | VNone => false
  | VBool b => b
  | VInt z => negb (z =? 0)
  | VStr s => negb (String.eqb s "")
  | VList l => match l with [] => false | _ => true end
  | VDict d => match d with [] => false | _ => true end
  end.

(** [a or b]. *)
Definition py_or (a b : pyval) : pyval := if truthy a then a else b.

Definition isinstance_dict (v : pyval) : bool :=
  match v with VDict _ => true | _ => false end.

Definition isinstance_str (v : pyval) : bool :=
  match v with VStr _ => true | _ => false end.

(** ** Strings *)

Module PyStr.

(** [str.isspace] on one character: TAB..CR, FS..US, space, NEL, NBSP. *)
Definition isspace (c : ascii) : bool :=
  let n := N_of_ascii c in
  ((9 <=? n) && (n <=? 13) || (28 <=? n) && (n <=? 32)
   || (n =? 133) || (n =? 160))%N.

Fixpoint lstrip (s : string) : string :=
  match s with
  | EmptyString => EmptyString
  | String c r => if isspace c then lstrip r else s
  end.

Fixpoint rstrip (s : string) : string :=
  match s with
  | EmptyString => EmptyString
  | String c r =>
      match rstrip r with
      | EmptyString => if isspace c then EmptyString else String c EmptyString
      | r' => String c r'
      end
  end.

(** [s.strip()]. *)
Definition strip (s : string) : string := rstrip (lstrip s).

(** [s.lstrip(ch)] for a one-character argument. *)
Fixpoint lstrip_char (ch : ascii) (s : string) : string :=
  match s with
  | EmptyString => EmptyString
  | String c r => if Ascii.eqb c ch then lstrip_char ch r else s
  end.

(** [s.startswith(p)]. *)
Fixpoint startswith (s p : string) : bool :=
  match p with
  | EmptyString => true
  | String a p' =>
      match s with
      | EmptyString => false
      | String b s' => Ascii.eqb b a && startswith s' p'
      end
  end.

(** [ch in s] for a one-character [ch]. *)
Fixpoint contains (ch : ascii) (s : string) : bool :=
  match s with
  | EmptyString => false
  | String c r => Ascii.eqb c ch || contains ch r
  end.

(** [s.split(sep)] for a one-character separator. *)
Fixpoint split (sep : ascii) (s : string) : list string :=
  match s with
  | EmptyString => [EmptyString]
  | String c r =>
      if Ascii.eqb c sep then EmptyString :: split sep r
      else match split sep r with
           | [] => [String c EmptyString]
           | p :: ps => String c p :: ps
           end
  end.

(** [s.replace(pat, "")]: every occurrence of [pat], left to right. *)
Fixpoint remove_all (pat s : string) (fuel : nat) : string :=
  match fuel with
  | O => s
  | S fuel' =>
      match s with
      | EmptyString => EmptyString
      | String c r =>
          if startswith s pat && negb (String.eqb pat "")
          then remove_all pat (substring (String.length pat)
                                         (String.length s - String.length pat) s) fuel'
          else String c (remove_all pat r fuel')
      end
  end.

Definition replace_with_empty (pat s : string) : string :=
  remove_all pat s (String.length s).

Definition digit_of (c : ascii) : option Z :=
  let n := N_of_ascii c in
  if ((48 <=? n) && (n <=? 57))%N then Some (Z.of_N n - 48) else None.

(** Default of [sys.get_int_max_str_digits()]. *)
Definition int_max_str_digits : Z := 4300.

(** The digits of an integer literal after its first digit: digits, with
    single underscores between them.  Returns the value and the number of
    digits read. *)
Fixpoint int_body (s : string) (after_us : bool) (acc cnt : Z) : option (Z * Z) :=
  match s with
  | EmptyString => if after_us then None else Some (acc, cnt)
  | String c r =>
      match digit_of c with
      | Some d => int_body r false (10 * acc + d) (cnt + 1)
      | None =>
          if Ascii.eqb c "_" && negb after_us then int_body r true acc cnt
          else None
      end
  end.

Definition int_unsigned (s : string) : option Z :=
  match s with
  | EmptyString => None
  | String c r =>
      match digit_of c with
      | Some d =>
          match int_body r false d 1 with
          | Some (v, cnt) => if cnt <=? int_max_str_digits then Some v else None
          | None => None
          end
      | None => None
      end
  end.

(** The whitespace [int] skips around a number: TAB..CR, space, NEL and
    NBSP.  The separators FS..US, which [str.strip] removes, are not among
    them. *)
Definition int_isspace (c : ascii) : bool :=
  let n := N_of_ascii c in
  ((9 <=? n) && (n <=? 13) || (n =? 32) || (n =? 133) || (n =? 160))%N.

Fixpoint int_lstrip (s : string) : string :=
  match s with
  | EmptyString => EmptyString
  | String c r => if int_isspace c then int_lstrip r else s
  end.

Fixpoint int_rstrip (s : string) : string :=
  match s with
  | EmptyString => EmptyString
  | String c r =>
      match int_rstrip r with
      | EmptyString => if int_isspace c then EmptyString else String c EmptyString
      | r' => String c r'
      end
  end.

Definition int_strip (s : string) : string := int_rstrip (int_lstrip s).

(** [int(s)] for a [str] argument, base 10: surrounding whitespace, an
    optional sign, then the digits.  [None] is [ValueError]. *)
Definition int_of_str (s : string) : option Z :=
  match int_strip s with
  | EmptyString => None
  | String c r =>
      if Ascii.eqb c "-" then option_map Z.opp (int_unsigned r)
      else if Ascii.eqb c "+" then int_unsigned r
      else int_unsigned (String c r)
  end.

Definition py_int (s : string) : res Z :=
  match int_of_str s with
  | Some z => inr z
  | None => inl ValueError
  end.

End PyStr.

(** ** Floats

    The one float expression of the program is [int((frames / fps) * 1000)].
    Floats are IEEE 754 binary64 with round-to-nearest-even, as the
    [SpecFloat] operations define them. *)

Module PyFloat.

Definition prec : Z := 53.
Definition emax : Z := 1024.

Definition exact (z : Z) : spec_float :=
  match z with
  | Z0 => S754_zero false
  | Zpos p => S754_finite false p 0
  | Zneg p => S754_finite true p 0
  end.

(** [float(z)]: the nearest float, [OverflowError] beyond the range. *)
Definition float_of_int (z : Z) : res spec_float :=
  match binary_normalize prec emax z 0 false with
  | S754_infinity _ | S754_nan => inl OverflowError
  | x => inr x
  end.

(** [a / b] on two ints: the exact quotient, correctly rounded. *)
Definition true_divide (a b : Z) : res spec_float :=
  if b =? 0 then inl ZeroDivisionError
  else match SFdiv prec emax (exact a) (exact b) with
       | S754_infinity _ | S754_nan => inl OverflowError
       | x => inr x
       end.

(** [x * k] for a float [x] and an int [k]. *)
Definition mul_int (x : spec_float) (k : Z) : res spec_float :=
  rbind (float_of_int k) (fun y => inr (SFmul prec emax x y)).

(** [int(x)]: truncation toward zero. *)
Definition to_int (x : spec_float) : res Z :=
  match x with
  | S754_zero _ => inr 0
  | S754_finite s m e =>
      let v := if 0 <=? e then Z.pos m * 2 ^ e else Z.pos m / 2 ^ (- e) in
      inr (if s then - v else v)
  | S754_infinity _ => inl OverflowError
  | S754_nan => inl ValueError
  end.

End PyFloat.

(** ** Logging

    [log(message, level)] calls [getattr(logger, level.lower())(message)].
    The program passes the levels ["info"], ["INFO"], ["WARN"], ["ERROR"]
    and ["EVENT"]; a [logging.Logger] has the methods [info], [warn] and
    [error] and no attribute [event]. *)

Inductive level : Type :=
| INFO
| WARN
| ERROR
| EVENT.

Definition log (l : level) : res unit :=
  match l with
  | EVENT => inl AttributeError
  | INFO | WARN | ERROR => inr tt
  end.

(** [str(z)] raises [ValueError] on an int of more than 4300 digits, the
    sign not counted. *)
Definition int_str_ok (z : Z) : bool :=
  Z.abs z <? 10 ^ PyStr.int_max_str_digits.

(** [str(v)], [repr(v)] and [json.dumps(v)] return: no int inside [v] is
    beyond that limit. *)
Fixpoint printable (v : pyval) : bool :=
  match v with
  | VInt z => int_str_ok z
  | VList l => forallb printable l
  | VDict d =>
      forallb (fun kv : pyval * pyval =>
                 let (k, x) := kv in printable k && printable x) d
  | VNone | VBool _ | VStr _ => true
  end.

(** A value in an f-string, [f"{v}"]. *)
Definition py_format (v : pyval) : res unit :=
  if printable v then inr tt else inl ValueError.

(** ** Time parsing *)

Record Countdown : Type := {
  raw : pyval;
  hours : Z;
  minutes : Z;
  seconds : Z;
  frames : Z;
  totalMs : Z
}.

Definition zero_countdown : Countdown :=
  {| raw := VStr ""; hours := 0; minutes := 0; seconds := 0; frames := 0;
     totalMs := 0 |}.

Definition fps : Z := 60.

(** [int((frames / fps) * 1000)]. *)
Definition frames_ms (fr : Z) : res Z :=
  (q <- PyFloat.true_divide fr fps ;;
   p <- PyFloat.mul_int q 1000 ;;
   PyFloat.to_int p)%res.

(** The body of the [try] block of [parse_countdown_string], for a [str]. *)
Definition parse_body (s : string) : res Countdown :=
  let is_negative := PyStr.startswith (PyStr.strip s) "-" in
  let parse_str := if is_negative then PyStr.lstrip_char "-" s else s in
  match PyStr.split ":" parse_str with
  | [h; m; sec; f] =>
      (hh <- PyStr.py_int h ;;
       mm <- PyStr.py_int m ;;
       ss <- PyStr.py_int sec ;;
       ff <- PyStr.py_int f ;;
       ms <- frames_ms ff ;;
       let total := hh * 3600 * 1000 + mm * 60 * 1000 + ss * 1000 + ms in
       inr {| raw := VStr s;
              hours := if is_negative then - hh else hh;
              minutes := mm;
              seconds := ss;
              frames := ff;
              totalMs := if is_negative then - total else total |})%res
  | _ => inl ValueError
  end.

(** [":" in raw]. *)
Definition has_colon (v : pyval) : res bool :=
  match v with
  | VStr s => inr (PyStr.contains ":" s)
  | VList l =>
      inr (existsb (fun x => match x with
                             | VStr t => String.eqb t ":"
                             | _ => false
                             end) l)
  | VDict d =>
      inr (existsb (fun kv => match fst kv with
                              | VStr t => String.eqb t ":"
                              | _ => false
                              end) d)
  | VNone | VBool _ | VInt _ => inl TypeError
  end.

Definition parse_countdown_string (v : pyval) : res Countdown :=
  if negb (truthy v) then inr zero_countdown
  else
    (c <- has_colon v ;;
     if negb c then inr zero_countdown
     else
       try_except
         (match v with
          | VStr s => parse_body s
          | _ => inl AttributeError
          end)
         (fun _ => _ <- py_format v ;; _ <- log WARN ;; inr zero_countdown))%res.

(** ** Dicts

    A dict is the list of its items in insertion order.  Keys compare as
    [==] does on hashable values: [True == 1] and [False == 0]. *)

Definition as_int (v : pyval) : option Z :=
  match v with
  | VBool b => Some (if b then 1 else 0)
  | VInt z => Some z
  | _ => None
  end.

Definition key_eqb (a b : pyval) : bool :=
  match a, b with
  | VNone, VNone => true
  | VStr s, VStr t => String.eqb s t
  | (VBool _ | VInt _), (VBool _ | VInt _) =>
      match as_int a, as_int b with
      | Some x, Some y => x =? y
      | _, _ => false
      end
  | _, _ => false
  end.

Definition hashable (v : pyval) : bool :=
  match v with
  | VList _ | VDict _ => false
  | _ => true
  end.

Definition dict := list (pyval * pyval).

Fixpoint dict_get (d : dict) (k : pyval) : option pyval :=
  match d with
  | [] => None
  | (k', v) :: rest => if key_eqb k' k then Some v else dict_get rest k
  end.

(** [d[k] = v]: an existing key keeps its place (and its key object). *)
Fixpoint dict_set (d : dict) (k v : pyval) : dict :=
  match d with
  | [] => [(k, v)]
  | (k', v') :: rest =>
      if key_eqb k' k then (k', v) :: rest else (k', v') :: dict_set rest k v
  end.

(** [{**d, **e}]. *)
Definition dict_update (d e : dict) : dict :=
  fold_left (fun acc kv => dict_set acc (fst kv) (snd kv)) e d.

Definition dict_keys (d : dict) : list pyval := map fst d.

(** [d.get(k, default)] on a dict. *)
Definition dict_get_default (d : dict) (k : string) (default : pyval) : pyval :=
  match dict_get d (VStr k) with
  | Some v => v
  | None => default
  end.

(** [x.get(k, default)] on any object. *)
Definition py_get (x : pyval) (k : string) (default : pyval) : res pyval :=
  match x with
  | VDict d => inr (dict_get_default d k default)
  | _ => inl AttributeError
  end.

Definition Z_to_string (z : Z) : string :=
  NilZero.string_of_int (Z.to_int z).

(** [str(v)], as the f-strings use it on dict keys (a key is never a list
    or a dict). *)
Definition py_str (v : pyval) : string :=
  match v with
  | VNone => "None"
  | VBool true => "True"
  | VBool false => "False"
  | VInt z => Z_to_string z
  | VStr s => s
  | VList _ | VDict _ => ""
  end.

(** [v < 0]. *)
Definition lt_zero (v : pyval) : res bool :=
  match v with
  | VInt z => inr (z <? 0)
  | VBool _ => inr false
  | _ => inl TypeError
  end.

(** ** The broadcast payload *)

(** The dict appended to [countdowns] for one cue. *)
Definition countdown_record (tl_handle timeline_name timeline_mode cue_handle : pyval)
    (cue_data cd : dict) : pyval :=
  VDict
    [ (VStr "id", VStr (py_str tl_handle ++ "-" ++ py_str cue_handle));
      (VStr "timelineName", timeline_name);
      (VStr "timelineMode", timeline_mode);
      (VStr "cueName", VStr (py_str cue_handle));
      (VStr "cueType", dict_get_default cue_data "operation" (VStr ""));
      (VStr "note", dict_get_default cue_data "note" (VStr ""));
      (VStr "rawCount", dict_get_default cd "raw" (VStr ""));
      (VStr "hours", dict_get_default cd "hours" (VInt 0));
      (VStr "minutes", dict_get_default cd "minutes" (VInt 0));
      (VStr "seconds", dict_get_default cd "seconds" (VInt 0));
      (VStr "frames", dict_get_default cd "frames" (VInt 0));
      (VStr "totalMs", dict_get_default cd "totalMs" (VInt 0)) ].

(** The inner loop, [for cue_handle, cue_data in cues.items()]. *)
Fixpoint payload_cues (tl_handle timeline_name timeline_mode : pyval)
    (cues : dict) (countdowns : list pyval) : res (list pyval) :=
  match cues with
  | [] => inr countdowns
  | (cue_handle, cue_data) :: rest =>
      let continue := payload_cues tl_handle timeline_name timeline_mode rest in
      match cue_data with
      | VDict cue_items =>
          if negb (truthy cue_data) then continue countdowns
          else
            (negative <- lt_zero (dict_get_default cue_items "_original_countdown_ms"
                                                   (VInt 0)) ;;
             if (negative : bool) then continue countdowns
             else
               match py_or (dict_get_default cue_items "countdown" (VDict []))
                           (VDict []) with
               | VDict cd =>
                   continue
                     (countdowns
                        ++ [countdown_record tl_handle timeline_name timeline_mode
                                             cue_handle cue_items cd])%list
               | _ => continue countdowns
               end)%res
      | _ => continue countdowns
      end
  end.

(** The outer loop, [for tl_handle, tl_data in timelines.items()]. *)
Fixpoint payload_timelines (timelines : dict) (countdowns : list pyval)
    : res (list pyval) :=
  match timelines with
  | [] => inr countdowns
  | (tl_handle, tl_data) :: rest =>
      match tl_data with
      | VDict tl_items =>
          if negb (truthy tl_data) then payload_timelines rest countdowns
          else
            let info := py_or (dict_get_default tl_items "info" (VDict []))
                              (VDict []) in
            (timeline_name <- py_get info "name"
                                (VStr ("Timeline_" ++ py_str tl_handle)) ;;
             timeline_mode <- py_get info "Mode" (VStr "BAD") ;;
             match py_or (dict_get_default tl_items "cues" (VDict [])) (VDict []) with
             | VDict cues =>
                 countdowns' <- payload_cues tl_handle timeline_name timeline_mode
                                             cues countdowns ;;
                 payload_timelines rest countdowns'
             | _ => payload_timelines rest countdowns
             end)%res
      | _ => payload_timelines rest countdowns
      end
  end.

Definition buildCountdownPayload (timelines project_name polling_state : pyval)
    : res pyval :=
  let timelines := match timelines with VDict d => d | _ => [] end in
  (countdowns <- payload_timelines timelines [] ;;
   inr (VDict [ (VStr "projectName", project_name);
                (VStr "countdowns", VList countdowns);
                (VStr "polling", polling_state) ]))%res.

(** ** The module's globals

    [shared_data] and the module-level variables make up the [World].
    Time is read in whole seconds.  An [asyncio] task that runs
    [auto_disable_polling] is a [Task]: the time at which its sleep ends and
    its state; [tasks] holds every such task created so far and
    [auto_disable_task] refers to one of them by position.  A viewer is a
    number; [closed] lists the viewers on whose socket [send_text] raises. *)

Record PollingState : Type := {
  enabled : bool;
  enabled_at : option Z;
  auto_disable_at : option Z
}.

Definition polling_disabled : PollingState :=
  {| enabled := false; enabled_at := None; auto_disable_at := None |}.

Definition py_opt (o : option Z) : pyval :=
  match o with
  | Some z => VInt z
  | None => VNone
  end.

Definition polling_to_py (p : PollingState) : pyval :=
  VDict [ (VStr "enabled", VBool (enabled p));
          (VStr "enabled_at", py_opt (enabled_at p));
          (VStr "auto_disable_at", py_opt (auto_disable_at p)) ].

Inductive task_state : Type :=
| Pending
| Cancelled
| Finished.

(** [task.done()]. *)
Definition done (s : task_state) : bool :=
  match s with
  | Pending => false
  | _ => true
  end.

Record Task : Type := {
  deadline : Z;
  state : task_state
}.

Record World : Type := {
  timelines : dict;
  status : dict;
  polling : PollingState;
  request_id : Z;
  polling_task : option task_state;
  last_project_timeline_fetch : Z;
  auto_disable_task : option nat;
  tasks : list Task;
  clock : Z;
  connected_clients : list nat;
  closed : list nat;
  sent : list (nat * pyval)
}.

(** The state right after the module is loaded, at time [t0]. *)
Definition initial_world (t0 : Z) : World :=
  {| timelines := [];
     status := [];
     polling := polling_disabled;
     request_id := 1;
     polling_task := None;
     last_project_timeline_fetch := 0;
     auto_disable_task := None;
     tasks := [];
     clock := t0;
     connected_clients := [];
     closed := [];
     sent := [] |}.

Definition set_timelines (x : dict) (w : World) : World :=
  {| timelines := x;
     status := status w;
     polling := polling w;
     request_id := request_id w;
     polling_task := polling_task w;
     last_project_timeline_fetch := last_project_timeline_fetch w;
     auto_disable_task := auto_disable_task w;
     tasks := tasks w;
     clock := clock w;
     connected_clients := connected_clients w;
     closed := closed w;
     sent := sent w |}.

Definition set_status (x : dict) (w : World) : World :=
  {| timelines := timelines w;
     status := x;
     polling := polling w;
     request_id := request_id w;
     polling_task := polling_task w;
     last_project_timeline_fetch := last_project_timeline_fetch w;
     auto_disable_task := auto_disable_task w;
     tasks := tasks w;
     clock := clock w;
     connected_clients := connected_clients w;
     closed := closed w;
     sent := sent w |}.

Definition set_polling (x : PollingState) (w : World) : World :=
  {| timelines := timelines w;
     status := status w;
     polling := x;
     request_id := request_id w;
     polling_task := polling_task w;
     last_project_timeline_fetch := last_project_timeline_fetch w;
     auto_disable_task := auto_disable_task w;
     tasks := tasks w;
     clock := clock w;
     connected_clients := connected_clients w;
     closed := closed w;
     sent := sent w |}.

Definition set_request_id (x : Z) (w : World) : World :=
  {| timelines := timelines w;
     status := status w;
     polling := polling w;
     request_id := x;
     polling_task := polling_task w;
     last_project_timeline_fetch := last_project_timeline_fetch w;
     auto_disable_task := auto_disable_task w;
     tasks := tasks w;
     clock := clock w;
     connected_clients := connected_clients w;
     closed := closed w;
     sent := sent w |}.

Definition set_polling_task (x : option task_state) (w : World) : World :=
  {| timelines := timelines w;
     status := status w;
     polling := polling w;
     request_id := request_id w;
     polling_task := x;
     last_project_timeline_fetch := last_project_timeline_fetch w;
     auto_disable_task := auto_disable_task w;
     tasks := tasks w;
     clock := clock w;
     connected_clients := connected_clients w;
     closed := closed w;
     sent := sent w |}.

Definition set_last_project_timeline_fetch (x : Z) (w : World) : World :=
  {| timelines := timelines w;
     status := status w;
     polling := polling w;
     request_id := request_id w;
     polling_task := polling_task w;
     last_project_timeline_fetch := x;
     auto_disable_task := auto_disable_task w;
     tasks := tasks w;
     clock := clock w;
     connected_clients := connected_clients w;
     closed := closed w;
     sent := sent w |}.

Definition set_auto_disable_task (x : option nat) (w : World) : World :=
  {| timelines := timelines w;
     status := status w;
     polling := polling w;
     request_id := request_id w;
     polling_task := polling_task w;
     last_project_timeline_fetch := last_project_timeline_fetch w;
     auto_disable_task := x;
     tasks := tasks w;
     clock := clock w;
     connected_clients := connected_clients w;
     closed := closed w;
     sent := sent w |}.

Definition set_tasks (x : list Task) (w : World) : World :=
  {| timelines := timelines w;
     status := status w;
     polling := polling w;
     request_id := request_id w;
     polling_task := polling_task w;
     last_project_timeline_fetch := last_project_timeline_fetch w;
     auto_disable_task := auto_disable_task w;
     tasks := x;
     clock := clock w;
     connected_clients := connected_clients w;
     closed := closed w;
     sent := sent w |}.

Definition set_clock (x : Z) (w : World) : World :=
  {| timelines := timelines w;
     status := status w;
     polling := polling w;
     request_id := request_id w;
     polling_task := polling_task w;
     last_project_timeline_fetch := last_project_timeline_fetch w;
     auto_disable_task := auto_disable_task w;
     tasks := tasks w;
     clock := x;
     connected_clients := connected_clients w;
     closed := closed w;
     sent := sent w |}.

Definition set_connected_clients (x : list nat) (w : World) : World :=
  {| timelines := timelines w;
     status := status w;
     polling := polling w;
     request_id := request_id w;
     polling_task := polling_task w;
     last_project_timeline_fetch := last_project_timeline_fetch w;
     auto_disable_task := auto_disable_task w;
     tasks := tasks w;
     clock := clock w;
     connected_clients := x;
     closed := closed w;
     sent := sent w |}.

Definition set_closed (x : list nat) (w : World) : World :=
  {| timelines := timelines w;
     status := status w;
     polling := polling w;
     request_id := request_id w;
     polling_task := polling_task w;
     last_project_timeline_fetch := last_project_timeline_fetch w;
     auto_disable_task := auto_disable_task w;
     tasks := tasks w;
     clock := clock w;
     connected_clients := connected_clients w;
     closed := x;
     sent := sent w |}.

Definition set_sent (x : list (nat * pyval)) (w : World) : World :=
  {| timelines := timelines w;
     status := status w;
     polling := polling w;
     request_id := request_id w;
     polling_task := polling_task w;
     last_project_timeline_fetch := last_project_timeline_fetch w;
     auto_disable_task := auto_disable_task w;
     tasks := tasks w;
     clock := clock w;
     connected_clients := connected_clients w;
     closed := closed w;
     sent := x |}.

(** Code that reads and writes the globals and may raise. *)
Definition M (A : Type) : Type := World -> res A * World.

Definition ret {A : Type} (a : A) : M A := fun w => (inr a, w).

Definition bind {A B : Type} (m : M A) (k : A -> M B) : M B :=
  fun w =>
    match m w with
    | (inl e, w') => (inl e, w')
    | (inr a, w') => k a w'
    end.

Definition lift {A : Type} (r : res A) : M A := fun w => (r, w).

Definition gets {A : Type} (f : World -> A) : M A := fun w => (inr (f w), w).

Definition modify (f : World -> World) : M unit := fun w => (inr tt, f w).

Declare Scope M_scope.
Delimit Scope M_scope with M.
Notation "x <- m ;; k" := (bind m (fun x => k))
  (at level 61, m at next level, right associativity) : M_scope.

(** [try: x = body / except Exception: x = default]. *)
Definition try_default {A : Type} (body : res A) (default : A) : A :=
  match body with
  | inr a => a
  | inl _ => default
  end.

(** ** TCP communication and data retrieval *)

Definition MSG_TERMINATOR : string := "0xPX".

Definition GET_TIMELINES : string := "Pixera.Timelines.getTimelines".
Definition GET_TIMELINE_INFO : string :=
  "Pixera.Timelines.Timeline.getTimelineInfosAsJsonString".
Definition GET_CUE_INFO : string :=
  "Pixera.Timelines.Timeline.getCueInfosAsJsonString".
Definition GET_PROJECT_NAME : string := "Pixera.Session.getProjectName".

(** What the connection of one call does: an exception somewhere between
    [open_connection] and [wait_closed], or the bytes read up to the
    terminator. *)
Inductive net_outcome : Type :=
| NetError (e : exn)
| NetReceived (data : string).

(** The request object of [send_json]. *)
Definition make_request (id : Z) (method : string) (params : pyval) : pyval :=
  VDict ([ (VStr "jsonrpc", VStr "2.0");
           (VStr "id", VInt id);
           (VStr "method", VStr method) ]
         ++ (if truthy params then [(VStr "params", params)] else []))%list.

(** [for x in v]. *)
Fixpoint chars (s : string) : list pyval :=
  match s with
  | EmptyString => []
  | String c r => VStr (String c EmptyString) :: chars r
  end.

Definition py_iter (v : pyval) : res (list pyval) :=
  match v with
  | VList l => inr l
  | VDict d => inr (dict_keys d)
  | VStr s => inr (chars s)
  | VNone | VBool _ | VInt _ => inl TypeError
  end.

(** [k in d] for a dict [d]. *)
Definition dict_contains (d : dict) (k : pyval) : res bool :=
  if hashable k
  then inr (match dict_get d k with Some _ => true | None => false end)
  else inl TypeError.

(** [d[k] = v] for a dict [d]. *)
Definition dict_setitem (d : dict) (k v : pyval) : res dict :=
  if hashable k then inr (dict_set d k v) else inl TypeError.

(** [x[k] = v] on any object, for a [str] key. *)
Definition py_setitem (x : pyval) (k : string) (v : pyval) : res pyval :=
  match x with
  | VDict d => inr (VDict (dict_set d (VStr k) v))
  | _ => inl TypeError
  end.

Definition countdown_to_dict (c : Countdown) : dict :=
  [ (VStr "raw", raw c);
    (VStr "hours", VInt (hours c));
    (VStr "minutes", VInt (minutes c));
    (VStr "seconds", VInt (seconds c));
    (VStr "frames", VInt (frames c));
    (VStr "totalMs", VInt (totalMs c)) ].

(** [countdown_parsed = time_parsed.copy(); countdown_parsed["raw"] = s]. *)
Definition with_raw (c : Countdown) (s : pyval) : Countdown :=
  {| raw := s; hours := hours c; minutes := minutes c; seconds := seconds c;
     frames := frames c; totalMs := totalMs c |}.

(** The five assignments of the [else] branch of the fallback. *)
Definition clamp_to_zero (c : Countdown) : Countdown :=
  {| raw := raw c; hours := 0; minutes := 0; seconds := 0; frames := 0;
     totalMs := 0 |}.

(** The [else] branch of the fallback: the warning, whose f-string formats
    [cue.get('name', 'unknown')] and the negative [totalMs], and then the
    five assignments. *)
Definition clamp (cue : pyval) (countdown_parsed : Countdown) : res Countdown :=
  (name <- py_get cue "name" (VStr "unknown") ;;
   _ <- py_format name ;;
   _ <- py_format (VInt (totalMs countdown_parsed)) ;;
   _ <- log WARN ;;
   inr (clamp_to_zero countdown_parsed))%res.

(** The fallback of [get_cues] on a negative countdown. *)
Definition fallback (cue countdown_str : pyval) (countdown_parsed : Countdown)
    (time_parsed : option Countdown) : res Countdown :=
  if totalMs countdown_parsed <? 0 then
    match time_parsed with
    | Some tp =>
        if 0 <=? totalMs tp then inr (with_raw tp countdown_str)
        else clamp cue countdown_parsed
    | None => clamp cue countdown_parsed
    end
  else inr countdown_parsed.

(** [parse_countdown_string(time_str) if time_str else None]. *)
Definition parse_if_present (time_str : pyval) : res (option Countdown) :=
  if truthy time_str
  then (t <- parse_countdown_string time_str ;; inr (Some t))%res
  else inr None.

(** One turn of [for cue in info_json]: the key and the value stored in
    [cue_data]. *)
Definition cue_entry (cue : pyval) : res (pyval * pyval) :=
  (countdown_str <- py_get cue "countdown" VNone ;;
   time_str <- py_get cue "time" VNone ;;
   countdown_parsed <- parse_countdown_string countdown_str ;;
   time_parsed <- parse_if_present time_str ;;
   let original_countdown_ms := totalMs countdown_parsed in
   let original_time_ms := option_map totalMs time_parsed in
   countdown_parsed <- fallback cue countdown_str countdown_parsed time_parsed ;;
   name <- py_get cue "name" VNone ;;
   handle <- py_get cue "handle" VNone ;;
   let cue_name := py_or name handle in
   let items := match cue with VDict d => d | _ => [] end in
   let stored :=
     dict_update items
       [ (VStr "countdown",
          VDict (dict_update [(VStr "raw", countdown_str)]
                             (countdown_to_dict countdown_parsed)));
         (VStr "_original_countdown_ms", VInt original_countdown_ms);
         (VStr "_original_time_ms", py_opt original_time_ms) ] in
   if hashable cue_name then inr (cue_name, VDict stored) else inl TypeError)%res.

Fixpoint cues_loop (info_json : list pyval) (cue_data : dict) : res dict :=
  match info_json with
  | [] => inr cue_data
  | cue :: rest =>
      (entry <- cue_entry cue ;;
       cues_loop rest (dict_set cue_data (fst entry) (snd entry)))%res
  end.

(** ** Websocket management *)

Definition is_closed (w : World) (c : nat) : bool := existsb (Nat.eqb c) (closed w).

(** The send loop of a broadcast and the pruning that follows it. *)
Definition deliver (text : pyval) (w : World) : World :=
  let live := filter (fun c => negb (is_closed w c)) (connected_clients w) in
  set_connected_clients live
    (set_sent (sent w ++ map (fun c => (c, text)) live)%list w).

Definition polling_message (p : PollingState) : pyval :=
  VDict [ (VStr "type", VStr "polling_state");
          (VStr "polling", polling_to_py p) ].

Definition broadcast_polling_state (w : World) : World :=
  match connected_clients w with
  | [] => w
  | _ => deliver (polling_message (polling w)) w
  end.

(** The arguments [broadcast_update] and [ws_countdowns] pass to
    [buildCountdownPayload]. *)
Definition snapshot_payload (w : World) : res pyval :=
  buildCountdownPayload (VDict (timelines w))
    (dict_get_default (status w) "projectName" (VStr "Unknown"))
    (polling_to_py (polling w)).

(** [json.dumps(payload)]; the value stands for its text.  Serialising
    raises [ValueError] on an int of more than 4300 digits.  The polling
    state of a payload holds booleans, [None] and, in the program, floats,
    which always serialise: it is not looked at. *)
Definition json_dumps (payload : pyval) : res pyval :=
  match payload with
  | VDict d =>
      if printable (dict_get_default d "projectName" VNone)
         && printable (dict_get_default d "countdowns" VNone)
      then inr payload
      else inl ValueError
  | _ => if printable payload then inr payload else inl ValueError
  end.

Definition broadcast_update : M unit :=
  fun w =>
    match connected_clients w with
    | [] => (inr tt, w)
    | _ =>
        match (payload <- snapshot_payload w ;; json_dumps payload)%res with
        | inl e => (inl e, w)
        | inr text => (inr tt, deliver text w)
        end
    end.

Section Backend.

(** The engine, seen from [send_json]: what happens on the connection that
    carries a given request. *)
Variable net : pyval -> net_outcome.

(** [bytes.decode()]; [None] is [UnicodeDecodeError]. *)
Variable bytes_decode : string -> option string.

(** [json.loads] on a [str]; [None] is [JSONDecodeError]. *)
Variable json_loads : string -> option pyval.

(** [json.loads(v)] on any object. *)
Definition py_json_loads (v : pyval) : res pyval :=
  match v with
  | VStr s =>
      match json_loads s with
      | Some x => inr x
      | None => inl JSONDecodeError
      end
  | _ => inl TypeError
  end.

(** The body of the [try] block of [send_json]. *)
Definition exchange (request : pyval) : res pyval :=
  match net request with
  | NetError e => inl e
  | NetReceived data =>
      match bytes_decode data with
      | None => inl UnicodeDecodeError
      | Some text =>
          match json_loads (PyStr.replace_with_empty MSG_TERMINATOR text) with
          | Some v => inr v
          | None => inl JSONDecodeError
          end
      end
  end.

Definition send_json (method : string) (params : pyval) : M pyval :=
  fun w =>
    let request := make_request (request_id w) method params in
    let w' := set_request_id (request_id w + 1) w in
    (try_except (exchange request) (fun _ => inr (VDict [])), w').

Definition get_project_name : M unit :=
  (result <- send_json GET_PROJECT_NAME VNone ;;
   name <- lift (py_get result "result" (VStr "Unknown")) ;;
   modify (fun w => set_status (dict_set (status w) (VStr "projectName") name) w))%M.

(** [for handle in timelines] of [get_timelines]. *)
Fixpoint timelines_loop (handles : list pyval) (clean : dict) : M dict :=
  match handles with
  | [] => ret clean
  | handle :: rest =>
      (info <- send_json GET_TIMELINE_INFO (VDict [(VStr "handle", handle)]) ;;
       let info_json :=
         try_default (r <- py_get info "result" (VStr "{}") ;; py_json_loads r)%res
                     (VDict []) in
       clean' <- lift (dict_setitem clean handle
                         (VDict [ (VStr "info", info_json);
                                  (VStr "cues", VDict []) ])) ;;
       timelines_loop rest clean')%M
  end.

Definition get_timelines : M unit :=
  (result <- send_json GET_TIMELINES VNone ;;
   tls <- lift (py_get result "result" (VList [])) ;;
   handles <- lift (py_iter tls) ;;
   clean <- timelines_loop handles [] ;;
   modify (set_timelines clean))%M.

(** The list of cue records [get_cues] reads out of the reply. *)
Definition cue_records (cue_info : pyval) : res (list pyval) :=
  (result <- py_get cue_info "result" VNone ;;
   let info_json :=
     if isinstance_str result
     then try_default (py_json_loads result) (VList [])
     else py_or result (VList []) in
   inr (match info_json with
        | VList l => l
        | _ => []
        end))%res.

(** The assignment under [data_lock] at the end of [get_cues]. *)
Definition store_cues (timeline_handle : pyval) (cue_data : dict) : M unit :=
  fun w =>
    match dict_contains (timelines w) timeline_handle with
    | inl e => (inl e, w)
    | inr false => (inr tt, w)
    | inr true =>
        match dict_get (timelines w) timeline_handle with
        | Some tl =>
            match py_setitem tl "cues" (VDict cue_data) with
            | inr tl' => (inr tt, set_timelines (dict_set (timelines w) timeline_handle tl') w)
            | inl e => (inl e, w)
            end
        | None => (inr tt, w)
        end
    end.

Definition get_cues (timeline_handle : pyval) : M unit :=
  (cue_info <- send_json GET_CUE_INFO (VDict [(VStr "handle", timeline_handle)]) ;;
   info_json <- lift (cue_records cue_info) ;;
   cue_data <- lift (cues_loop info_json []) ;;
   store_cues timeline_handle cue_data)%M.

(** [for tl in timeline_handles: await get_cues(tl)]. *)
Fixpoint cues_for_all (timeline_handles : list pyval) : M unit :=
  match timeline_handles with
  | [] => ret tt
  | tl :: rest => (_ <- get_cues tl ;; cues_for_all rest)%M
  end.

(** Timelines, then the cues of every timeline: the cycle that the polling
    loop, [enable_polling], [force_update] and [lifespan] all run. *)
Definition fetch_cycle : M unit :=
  (_ <- get_timelines ;;
   timeline_handles <- gets (fun w => dict_keys (timelines w)) ;;
   cues_for_all timeline_handles)%M.

(** ** Polling logic *)

Definition AUTO_DISABLE_SECONDS : Z := 6 * 3600.

Definition task_pending (w : World) (i : nat) : bool :=
  match nth_error (tasks w) i with
  | Some t => negb (done (state t))
  | None => false
  end.

Fixpoint set_state_at (i : nat) (s : task_state) (l : list Task) : list Task :=
  match l, i with
  | [], _ => []
  | t :: rest, O => {| deadline := deadline t; state := s |} :: rest
  | t :: rest, S j => t :: set_state_at j s rest
  end.

(** [if auto_disable_task and not auto_disable_task.done():
        auto_disable_task.cancel()]. *)
Definition cancel_auto_disable (w : World) : World :=
  match auto_disable_task w with
  | Some i =>
      if task_pending w i then set_tasks (set_state_at i Cancelled (tasks w)) w
      else w
  | None => w
  end.

(** [auto_disable_task = asyncio.create_task(auto_disable_polling())]. *)
Definition create_auto_disable (w : World) : World :=
  set_auto_disable_task (Some (List.length (tasks w)))
    (set_tasks (tasks w ++ [ {| deadline := clock w + AUTO_DISABLE_SECONDS;
                                state := Pending |} ])%list w).

(** [auto_disable_polling] once its sleep is over; [i] is the task that
    runs it. *)
Definition auto_disable_polling (i : nat) (w : World) : World :=
  let w1 := if enabled (polling w) then set_polling polling_disabled w else w in
  let w2 := broadcast_polling_state w1 in
  let w3 := set_auto_disable_task None w2 in
  set_tasks (set_state_at i Finished (tasks w3)) w3.

(** One turn of the [while True] of [polling_loop], up to its sleep. *)
Definition polling_iteration : M unit :=
  fun w =>
    if enabled (polling w) then
      let current_time := clock w in
      ((_ <- (if 10 <=? current_time - last_project_timeline_fetch w
              then (_ <- get_project_name ;;
                    modify (set_last_project_timeline_fetch current_time))
              else ret tt) ;;
        _ <- fetch_cycle ;;
        broadcast_update)%M) w
    else (inr tt, w).

(** [polling_task = asyncio.create_task(polling_loop())]. *)
Definition start_polling_task (w : World) : World :=
  set_last_project_timeline_fetch (clock w) (set_polling_task (Some Pending) w).

(** The block of [enable_polling] under [data_lock], past its early
    return. *)
Definition enable_locked (w : World) : World :=
  let w1 :=
    set_polling {| enabled := true;
                   enabled_at := Some (clock w);
                   auto_disable_at := Some (clock w + 6 * 3600) |} w in
  let w2 :=
    match polling_task w1 with
    | None => start_polling_task w1
    | Some s => if done s then start_polling_task w1 else w1
    end in
  create_auto_disable (cancel_auto_disable w2).

Definition enable_polling : M (string * PollingState) :=
  fun w =>
    if enabled (polling w) then (inr ("already_enabled", polling w), w)
    else
      ((_ <- get_project_name ;;
        _ <- fetch_cycle ;;
        _ <- modify broadcast_polling_state ;;
        _ <- broadcast_update ;;
        p <- gets polling ;;
        ret ("enabled", p))%M) (enable_locked w).

(** The block of [disable_polling] under [data_lock], past its early
    return. *)
Definition disable_locked (w : World) : World :=
  let w1 := set_polling polling_disabled w in
  match auto_disable_task w1 with
  | Some i =>
      if task_pending w1 i
      then set_auto_disable_task None
             (set_tasks (set_state_at i Cancelled (tasks w1)) w1)
      else w1
  | None => w1
  end.

Definition disable_polling : M (string * PollingState) :=
  fun w =>
    if negb (enabled (polling w)) then (inr ("already_disabled", polling w), w)
    else
      let w' := broadcast_polling_state (disable_locked w) in
      (inr ("disabled", polling w'), w').

(** The call of [log] stands first, with the level ["EVENT"]. *)
Definition force_update : M unit :=
  (_ <- lift (log EVENT) ;;
   _ <- get_project_name ;;
   _ <- fetch_cycle ;;
   broadcast_update)%M.

(** The start-up part of [lifespan]. *)
Definition lifespan : M unit :=
  (_ <- get_project_name ;;
   _ <- fetch_cycle ;;
   _ <- modify start_polling_task ;;
   broadcast_update)%M.

(** [ws_countdowns] up to its loop: the viewer joins the set and is sent
    the current payload. *)
Definition ws_connect (c : nat) (w : World) : World :=
  let w1 :=
    if existsb (Nat.eqb c) (connected_clients w) then w
    else set_connected_clients (connected_clients w ++ [c])%list w in
  match (payload <- snapshot_payload w1 ;; json_dumps payload)%res with
  | inl _ => w1
  | inr payload =>
      if is_closed w1 c
      then set_connected_clients
             (filter (fun c' => negb (Nat.eqb c' c)) (connected_clients w1)) w1
      else set_sent (sent w1 ++ [(c, payload)])%list w1
  end.

(** ** The passing of time *)

Definition task_due (w : World) (i : nat) : bool :=
  match nth_error (tasks w) i with
  | Some t => negb (done (state t)) && (deadline t <=? clock w)
  | None => false
  end.

(** Every task whose sleep has ended runs, in the order of creation. *)
Fixpoint run_due (indices : list nat) (w : World) : World :=
  match indices with
  | [] => w
  | i :: rest =>
      run_due rest (if task_due w i then auto_disable_polling i w else w)
  end.

(** [dt] seconds pass. *)
Definition elapse (dt : Z) (w : World) : World :=
  let w1 := set_clock (clock w + Z.max 0 dt) w in
  run_due (seq 0 (List.length (tasks w1))) w1.

(** ** Runs of the process *)

Inductive event : Type :=
| EvStartup
| EvEnable
| EvDisable
| EvElapse (dt : Z)
| EvForceUpdate
| EvPoll
| EvConnect (c : nat)
| EvClose (c : nat).

Definition run_event (e : event) (w : World) : World :=
  match e with
  | EvStartup => snd (lifespan w)
  | EvEnable => snd (enable_polling w)
  | EvDisable => snd (disable_polling w)
  | EvElapse dt => elapse dt w
  | EvForceUpdate => snd (force_update w)
  | EvPoll =>
      match polling_task w with
      | Some Pending =>
          match polling_iteration w with
          | (inr _, w') => w'
          | (inl _, w') => set_polling_task (Some Finished) w'
          end
      | _ => w
      end
  | EvConnect c => ws_connect c w
  | EvClose c => set_closed (c :: closed w) w
  end.

Definition run (evs : list event) (w : World) : World :=
  fold_left (fun w e => run_event e w) evs w.

Inductive reachable : World -> Prop :=
| reachable_initial : forall t0, reachable (initial_world t0)
| reachable_step : forall w e, reachable w -> reachable (run_event e w).

End Backend.


(** ** The two loops of a broadcast

    [broadcast_update] and [broadcast_polling_state] end with the same two
    loops: the text is sent to every viewer of a copy of the set, a viewer
    whose [send_text] raises is put on [to_remove], and the viewers on
    [to_remove] are discarded afterwards. *)

(** [for ws in connected_clients.copy(): try: await ws.send_text(text)
    except ...: to_remove.append(ws)]. *)
Fixpoint send_loop (text : pyval) (clients : list nat) (to_remove : list nat)
    (w : World) : list nat * World :=
  match clients with
  | [] => (to_remove, w)
  | ws :: rest =>
      if is_closed w ws
      then send_loop text rest (to_remove ++ [ws])%list w
      else send_loop text rest to_remove
                     (set_sent (sent w ++ [(ws, text)])%list w)
  end.

(** [connected_clients.discard(ws)]. *)
Definition discard (ws : nat) (w : World) : World :=
  set_connected_clients
    (filter (fun c => negb (Nat.eqb c ws)) (connected_clients w)) w.

(** [for ws in to_remove: connected_clients.discard(ws)]. *)
Fixpoint discard_loop (to_remove : list nat) (w : World) : World :=
  match to_remove with
  | [] => w
  | ws :: rest => discard_loop rest (discard ws w)
  end.

Definition broadcast_loops (text : pyval) (w : World) : World :=
  let (to_remove, w') := send_loop text (connected_clients w) [] w in
  discard_loop to_remove w'.

(** * Specification-side definitions *)

(** ** Timecodes *)

Fixpoint all_chars (p : ascii -> bool) (s : string) : bool :=
  match s with
  | EmptyString => true
  | String c r => p c && all_chars p r
  end.

Definition is_digit (c : ascii) : bool :=
  match PyStr.digit_of c with
  | Some _ => true
  | None => false
  end.

(** A non-empty string of decimal digits. *)
Definition is_digits (s : string) : bool :=
  negb (String.eqb s "") && all_chars is_digit s.

Fixpoint digits_value (s : string) (acc : Z) : Z :=
  match s with
  | EmptyString => acc
  | String c r =>
      digits_value r (10 * acc + match PyStr.digit_of c with
                                 | Some d => d
                                 | None => 0
                                 end)
  end.

(** The number a string of digits denotes. *)
Definition number (s : string) : Z := digits_value s 0.

(** ["HH:MM:SS:FF"] and ["-HH:MM:SS:FF"]. *)
Definition timecode (negative : bool) (h m s f : string) : string :=
  (if negative then "-" else "") ++ h ++ ":" ++ m ++ ":" ++ s ++ ":" ++ f.

(** The Countdown the specification assigns to a timecode, with
    [floor(frames / 60 * 1000)] computed exactly. *)
Definition timecode_countdown (negative : bool) (text : string) (h m s f : Z)
    : Countdown :=
  let total := h * 3600000 + m * 60000 + s * 1000 + (f * 1000) / 60 in
  {| raw := VStr text;
     hours := if negative then - h else h;
     minutes := m;
     seconds := s;
     frames := f;
     totalMs := if negative then - total else total |}.

(** [s] splits on [":"] into exactly four components that [int] accepts. *)
Definition four_integers (s : string) : bool :=
  match PyStr.split ":" s with
  | [h; m; sec; f] =>
      match PyStr.int_of_str h, PyStr.int_of_str m,
            PyStr.int_of_str sec, PyStr.int_of_str f with
      | Some _, Some _, Some _, Some _ => true
      | _, _, _, _ => false
      end
  | _ => false
  end.

(** The string the parser splits: [s] without its leading ["-"] characters
    when [s], trimmed, starts with ["-"]. *)
Definition unsigned_part (s : string) : string :=
  if PyStr.startswith (PyStr.strip s) "-" then PyStr.lstrip_char "-" s else s.

(** The characters of a timecode. *)
Definition timecode_char (c : ascii) : bool :=
  is_digit c || Ascii.eqb c ":" || Ascii.eqb c "-".

(** [frames_ms] computes the exact [floor(f * 1000 / 60)]. *)
Definition frames_ms_exact (f : Z) : bool :=
  match frames_ms f with
  | inr ms => ms =? (f * 1000) / 60
  | inl _ => false
  end.


(** ** Cue records *)

(** [cue.get("name") or cue.get("handle")]. *)
Definition cue_name (items : dict) : pyval :=
  py_or (dict_get_default items "name" VNone)
        (dict_get_default items "handle" VNone).

(** The numeric fields of a Countdown dict are those of [c]. *)
Definition numbers_of (cd : dict) (c : Countdown) : Prop :=
  dict_get cd (VStr "hours") = Some (VInt (hours c))
  /\ dict_get cd (VStr "minutes") = Some (VInt (minutes c))
  /\ dict_get cd (VStr "seconds") = Some (VInt (seconds c))
  /\ dict_get cd (VStr "frames") = Some (VInt (frames c))
  /\ dict_get cd (VStr "totalMs") = Some (VInt (totalMs c)).


(** The Countdown the fallback leaves, when it returns. *)
Definition fallback_value (countdown_str : pyval) (countdown_parsed : Countdown)
    (time_parsed : option Countdown) : Countdown :=
  if totalMs countdown_parsed <? 0 then
    match time_parsed with
    | Some tp =>
        if 0 <=? totalMs tp then with_raw tp countdown_str
        else clamp_to_zero countdown_parsed
    | None => clamp_to_zero countdown_parsed
    end
  else countdown_parsed.

(** The value [get_cues] stores for a cue record whose fields parse. *)
Definition stored_cue (items : dict) (cp : Countdown) (tpo : option Countdown)
    : dict :=
  dict_update items
    [ (VStr "countdown",
       VDict (dict_update
                [(VStr "raw", dict_get_default items "countdown" VNone)]
                (countdown_to_dict
                   (fallback_value (dict_get_default items "countdown" VNone) cp tpo))));
      (VStr "_original_countdown_ms", VInt (totalMs cp));
      (VStr "_original_time_ms", py_opt (option_map totalMs tpo)) ].


(** Two cue records with a countdown that has run out. *)
Definition example_cue : dict :=
  [ (VStr "name", VStr "Intro");
    (VStr "operation", VStr "Play");
    (VStr "countdown", VStr "-00:00:05:00");
    (VStr "time", VStr "00:01:00:30") ].

Definition example_cue_no_time : dict :=
  [ (VStr "handle", VInt 7);
    (VStr "note", VStr "lights");
    (VStr "countdown", VStr "-00:00:05:00") ].

(** ** The payload, from the specification

    For every timeline and every cue of it whose [_original_countdown_ms] is
    not negative, one record. *)

Definition field (v : pyval) (k : string) : option pyval :=
  match v with
  | VDict d => dict_get d (VStr k)
  | _ => None
  end.

Definition items_of (v : pyval) : dict :=
  match v with
  | VDict d => d
  | _ => []
  end.

Definition original_countdown_ms (cue : pyval) : option Z :=
  match field cue "_original_countdown_ms" with
  | Some (VInt z) => Some z
  | _ => None
  end.

Definition visible (cue : pyval) : bool :=
  match original_countdown_ms cue with
  | Some z => 0 <=? z
  | None => false
  end.

(** A dict, or a value that counts as false ([None], an empty container). *)
Definition mapping_or_empty (v : pyval) : bool :=
  negb (truthy v) || isinstance_dict v.

Definition or_none (o : option pyval) : pyval :=
  match o with
  | Some v => v
  | None => VNone
  end.

(** A Cue of the data model, as far as the payload needs it: a cue record
    that is a non-empty dict carries an integer [_original_countdown_ms] and
    a [countdown] that is a dict (or is missing or empty). *)
Definition wf_cue (cue : pyval) : bool :=
  match cue with
  | VDict (_ :: _) =>
      match original_countdown_ms cue with
      | Some _ => mapping_or_empty (or_none (field cue "countdown"))
      | None => false
      end
  | _ => true
  end.

(** A Timeline of the data model, as far as the payload needs it: in a
    timeline that is a non-empty dict, [info] is a dict (or is missing or
    empty) and every cue is well formed. *)
Definition wf_timeline (tl : pyval) : bool :=
  match tl with
  | VDict (_ :: _) =>
      mapping_or_empty (or_none (field tl "info"))
      && match field tl "cues" with
         | Some (VDict cues) => forallb (fun kv => wf_cue (snd kv)) cues
         | _ => true
         end
  | _ => true
  end.

Definition wf_timelines (timelines : dict) : bool :=
  forallb (fun kv => wf_timeline (snd kv)) timelines.

Definition timeline_name (tl_handle tl : pyval) : pyval :=
  dict_get_default (items_of (or_none (field tl "info")))
                   "name" (VStr ("Timeline_" ++ py_str tl_handle)).

Definition timeline_mode (tl : pyval) : pyval :=
  dict_get_default (items_of (or_none (field tl "info"))) "Mode" (VStr "BAD").

Definition cue_record (tl_handle tl cue_handle cue : pyval) : pyval :=
  countdown_record tl_handle (timeline_name tl_handle tl) (timeline_mode tl)
    cue_handle (items_of cue) (items_of (or_none (field cue "countdown"))).

Definition timeline_records (tl_handle tl : pyval) : list pyval :=
  map (fun kv => cue_record tl_handle tl (fst kv) (snd kv))
      (filter (fun kv => visible (snd kv))
              (items_of (or_none (field tl "cues")))).

Definition expected_countdowns (timelines : dict) : list pyval :=
  flat_map (fun kv => timeline_records (fst kv) (snd kv)) timelines.

(** A snapshot with one timeline and two cues, one of them with a negative
    [_original_countdown_ms]. *)
Definition example_timelines : dict :=
  [ (VInt 1,
     VDict
       [ (VStr "info", VDict [ (VStr "name", VStr "Main");
                               (VStr "Mode", VStr "Play") ]);
         (VStr "cues",
          VDict
            [ (VStr "Intro",
               VDict [ (VStr "name", VStr "Intro");
                       (VStr "operation", VStr "Play");
                       (VStr "countdown",
                        VDict (countdown_to_dict
                                 {| raw := VStr "-00:00:05:00"; hours := 0;
                                    minutes := 0; seconds := 0; frames := 0;
                                    totalMs := 0 |}));
                       (VStr "_original_countdown_ms", VInt (-5000));
                       (VStr "_original_time_ms", VNone) ]);
              (VStr "Outro",
               VDict [ (VStr "name", VStr "Outro");
                       (VStr "operation", VStr "Stop");
                       (VStr "countdown",
                        VDict (countdown_to_dict
                                 {| raw := VStr "00:00:02:00"; hours := 0;
                                    minutes := 0; seconds := 2; frames := 0;
                                    totalMs := 2000 |}));
                       (VStr "_original_countdown_ms", VInt 2000);
                       (VStr "_original_time_ms", VNone) ]) ]) ]) ].

(** ** Fetch cycles *)

(** The cues the snapshot holds for a timeline. *)
Definition cues_of (w : World) (h : pyval) : option pyval :=
  match dict_get (timelines w) h with
  | Some tl => field tl "cues"
  | None => None
  end.

(** A timeline as [get_timelines] builds it: its info and no cues. *)
Definition fresh_timeline (tl : pyval) : Prop :=
  exists info, tl = VDict [ (VStr "info", info); (VStr "cues", VDict []) ].

(** What [send_json] returns for the cue request with the number [id] and
    the handle [h']: the decoded reply, or the empty dict when the request
    fails. *)
Definition cue_reply (net : pyval -> net_outcome)
    (bytes_decode : string -> option string)
    (json_loads : string -> option pyval) (id : Z) (h' : pyval) : pyval :=
  try_default
    (exchange net bytes_decode json_loads
              (make_request id GET_CUE_INFO (VDict [(VStr "handle", h')])))
    (VDict []).

(** The cue fetch of a cycle for the timeline [h] fails.  [w1] is the state
    after [get_timelines]; the loop over the handles of its table sends the
    request for the handle at position [i] with the number
    [request_id w1 + i].  That request fails (the connection raises, a
    timeout included, the bytes do not decode, the text is not JSON) or its
    reply has no cue records (an empty or missing result). *)
Definition cue_fetch_fails (net : pyval -> net_outcome)
    (bytes_decode : string -> option string)
    (json_loads : string -> option pyval) (w1 : World) (h : pyval) : Prop :=
  forall i h',
    nth_error (dict_keys (timelines w1)) i = Some h' ->
    key_eqb h' h = true ->
    cue_records json_loads
                (cue_reply net bytes_decode json_loads
                           (request_id w1 + Z.of_nat i) h')
    = inr [].

(** The snapshot holds the timeline [h] with no cues. *)
Definition no_cues_at (h : pyval) (w : World) : Prop :=
  exists info,
    dict_get (timelines w) h
    = Some (VDict [ (VStr "info", info); (VStr "cues", VDict []) ]).

(** An engine that lists the timeline 1, answers the info request with an
    empty object and lets every other request time out. *)
Definition quote : string := String (ascii_of_nat 34) "".

Definition timelines_text : string :=
  "{" ++ quote ++ "result" ++ quote ++ ": [1]}".

Definition info_text : string :=
  "{" ++ quote ++ "result" ++ quote ++ ": " ++ quote ++ "{}" ++ quote ++ "}".

Definition example_net (request : pyval) : net_outcome :=
  match field request "method" with
  | Some (VStr m) =>
      if String.eqb m GET_TIMELINES
      then NetReceived (timelines_text ++ MSG_TERMINATOR)
      else if String.eqb m GET_TIMELINE_INFO
           then NetReceived (info_text ++ MSG_TERMINATOR)
           else NetError TimeoutError
  | _ => NetError OSError
  end.

(** The replies are ASCII. *)
Definition example_decode (data : string) : option string := Some data.

(** [json.loads] on the three texts this engine gives rise to. *)
Definition example_loads (text : string) : option pyval :=
  if String.eqb text timelines_text
  then Some (VDict [(VStr "result", VList [VInt 1])])
  else if String.eqb text info_text
       then Some (VDict [(VStr "result", VStr "{}")])
       else if String.eqb text "{}" then Some (VDict []) else None.

(** A snapshot taken while the cues of timeline 1 were still served. *)
Definition example_world : World :=
  set_timelines example_timelines (initial_world 0).

(** An engine with cues.  It answers as the one above and serves two cue
    records for a timeline, except that the request with the number 3 times
    out. *)
Definition q (s : string) : string := quote ++ s ++ quote.

Definition cues_text : string :=
  "{" ++ q "result" ++ ": [{"
      ++ q "name" ++ ": " ++ q "Intro" ++ ", "
      ++ q "operation" ++ ": " ++ q "Play" ++ ", "
      ++ q "countdown" ++ ": " ++ q "-00:00:05:00" ++ ", "
      ++ q "time" ++ ": " ++ q "00:01:00:30" ++ "}, {"
      ++ q "handle" ++ ": 7, "
      ++ q "note" ++ ": " ++ q "lights" ++ ", "
      ++ q "countdown" ++ ": " ++ q "-00:00:05:00" ++ "}]}".

Definition stage_net (request : pyval) : net_outcome :=
  match field request "method", field request "id" with
  | Some (VStr m), Some (VInt id) =>
      if String.eqb m GET_CUE_INFO
      then if id =? 3 then NetError TimeoutError
           else NetReceived (cues_text ++ MSG_TERMINATOR)
      else example_net request
  | _, _ => NetError OSError
  end.

Definition stage_loads (text : string) : option pyval :=
  if String.eqb text cues_text
  then Some (VDict [(VStr "result",
                     VList [VDict example_cue; VDict example_cue_no_time])])
  else example_loads text.







(** ** Polling *)

(** The part of the globals the polling state machine lives in. *)
Definition timer_state (w : World)
    : PollingState * option nat * list Task * Z :=
  (polling w, auto_disable_task w, tasks w, clock w).

Definition keeps_timers {A : Type} (m : M A) : Prop :=
  forall w, timer_state (snd (m w)) = timer_state w.

(** The number of auto-disable timers that are armed. *)
Definition pending_tasks (w : World) : nat :=
  List.length (filter (fun t => negb (done (state t))) (tasks w)).

(** The invariant of the state machine: while polling is enabled, exactly
    one timer is armed, it is the one [auto_disable_task] refers to, and it
    ends six hours after [enabled_at], in the future; while polling is
    disabled, no timer is armed. *)
Definition timers_ok (w : World) : Prop :=
  if enabled (polling w) then
    exists i t t0,
      auto_disable_task w = Some i
      /\ nth_error (tasks w) i = Some t
      /\ state t = Pending
      /\ enabled_at (polling w) = Some t0
      /\ auto_disable_at (polling w) = Some (t0 + 6 * 3600)
      /\ deadline t = t0 + 6 * 3600
      /\ clock w < deadline t
      /\ (forall j t', nth_error (tasks w) j = Some t' ->
                       state t' = Pending -> j = i)
  else
    polling w = polling_disabled
    /\ (forall j t', nth_error (tasks w) j = Some t' -> state t' <> Pending).

(** Events other than the two control requests. *)
Definition quiet (e : event) : Prop :=
  match e with
  | EvEnable | EvDisable => False
  | _ => True
  end.


(** The viewers a broadcast reaches. *)
Definition live_clients (w : World) : list nat :=
  filter (fun c => negb (is_closed w c)) (connected_clients w).

(** The deadline of the timer [auto_disable_task] refers to. *)
Definition deadline_of (w : World) : option Z :=
  match auto_disable_task w with
  | Some i => option_map deadline (nth_error (tasks w) i)
  | None => None
  end.


(** One viewer connects to the freshly started process. *)
Definition one_viewer : World :=
  run_event example_net example_decode example_loads (EvConnect 7)
            (initial_world 0).


(** * Further properties: definitions *)

(** ** The parser *)

(** An [int] or a [bool]: the values on which [":" not in raw] raises. *)
Definition is_number (v : pyval) : bool :=
  match v with
  | VInt _ | VBool _ => true
  | _ => false
  end.

(** [c] with its sign turned and [text] for [raw], as the parser builds it
    for a string with a leading ["-"]. *)
Definition negated (text : string) (c : Countdown) : Countdown :=
  {| raw := VStr text;
     hours := - hours c;
     minutes := minutes c;
     seconds := seconds c;
     frames := frames c;
     totalMs := - totalMs c |}.

(** A component of a timecode on the clock face: at most 4300 digits (of
    which leading zeros may be many) that denote a number below [bound]. *)
Definition component (bound : Z) (s : string) : Prop :=
  is_digits s = true
  /\ Z.of_nat (String.length s) <= 4300
  /\ number s < bound.

(** The order of timecodes: by hours, then minutes, then seconds, then
    frames. *)
Definition earlier (a b : Z * Z * Z * Z) : Prop :=
  let '(h1, m1, s1, f1) := a in
  let '(h2, m2, s2, f2) := b in
  h1 < h2
  \/ (h1 = h2 /\ (m1 < m2
                  \/ (m1 = m2 /\ (s1 < s2 \/ (s1 = s2 /\ f1 < f2))))).

(** ** The payload *)

(** The number of cues the timelines of a snapshot hold. *)
Definition cue_count (timelines : dict) : nat :=
  fold_right
    (fun kv n => (List.length (items_of (or_none (field (snd kv) "cues"))) + n)%nat)
    0%nat timelines.

(** ** Cue records *)

(** The fallback takes its [else] branch: the parsed countdown is negative
    and there is no parsed time that is not. *)
Definition clamps (cp : Countdown) (tpo : option Countdown) : bool :=
  (totalMs cp <? 0)
  && negb (match tpo with
           | Some tp => 0 <=? totalMs tp
           | None => false
           end).

(** The warning of that branch can be formatted: neither the cue's name nor
    the negative [totalMs] holds an int of more than 4300 digits. *)
Definition warning_formats (items : dict) (cp : Countdown) : bool :=
  printable (dict_get_default items "name" (VStr "unknown"))
  && int_str_ok (totalMs cp).

(** What the last record of the list that goes by the name [k] would be
    stored as, if there is one. *)
Fixpoint last_with_name (k : pyval) (records : list pyval) : option pyval :=
  match records with
  | [] => None
  | cue :: rest =>
      match last_with_name k rest with
      | Some v => Some v
      | None =>
          match cue_entry cue with
          | inr (k', v) => if key_eqb k' k then Some v else None
          | inl _ => None
          end
      end
  end.

(** ** Replies *)

(** [pat in s]. *)
Fixpoint occurs (pat s : string) : bool :=
  match s with
  | EmptyString => PyStr.startswith s pat
  | String _ r => PyStr.startswith s pat || occurs pat r
  end.

(** ** Frames *)

(** The computation [m] leaves the part [f] of the globals as it is. *)
Definition keeps {A B : Type} (f : World -> B) (m : M A) : Prop :=
  forall w, f (snd (m w)) = f w.

(** ** Polling *)

(** The time at which polling was enabled lies in the past. *)
Definition enabled_in_the_past (w : World) : Prop :=
  forall t0, enabled_at (polling w) = Some t0 -> t0 <= clock w.

(** Events that ask for no data: the clock, the polling loop, the viewers
    and [disable_polling]. *)
Definition idle (e : event) : Prop :=
  match e with
  | EvStartup | EvEnable | EvForceUpdate => False
  | _ => True
  end.

(** The data the fetchers write, the request counter and the polling
    state. *)
Definition fetched (w : World) : dict * dict * Z * PollingState :=
  (timelines w, status w, request_id w, polling w).

(** An engine that answers every request with a null result. *)
Definition null_net (request : pyval) : net_outcome :=
  NetReceived ("{" ++ quote ++ "result" ++ quote ++ ": null}" ++ MSG_TERMINATOR).

Definition null_loads (text : string) : option pyval :=
  Some (VDict [(VStr "result", VNone)]).

(** Polling has just been enabled against that engine. *)
Definition null_enabled : World :=
  run_event null_net example_decode null_loads EvEnable (initial_world 0).

(** ** The snapshot after a fetch cycle *)

(** The cues of a timeline are cues of the data model. *)
Definition cues_ok (tl : pyval) : bool :=
  match field tl "cues" with
  | Some (VDict cues) => forallb (fun kv => wf_cue (snd kv)) cues
  | _ => true
  end.

(** The [info] of a timeline is a mapping, or missing, or a value that
    counts as false. *)
Definition info_ok (tl : pyval) : bool :=
  mapping_or_empty (or_none (field tl "info")).

Definition infos_ok (timelines : dict) : bool :=
  forallb (fun kv => info_ok (snd kv)) timelines.

(** ** The records of a cue reply *)

(** The cue records [get_cues] reads from the reply to its request. *)
Definition fetched_records (net : pyval -> net_outcome)
    (bytes_decode : string -> option string)
    (json_loads : string -> option pyval) (h : pyval) (w : World)
    : res (list pyval) :=
  cue_records json_loads
              (cue_reply net bytes_decode json_loads (request_id w) h).

(** No record of [later] goes by the name of the record [items]. *)
Definition last_of_its_name (items : dict) (later : list pyval) : Prop :=
  forall items',
    In (VDict items') later ->
    key_eqb (cue_name items') (cue_name items) = false.

(** [get_cues h] returns on the state [w], in which the timeline [h] is
    known, and leaves the state [w']; [VDict items] is a record of the reply
    and the last one with its name. *)
Definition fetches_cue (net : pyval -> net_outcome)
    (bytes_decode : string -> option string)
    (json_loads : string -> option pyval) (h : pyval) (w w' : World)
    (items : dict) : Prop :=
  get_cues net bytes_decode json_loads h w = (inr tt, w')
  /\ dict_get (timelines w) h <> None
  /\ exists earlier later,
       fetched_records net bytes_decode json_loads h w
       = inr (earlier ++ VDict items :: later)%list
       /\ last_of_its_name items later.
(** * Properties *)

(** ** The parser on concrete strings *)

Example parse_plain :
  parse_countdown_string (VStr "01:02:03:30")
  = inr {| raw := VStr "01:02:03:30"; hours := 1; minutes := 2; seconds := 3;
           frames := 30; totalMs := 3723500 |}.
Proof. vm_compute. reflexivity. Qed.

Example parse_negative :
  parse_countdown_string (VStr "-00:00:05:00")
  = inr {| raw := VStr "-00:00:05:00"; hours := 0; minutes := 0; seconds := 5;
           frames := 0; totalMs := -5000 |}.
Proof. vm_compute. reflexivity. Qed.

Example parse_spaces_sign_underscore :
  parse_countdown_string (VStr " 1 : +2:3_0:4 ")
  = inr {| raw := VStr " 1 : +2:3_0:4 "; hours := 1; minutes := 2; seconds := 30;
           frames := 4; totalMs := 3750066 |}.
Proof. vm_compute. reflexivity. Qed.

Example parse_three_parts :
  parse_countdown_string (VStr "1:2:3") = inr zero_countdown.
Proof. vm_compute. reflexivity. Qed.

Example parse_number : parse_countdown_string (VInt 5) = inl TypeError.
Proof. vm_compute. reflexivity. Qed.

Example parse_none : parse_countdown_string VNone = inr zero_countdown.
Proof. vm_compute. reflexivity. Qed.

Example parse_not_an_integer :
  parse_countdown_string (VStr "0:0:0:1e3") = inr zero_countdown.
Proof. vm_compute. reflexivity. Qed.

(** ** Strings *)

Lemma all_chars_app (p : ascii -> bool) (s t : string) :
  all_chars p (s ++ t) = all_chars p s && all_chars p t.
Proof.
  induction s as [|c s IH]; simpl; [reflexivity|].
  rewrite IH. now rewrite andb_assoc.
Qed.

Lemma all_chars_impl (p q : ascii -> bool) (s : string) :
  (forall c, p c = true -> q c = true) ->
  all_chars p s = true -> all_chars q s = true.
Proof.
  intros Hpq. induction s as [|c s IH]; simpl; [reflexivity|].
  intros H. apply andb_true_iff in H as [Hc Hs].
  apply andb_true_iff. split; auto.
Qed.

Lemma timecode_char_not_space (c : ascii) :
  timecode_char c = true -> negb (PyStr.isspace c) = true.
Proof.
  destruct c as [[] [] [] [] [] [] [] []]; vm_compute; congruence.
Qed.

Lemma is_digit_timecode_char (c : ascii) :
  is_digit c = true -> timecode_char c = true.
Proof. unfold timecode_char. intros ->. reflexivity. Qed.

Lemma is_digit_not_colon (c : ascii) :
  is_digit c = true -> Ascii.eqb c ":" = false.
Proof. destruct c as [[] [] [] [] [] [] [] []]; vm_compute; congruence. Qed.

Lemma is_digit_not_minus (c : ascii) :
  is_digit c = true -> Ascii.eqb c "-" = false.
Proof. destruct c as [[] [] [] [] [] [] [] []]; vm_compute; congruence. Qed.

Lemma is_digit_not_plus (c : ascii) :
  is_digit c = true -> Ascii.eqb c "+" = false.
Proof. destruct c as [[] [] [] [] [] [] [] []]; vm_compute; congruence. Qed.

Lemma rstrip_no_space (s : string) :
  all_chars (fun c => negb (PyStr.isspace c)) s = true -> PyStr.rstrip s = s.
Proof.
  induction s as [|c s IH]; simpl; [reflexivity|].
  intros H. apply andb_true_iff in H as [Hc Hs].
  rewrite (IH Hs). destruct s; [|reflexivity].
  apply negb_true_iff in Hc. now rewrite Hc.
Qed.

Lemma lstrip_no_space (s : string) :
  all_chars (fun c => negb (PyStr.isspace c)) s = true -> PyStr.lstrip s = s.
Proof.
  destruct s as [|c s]; simpl; [reflexivity|].
  intros H. apply andb_true_iff in H as [Hc _].
  apply negb_true_iff in Hc. now rewrite Hc.
Qed.

Lemma strip_no_space (s : string) :
  all_chars (fun c => negb (PyStr.isspace c)) s = true -> PyStr.strip s = s.
Proof.
  intros H. unfold PyStr.strip. rewrite (lstrip_no_space s H).
  now apply rstrip_no_space.
Qed.

Lemma split_no_sep (s : string) :
  PyStr.contains ":" s = false -> PyStr.split ":" s = [s].
Proof.
  induction s as [|c s IH]; simpl; [reflexivity|].
  intros H. apply orb_false_iff in H as [Hc Hs].
  rewrite Hc, (IH Hs). reflexivity.
Qed.

Lemma split_app_sep (s t : string) :
  PyStr.contains ":" s = false ->
  PyStr.split ":" (s ++ String ":" t) = s :: PyStr.split ":" t.
Proof.
  induction s as [|c s IH]; simpl.
  - reflexivity.
  - intros H. apply orb_false_iff in H as [Hc Hs].
    rewrite Hc, (IH Hs). reflexivity.
Qed.

Lemma digits_no_colon (s : string) :
  all_chars is_digit s = true -> PyStr.contains ":" s = false.
Proof.
  induction s as [|c s IH]; simpl; [reflexivity|].
  intros H. apply andb_true_iff in H as [Hc Hs].
  now rewrite (is_digit_not_colon c Hc), (IH Hs).
Qed.

Lemma contains_app (s t : string) :
  PyStr.contains ":" (s ++ t) = PyStr.contains ":" s || PyStr.contains ":" t.
Proof.
  induction s as [|c s IH]; simpl; [reflexivity|].
  now rewrite IH, orb_assoc.
Qed.

Lemma int_rstrip_no_space (s : string) :
  all_chars (fun c => negb (PyStr.int_isspace c)) s = true ->
  PyStr.int_rstrip s = s.
Proof.
  induction s as [|c s IH]; simpl; [reflexivity|].
  intros H. apply andb_true_iff in H as [Hc Hs].
  rewrite (IH Hs). destruct s; [|reflexivity].
  apply negb_true_iff in Hc. now rewrite Hc.
Qed.

Lemma int_lstrip_no_space (s : string) :
  all_chars (fun c => negb (PyStr.int_isspace c)) s = true ->
  PyStr.int_lstrip s = s.
Proof.
  destruct s as [|c s]; simpl; [reflexivity|].
  intros H. apply andb_true_iff in H as [Hc _].
  apply negb_true_iff in Hc. now rewrite Hc.
Qed.

Lemma int_strip_no_space (s : string) :
  all_chars (fun c => negb (PyStr.int_isspace c)) s = true ->
  PyStr.int_strip s = s.
Proof.
  intros H. unfold PyStr.int_strip. rewrite (int_lstrip_no_space s H).
  now apply int_rstrip_no_space.
Qed.

(** ** [int] on strings of digits *)

Lemma int_body_digits (s : string) :
  all_chars is_digit s = true ->
  forall acc cnt,
    PyStr.int_body s false acc cnt
    = Some (digits_value s acc, cnt + Z.of_nat (String.length s)).
Proof.
  induction s as [|c s IH]; simpl; intros H acc cnt.
  - now rewrite Z.add_0_r.
  - apply andb_true_iff in H as [Hc Hs].
    unfold is_digit in Hc. destruct (PyStr.digit_of c) as [d|]; [|discriminate].
    rewrite (IH Hs). f_equal. f_equal. lia.
Qed.

Lemma int_unsigned_digits (s : string) :
  is_digits s = true ->
  Z.of_nat (String.length s) <= PyStr.int_max_str_digits ->
  PyStr.int_unsigned s = Some (number s).
Proof.
  unfold is_digits. intros H Hlen.
  apply andb_true_iff in H as [Hne Hd].
  destruct s as [|c s]; [discriminate|].
  simpl in Hd. apply andb_true_iff in Hd as [Hc Hs].
  unfold PyStr.int_unsigned, number. simpl digits_value.
  unfold is_digit in Hc. destruct (PyStr.digit_of c) as [d|]; [|discriminate].
  rewrite (int_body_digits s Hs).
  simpl String.length in Hlen.
  replace (1 + Z.of_nat (String.length s) <=? PyStr.int_max_str_digits) with true.
  - reflexivity.
  - symmetry. apply Z.leb_le. lia.
Qed.

Lemma digits_not_space (s : string) :
  all_chars is_digit s = true ->
  all_chars (fun c => negb (PyStr.isspace c)) s = true.
Proof.
  apply all_chars_impl. intros c Hc.
  apply timecode_char_not_space. now apply is_digit_timecode_char.
Qed.

Lemma is_digit_not_int_space (c : ascii) :
  is_digit c = true -> negb (PyStr.int_isspace c) = true.
Proof. destruct c as [[] [] [] [] [] [] [] []]; vm_compute; congruence. Qed.

Lemma int_of_str_digits (s : string) :
  is_digits s = true ->
  Z.of_nat (String.length s) <= PyStr.int_max_str_digits ->
  PyStr.int_of_str s = Some (number s).
Proof.
  intros H Hlen. unfold PyStr.int_of_str.
  pose proof H as H'. unfold is_digits in H'.
  apply andb_true_iff in H' as [Hne Hd].
  rewrite (int_strip_no_space s (all_chars_impl _ _ s is_digit_not_int_space Hd)).
  destruct s as [|c s]; [discriminate|].
  simpl in Hd. apply andb_true_iff in Hd as [Hc Hs].
  rewrite (is_digit_not_minus c Hc), (is_digit_not_plus c Hc).
  now apply int_unsigned_digits.
Qed.

Lemma py_int_digits (s : string) :
  is_digits s = true ->
  Z.of_nat (String.length s) <= PyStr.int_max_str_digits ->
  PyStr.py_int s = inr (number s).
Proof.
  intros H Hlen. unfold PyStr.py_int. now rewrite (int_of_str_digits s H Hlen).
Qed.

Lemma digits_value_nonneg (s : string) (acc : Z) :
  0 <= acc -> 0 <= digits_value s acc.
Proof.
  revert acc. induction s as [|c s IH]; cbn [digits_value]; intros acc Hacc;
    [assumption|].
  apply IH. unfold PyStr.digit_of. cbv zeta.
  destruct ((48 <=? N_of_ascii c)%N && (N_of_ascii c <=? 57)%N) eqn:E; [|lia].
  apply andb_true_iff in E as [E1 _]. apply N.leb_le in E1. lia.
Qed.

(** ** The frame term *)

Lemma frames_ms_below_969_all :
  forallb frames_ms_exact (map Z.of_nat (seq 0 969)) = true.
Proof. vm_compute. reflexivity. Qed.

Lemma frames_ms_below_969 (f : Z) :
  0 <= f < 969 -> frames_ms f = inr ((f * 1000) / 60).
Proof.
  intros Hf.
  pose proof frames_ms_below_969_all as Hall.
  rewrite forallb_forall in Hall.
  specialize (Hall f).
  assert (Hin : In f (map Z.of_nat (seq 0 969))).
  { apply in_map_iff. exists (Z.to_nat f). split; [lia|].
    apply in_seq. lia. }
  specialize (Hall Hin). unfold frames_ms_exact in Hall.
  destruct (frames_ms f) as [e|ms]; [discriminate|].
  apply Z.eqb_eq in Hall. now subst.
Qed.
(** ** Timecodes *)

Lemma timecode_chars (negative : bool) (h m s f : string) :
  all_chars is_digit h = true -> all_chars is_digit m = true ->
  all_chars is_digit s = true -> all_chars is_digit f = true ->
  all_chars timecode_char (timecode negative h m s f) = true.
Proof.
  intros Hh Hm Hs Hf. unfold timecode.
  assert (D : forall x, all_chars is_digit x = true ->
                        all_chars timecode_char x = true).
  { intros x. apply all_chars_impl, is_digit_timecode_char. }
  rewrite !all_chars_app. rewrite (D h Hh), (D m Hm), (D s Hs), (D f Hf).
  destruct negative; reflexivity.
Qed.

Lemma timecode_strip (negative : bool) (h m s f : string) :
  all_chars is_digit h = true -> all_chars is_digit m = true ->
  all_chars is_digit s = true -> all_chars is_digit f = true ->
  PyStr.strip (timecode negative h m s f) = timecode negative h m s f.
Proof.
  intros Hh Hm Hs Hf. apply strip_no_space.
  apply all_chars_impl with (p := timecode_char).
  - apply timecode_char_not_space.
  - now apply timecode_chars.
Qed.

Lemma timecode_split (h m s f : string) :
  all_chars is_digit h = true -> all_chars is_digit m = true ->
  all_chars is_digit s = true -> all_chars is_digit f = true ->
  PyStr.split ":" (timecode false h m s f) = [h; m; s; f].
Proof.
  intros Hh Hm Hs Hf. unfold timecode. cbn [append].
  change (h ++ ":" ++ m ++ ":" ++ s ++ ":" ++ f)
    with (h ++ String ":" (m ++ String ":" (s ++ String ":" f))).
  rewrite !split_app_sep by now apply digits_no_colon.
  rewrite split_no_sep by now apply digits_no_colon.
  reflexivity.
Qed.

Lemma timecode_is_negative (negative : bool) (h m s f : string) :
  is_digits h = true ->
  PyStr.startswith (timecode negative h m s f) "-" = negative.
Proof.
  unfold is_digits. intros H. apply andb_true_iff in H as [Hne Hd].
  destruct h as [|c h]; [discriminate|].
  simpl in Hd. apply andb_true_iff in Hd as [Hc _].
  destruct negative; unfold timecode; cbn.
  - reflexivity.
  - now rewrite (is_digit_not_minus c Hc).
Qed.

Lemma timecode_unsigned_part (negative : bool) (h m s f : string) :
  is_digits h = true ->
  (if negative then PyStr.lstrip_char "-" (timecode negative h m s f)
   else timecode negative h m s f) = timecode false h m s f.
Proof.
  unfold is_digits. intros H. apply andb_true_iff in H as [Hne Hd].
  destruct h as [|c h]; [discriminate|].
  simpl in Hd. apply andb_true_iff in Hd as [Hc _].
  destruct negative; [|reflexivity].
  unfold timecode. cbn. now rewrite (is_digit_not_minus c Hc).
Qed.

Lemma timecode_has_colon (negative : bool) (h m s f : string) :
  PyStr.contains ":" (timecode negative h m s f) = true.
Proof.
  unfold timecode. rewrite !contains_app. cbn.
  rewrite !orb_true_r. reflexivity.
Qed.

Lemma timecode_not_empty (negative : bool) (h m s f : string) :
  String.eqb (timecode negative h m s f) "" = false.
Proof.
  unfold timecode. destruct negative; [reflexivity|].
  destruct h; reflexivity.
Qed.

Lemma is_digits_all (s : string) :
  is_digits s = true -> all_chars is_digit s = true.
Proof. unfold is_digits. intros H. now apply andb_true_iff in H. Qed.

(** C2, amended.  For a timecode [HH:MM:SS:FF] or [-HH:MM:SS:FF] whose four
    components are non-empty strings of at most 4300 decimal digits and whose
    frame component is below 969, [parse_countdown_string] returns the four
    components as hours, minutes, seconds and frames and
    [totalMs = hours*3600000 + minutes*60000 + seconds*1000
     + floor(frames*1000/60)], with [totalMs] and [hours], and only these,
    negated under a leading ["-"]. *)
Theorem parse_timecode (negative : bool) (h m s f : string) :
  is_digits h = true -> is_digits m = true ->
  is_digits s = true -> is_digits f = true ->
  Z.of_nat (String.length h) <= 4300 -> Z.of_nat (String.length m) <= 4300 ->
  Z.of_nat (String.length s) <= 4300 -> Z.of_nat (String.length f) <= 4300 ->
  number f < 969 ->
  parse_countdown_string (VStr (timecode negative h m s f))
  = inr (timecode_countdown negative (timecode negative h m s f)
                            (number h) (number m) (number s) (number f)).
Proof.
  intros Hh Hm Hs Hf Lh Lm Ls Lf Hframes.
  pose proof (is_digits_all h Hh) as Ah. pose proof (is_digits_all m Hm) as Am.
  pose proof (is_digits_all s Hs) as As. pose proof (is_digits_all f Hf) as Af.
  unfold parse_countdown_string. cbn [truthy has_colon rbind].
  rewrite timecode_not_empty, timecode_has_colon. cbn [negb].
  unfold parse_body.
  rewrite timecode_strip by assumption.
  rewrite timecode_is_negative by assumption.
  rewrite timecode_unsigned_part by assumption.
  rewrite timecode_split by assumption.
  rewrite !py_int_digits by assumption. cbn [rbind].
  rewrite frames_ms_below_969.
  2: { split; [|assumption]. apply digits_value_nonneg. lia. }
  cbn [rbind try_except]. unfold timecode_countdown.
  destruct negative; do 2 f_equal; lia.
Qed.

(** The two timecodes of the specification. *)
Lemma parse_timecode_witness :
  parse_countdown_string (VStr "01:02:03:30")
  = inr {| raw := VStr "01:02:03:30"; hours := 1; minutes := 2; seconds := 3;
           frames := 30; totalMs := 3723500 |}
  /\ parse_countdown_string (VStr "-00:00:05:00")
     = inr {| raw := VStr "-00:00:05:00"; hours := 0; minutes := 0;
              seconds := 5; frames := 0; totalMs := -5000 |}.
Proof.
  split.
  - apply (parse_timecode false "01" "02" "03" "30");
      first [reflexivity | vm_compute; congruence].
  - apply (parse_timecode true "00" "00" "05" "00");
      first [reflexivity | vm_compute; congruence].
Defined.

(** C2 as stated fails on the frame component 969: the float product
    [(969 / 60) * 1000] is 16149.999999999998 and truncates to 16149, while
    [floor(969 * 1000 / 60)] is 16150. *)
Lemma parse_timecode_969_counterexample :
  is_digits "00" = true /\ is_digits "969" = true
  /\ parse_countdown_string (VStr (timecode false "00" "00" "00" "969"))
     = inr {| raw := VStr "00:00:00:969"; hours := 0; minutes := 0; seconds := 0;
              frames := 969; totalMs := 16149 |}
  /\ parse_countdown_string (VStr (timecode false "00" "00" "00" "969"))
     <> inr (timecode_countdown false (timecode false "00" "00" "00" "969")
                                (number "00") (number "00") (number "00")
                                (number "969")).
Proof.
  repeat split; try (vm_compute; reflexivity).
  vm_compute. intros H. discriminate H.
Qed.

(** ** Strings the parser rejects *)

Lemma parse_body_four_integers (s : string) (c : Countdown) :
  parse_body s = inr c -> four_integers (unsigned_part s) = true.
Proof.
  unfold parse_body, four_integers, unsigned_part.
  destruct (PyStr.split ":"
              (if PyStr.startswith (PyStr.strip s) "-"
               then PyStr.lstrip_char "-" s else s))
    as [|h [|m [|sec [|f [|x l]]]]]; try discriminate.
  unfold PyStr.py_int.
  destruct (PyStr.int_of_str h); [|discriminate].
  destruct (PyStr.int_of_str m); [|discriminate].
  destruct (PyStr.int_of_str sec); [|discriminate].
  destruct (PyStr.int_of_str f); [|discriminate].
  reflexivity.
Qed.

(** C8, amended.  A string that is empty, has no [":"], or whose part after
    the sign (the string itself, or the string without its leading ["-"]
    characters when its trimmed form starts with ["-"]) does not split on
    [":"] into exactly four components accepted by [int], is parsed to the
    zero Countdown; nothing is raised. *)
Theorem parse_malformed (s : string) :
  s = "" \/ PyStr.contains ":" s = false
  \/ four_integers (unsigned_part s) = false ->
  parse_countdown_string (VStr s) = inr zero_countdown.
Proof.
  intros H. unfold parse_countdown_string. cbn [truthy has_colon rbind].
  destruct (String.eqb s "") eqn:Es; [reflexivity|]. cbn [negb].
  destruct (PyStr.contains ":" s) eqn:Ec; [|reflexivity]. cbn [negb].
  destruct H as [H|[H|H]].
  - subst s. discriminate.
  - discriminate.
  - destruct (parse_body s) as [e|c] eqn:Eb; [reflexivity|].
    apply parse_body_four_integers in Eb. congruence.
Qed.

(** The last string has the unit separator, the character 31, before its
    frames: [str.strip] would remove it, [int] does not accept it. *)
Lemma parse_malformed_witness :
  parse_countdown_string (VStr "") = inr zero_countdown
  /\ parse_countdown_string (VStr "12345") = inr zero_countdown
  /\ parse_countdown_string (VStr "1:2:3") = inr zero_countdown
  /\ parse_countdown_string (VStr "-1:2:x:4") = inr zero_countdown
  /\ parse_countdown_string (VStr ("1:2:3:" ++ String (ascii_of_nat 31) "4"))
     = inr zero_countdown.
Proof.
  split; [|split; [|split; [|split]]].
  - apply (parse_malformed ""). left. reflexivity.
  - apply (parse_malformed "12345"). right. left. reflexivity.
  - apply (parse_malformed "1:2:3"). right. right. reflexivity.
  - apply (parse_malformed "-1:2:x:4"). right. right. reflexivity.
  - apply (parse_malformed ("1:2:3:" ++ String (ascii_of_nat 31) "4")).
    right. right. reflexivity.
Defined.

(** C8 as stated fails on ["--1:2:3:4"]: the string does not split into
    four integers (["--1"] is none), yet both leading ["-"] are removed
    before the split and the parse succeeds. *)
Lemma parse_malformed_counterexample :
  four_integers "--1:2:3:4" = false
  /\ parse_countdown_string (VStr "--1:2:3:4")
     = inr {| raw := VStr "--1:2:3:4"; hours := -1; minutes := 2; seconds := 3;
              frames := 4; totalMs := -3723066 |}
  /\ parse_countdown_string (VStr "--1:2:3:4") <> inr zero_countdown.
Proof.
  repeat split; try (vm_compute; reflexivity).
  vm_compute. intros H. discriminate H.
Qed.

(** ** Dicts *)

Lemma key_eqb_str_r (a : string) (k : pyval) :
  key_eqb k (VStr a) = true -> k = VStr a.
Proof.
  destruct k; simpl; try discriminate.
  intros H. apply String.eqb_eq in H. now subst.
Qed.

Lemma key_eqb_refl (k : pyval) : hashable k = true -> key_eqb k k = true.
Proof.
  destruct k; simpl; try discriminate; intros _.
  - reflexivity.
  - apply Z.eqb_refl.
  - apply Z.eqb_refl.
  - apply String.eqb_refl.
Qed.

Lemma key_eqb_sym (a b : pyval) : key_eqb a b = key_eqb b a.
Proof.
  destruct a, b; simpl; try reflexivity;
    try apply Z.eqb_sym; apply String.eqb_sym.
Qed.

Lemma key_eqb_trans (a b c : pyval) :
  key_eqb a b = true -> key_eqb b c = true -> key_eqb a c = true.
Proof.
  destruct a, b; simpl; try discriminate; destruct c; simpl;
    try discriminate; try reflexivity;
    rewrite ?Z.eqb_eq, ?String.eqb_eq; congruence.
Qed.

Lemma dict_get_set_same (d : dict) (k v : pyval) :
  hashable k = true -> dict_get (dict_set d k v) k = Some v.
Proof.
  intros Hk. induction d as [|[k' v'] d IH]; cbn [dict_get dict_set].
  - now rewrite key_eqb_refl.
  - destruct (key_eqb k' k) eqn:E; cbn [dict_get]; rewrite E;
      [reflexivity|exact IH].
Qed.

Lemma dict_get_set_str_other (d : dict) (a : string) (v k : pyval) :
  key_eqb (VStr a) k = false ->
  dict_get (dict_set d (VStr a) v) k = dict_get d k.
Proof.
  intros Hk. induction d as [|[k' v'] d IH]; cbn [dict_get dict_set].
  - now rewrite Hk.
  - destruct (key_eqb k' (VStr a)) eqn:E; cbn [dict_get].
    + apply key_eqb_str_r in E. subst k'. now rewrite Hk.
    + now rewrite IH.
Qed.

Lemma dict_get_set_str_same (d : dict) (a : string) (v : pyval) :
  dict_get (dict_set d (VStr a) v) (VStr a) = Some v.
Proof. now apply dict_get_set_same. Qed.

(** ** The fallback of [get_cues] *)

Lemma parse_body_raw (s : string) (c : Countdown) :
  parse_body s = inr c -> raw c = VStr s.
Proof.
  unfold parse_body.
  destruct (PyStr.split ":" _) as [|h [|m [|sec [|f [|x l]]]]]; try discriminate.
  destruct (PyStr.py_int h); [discriminate|].
  destruct (PyStr.py_int m); [discriminate|].
  destruct (PyStr.py_int sec); [discriminate|].
  destruct (PyStr.py_int f); [discriminate|].
  cbn [rbind]. destruct (frames_ms _); [discriminate|]. cbn [rbind].
  intros H. injection H as <-. reflexivity.
Qed.

(** What the [except] branch of the parser returns, when its warning can
    be formatted. *)
Lemma parse_handler_zero (v : pyval) (c : Countdown) :
  (_ <- py_format v ;; _ <- log WARN ;; inr zero_countdown)%res = inr c ->
  c = zero_countdown.
Proof.
  unfold py_format. destruct (printable v); cbn [rbind log]; congruence.
Qed.

Lemma parse_handler_str (s : string) :
  (_ <- py_format (VStr s) ;; _ <- log WARN ;; inr zero_countdown)%res
  = inr zero_countdown.
Proof. reflexivity. Qed.

(** A parse with a non-zero result comes from a string and keeps it. *)
Lemma parse_nonzero_total (v : pyval) (c : Countdown) :
  parse_countdown_string v = inr c -> totalMs c <> 0 ->
  exists s, v = VStr s /\ raw c = VStr s /\ s <> "".
Proof.
  unfold parse_countdown_string. intros H Hne.
  destruct (truthy v) eqn:Ht; cbn [negb] in H.
  2: { injection H as <-. now elim Hne. }
  destruct (has_colon v) as [e|b] eqn:Hc; [discriminate|]. cbn [rbind] in H.
  destruct b; cbn [negb] in H.
  2: { injection H as <-. now elim Hne. }
  destruct v as [| | |s| |]; try discriminate;
    try (cbn [try_except] in H; apply parse_handler_zero in H; subst c;
         now elim Hne).
  destruct (parse_body s) as [e|c'] eqn:Eb; cbn [try_except] in H.
  - apply parse_handler_zero in H. subst c. now elim Hne.
  - injection H as <-. exists s. repeat split.
    + now apply parse_body_raw.
    + intros ->. discriminate.
Qed.

(** When the fallback returns, it returns the Countdown of the policy. *)
Lemma fallback_returns (cue cs : pyval) (cp c : Countdown)
    (tpo : option Countdown) :
  fallback cue cs cp tpo = inr c -> c = fallback_value cs cp tpo.
Proof.
  unfold fallback, fallback_value, clamp.
  destruct (totalMs cp <? 0); [|congruence].
  assert (Hclamp : (name <- py_get cue "name" (VStr "unknown") ;;
                    _ <- py_format name ;;
                    _ <- py_format (VInt (totalMs cp)) ;;
                    _ <- log WARN ;;
                    inr (clamp_to_zero cp))%res = inr c ->
                   c = clamp_to_zero cp).
  { destruct (py_get cue "name" (VStr "unknown")) as [e|name];
      [discriminate|]. cbn [rbind].
    destruct (py_format name) as [e|[]]; [discriminate|]. cbn [rbind].
    destruct (py_format (VInt (totalMs cp))) as [e|[]]; [discriminate|].
    cbn [rbind log]. congruence. }
  destruct tpo as [tp|]; [|exact Hclamp].
  destruct (0 <=? totalMs tp); [congruence|exact Hclamp].
Qed.

Lemma cue_entry_parsed (items : dict) (cp c : Countdown)
    (tpo : option Countdown) :
  parse_countdown_string (dict_get_default items "countdown" VNone) = inr cp ->
  parse_if_present (dict_get_default items "time" VNone) = inr tpo ->
  fallback (VDict items) (dict_get_default items "countdown" VNone) cp tpo
  = inr c ->
  hashable (cue_name items) = true ->
  cue_entry (VDict items) = inr (cue_name items, VDict (stored_cue items cp tpo)).
Proof.
  intros Hc Ht Hf Hn. unfold cue_entry. cbn [py_get rbind].
  rewrite Hc. cbn [rbind]. rewrite Ht. cbn [rbind]. rewrite Hf. cbn [rbind].
  fold (cue_name items). rewrite Hn.
  now rewrite (fallback_returns _ _ _ _ _ Hf).
Qed.

Lemma stored_countdown_dict (cs : pyval) (c : Countdown) :
  dict_update [(VStr "raw", cs)] (countdown_to_dict c) = countdown_to_dict c.
Proof. reflexivity. Qed.

Lemma stored_cue_countdown (items : dict) (cp : Countdown) (tpo : option Countdown) :
  dict_get (stored_cue items cp tpo) (VStr "countdown")
  = Some (VDict (countdown_to_dict
                   (fallback_value (dict_get_default items "countdown" VNone) cp tpo))).
Proof.
  unfold stored_cue, dict_update at 1. cbn [fold_left fst snd].
  rewrite dict_get_set_str_other by reflexivity.
  rewrite dict_get_set_str_other by reflexivity.
  rewrite dict_get_set_str_same. reflexivity.
Qed.

Lemma stored_cue_original_ms (items : dict) (cp : Countdown) (tpo : option Countdown) :
  dict_get (stored_cue items cp tpo) (VStr "_original_countdown_ms")
  = Some (VInt (totalMs cp)).
Proof.
  unfold stored_cue, dict_update at 1. cbn [fold_left fst snd].
  rewrite dict_get_set_str_other by reflexivity.
  now rewrite dict_get_set_str_same.
Qed.


Lemma fallback_substituted (cs : pyval) (cp tp : Countdown) :
  totalMs cp < 0 -> 0 <= totalMs tp ->
  fallback_value cs cp (Some tp) = with_raw tp cs.
Proof.
  intros Hc Ht. unfold fallback_value.
  apply Z.ltb_lt in Hc. apply Z.leb_le in Ht. now rewrite Hc, Ht.
Qed.

Lemma fallback_clamped (cs : pyval) (cp : Countdown) (tpo : option Countdown) :
  totalMs cp < 0 ->
  tpo = None \/ (exists tp, tpo = Some tp /\ totalMs tp < 0) ->
  fallback_value cs cp tpo = clamp_to_zero cp.
Proof.
  intros Hc Ht. unfold fallback_value. apply Z.ltb_lt in Hc. rewrite Hc.
  destruct Ht as [->|[tp [-> Ht]]]; [reflexivity|].
  apply Z.leb_gt in Ht. now rewrite Ht.
Qed.

Lemma fallback_untouched (cs : pyval) (cp : Countdown) (tpo : option Countdown) :
  0 <= totalMs cp -> fallback_value cs cp tpo = cp.
Proof.
  intros Hc. unfold fallback_value. apply Z.ltb_ge in Hc. now rewrite Hc.
Qed.

(** ** The broadcast payload *)

Lemma dict_get_default_some (d : dict) (k : string) (v default : pyval) :
  dict_get d (VStr k) = Some v -> dict_get_default d k default = v.
Proof. unfold dict_get_default. now intros ->. Qed.

Lemma py_or_mapping (v : pyval) :
  mapping_or_empty v = true -> py_or v (VDict []) = VDict (items_of v).
Proof.
  unfold mapping_or_empty, py_or.
  destruct v as [|b|z|s|l|d]; cbn [truthy isinstance_dict items_of negb orb].
  - reflexivity.
  - destruct b; [discriminate|reflexivity].
  - destruct (z =? 0); [reflexivity|discriminate].
  - destruct (String.eqb s ""); [reflexivity|discriminate].
  - destruct l; [reflexivity|discriminate].
  - destruct d; reflexivity.
Qed.

(** [x.get(k, {}) or {}] when the value is a dict or counts as false. *)
Lemma get_or_empty (d : dict) (k : string) :
  mapping_or_empty (or_none (dict_get d (VStr k))) = true ->
  py_or (dict_get_default d k (VDict [])) (VDict [])
  = VDict (items_of (or_none (dict_get d (VStr k)))).
Proof.
  unfold dict_get_default. destruct (dict_get d (VStr k)) as [v|]; cbn [or_none].
  - apply py_or_mapping.
  - reflexivity.
Qed.

Lemma payload_cues_wf (tl_handle tl : pyval) (cues : dict) :
  forallb (fun kv => wf_cue (snd kv)) cues = true ->
  forall countdowns,
    payload_cues tl_handle (timeline_name tl_handle tl) (timeline_mode tl)
                 cues countdowns
    = inr (countdowns
             ++ map (fun kv => cue_record tl_handle tl (fst kv) (snd kv))
                    (filter (fun kv => visible (snd kv)) cues))%list.
Proof.
  induction cues as [|[cue_handle cue] cues IH]; intros Hwf countdowns.
  - cbn. now rewrite app_nil_r.
  - cbn [forallb snd] in Hwf. apply andb_true_iff in Hwf as [Hcue Hrest].
    cbn [payload_cues filter snd].
    destruct cue as [| | | | |[|item items]];
      try (rewrite (IH Hrest); reflexivity).
    set (cue_items := item :: items) in *.
    assert (Ht : truthy (VDict cue_items) = true) by reflexivity.
    rewrite Ht. cbn [negb].
    unfold wf_cue in Hcue. fold cue_items in Hcue.
    unfold visible.
    unfold original_countdown_ms, field in *.
    destruct (dict_get cue_items (VStr "_original_countdown_ms"))
      as [[| |z| | |]|] eqn:Eo; try discriminate.
    rewrite (dict_get_default_some cue_items "_original_countdown_ms" _ _ Eo).
    cbn [lt_zero rbind].
    destruct (z <? 0) eqn:Ez.
    + rewrite (IH Hrest).
      assert (E : (0 <=? z) = false) by (apply Z.ltb_lt in Ez; apply Z.leb_gt; lia).
      now rewrite E.
    + rewrite (get_or_empty cue_items "countdown" Hcue).
      rewrite (IH Hrest).
      assert (E : (0 <=? z) = true) by (apply Z.ltb_ge in Ez; apply Z.leb_le; lia).
      rewrite E. cbn [map fst snd]. rewrite <- app_assoc. reflexivity.
Qed.

Lemma payload_timelines_wf (timelines : dict) :
  wf_timelines timelines = true ->
  forall countdowns,
    payload_timelines timelines countdowns
    = inr (countdowns ++ expected_countdowns timelines)%list.
Proof.
  induction timelines as [|[tl_handle tl] timelines IH]; intros Hwf countdowns.
  - cbn. now rewrite app_nil_r.
  - unfold wf_timelines in Hwf. cbn [forallb snd] in Hwf.
    apply andb_true_iff in Hwf as [Htl Hrest].
    cbn [payload_timelines expected_countdowns flat_map fst snd].
    fold (expected_countdowns timelines).
    destruct tl as [| | | | |[|item d']];
      try (rewrite (IH Hrest); reflexivity).
    set (d := item :: d') in *.
    assert (Ht : truthy (VDict d) = true) by reflexivity.
    rewrite Ht. cbn [negb].
    unfold wf_timeline in Htl. fold d in Htl.
    apply andb_true_iff in Htl as [Hinfo Hcues].
    pose proof (payload_cues_wf tl_handle (VDict d)) as Hloop.
    unfold timeline_records, timeline_name, timeline_mode in *.
    unfold field in *.
    rewrite (get_or_empty d "info" Hinfo). cbn [py_get rbind].
    destruct (dict_get d (VStr "cues")) as [cv|] eqn:Ecu; cbn [or_none items_of].
    + rewrite (dict_get_default_some d "cues" _ _ Ecu).
      destruct cv as [|b|z|s|l|cues]; unfold py_or; cbn [truthy items_of].
      * cbn [payload_cues rbind map filter app]. now rewrite (IH Hrest).
      * destruct b; cbn [payload_cues rbind map filter app];
          now rewrite (IH Hrest).
      * destruct (z =? 0); cbn [negb payload_cues rbind map filter app];
          now rewrite (IH Hrest).
      * destruct (String.eqb s ""); cbn [negb payload_cues rbind map filter app];
          now rewrite (IH Hrest).
      * destruct l; cbn [payload_cues rbind map filter app];
          now rewrite (IH Hrest).
      * assert (E : (if match cues with [] => false | _ :: _ => true end
                     then VDict cues else VDict []) = VDict cues)
          by (destruct cues; reflexivity).
        rewrite E. rewrite (Hloop cues Hcues). cbn [rbind].
        rewrite (IH Hrest). now rewrite <- app_assoc.
    + assert (E : dict_get_default d "cues" (VDict []) = VDict [])
        by (unfold dict_get_default; now rewrite Ecu).
      rewrite E. unfold py_or. cbn [truthy payload_cues rbind map filter app].
      now rewrite (IH Hrest).
Qed.

(** ** The protocol client *)

Section Client.

Context (net : pyval -> net_outcome)
        (bytes_decode : string -> option string)
        (json_loads : string -> option pyval).

Local Abbreviation send_json' := (send_json net bytes_decode json_loads).
Local Abbreviation exchange' := (exchange net bytes_decode json_loads).

(** C7.  A call of [send_json] returns a value and raises nothing, whatever
    the method, the parameters and the behaviour of the connection: the
    decoded reply when the bytes arrive, decode as text and parse as JSON,
    and the empty dict when the connection raises (a timeout included), the
    bytes do not decode, or the text is not JSON.  The request counter moves
    on by one in every case. *)
Theorem send_json_never_raises (method : string) (params : pyval) (w : World) :
  exists v,
    send_json' method params w = (inr v, set_request_id (request_id w + 1) w)
    /\ (forall e,
           net (make_request (request_id w) method params) = NetError e ->
           v = VDict [])
    /\ (forall data,
           net (make_request (request_id w) method params) = NetReceived data ->
           bytes_decode data = None ->
           v = VDict [])
    /\ (forall data text,
           net (make_request (request_id w) method params) = NetReceived data ->
           bytes_decode data = Some text ->
           json_loads (PyStr.replace_with_empty MSG_TERMINATOR text) = None ->
           v = VDict [])
    /\ (forall data text reply,
           net (make_request (request_id w) method params) = NetReceived data ->
           bytes_decode data = Some text ->
           json_loads (PyStr.replace_with_empty MSG_TERMINATOR text) = Some reply ->
           v = reply).
Proof.
  unfold send_json, exchange.
  destruct (net (make_request (request_id w) method params)) as [e|data] eqn:En.
  - exists (VDict []). cbn [try_except]. repeat split; intros; congruence.
  - destruct (bytes_decode data) as [text|] eqn:Ed.
    + destruct (json_loads (PyStr.replace_with_empty MSG_TERMINATOR text))
        as [reply|] eqn:Ej.
      * exists reply. cbn [try_except]. repeat split; intros; congruence.
      * exists (VDict []). cbn [try_except]. repeat split; intros; congruence.
    + exists (VDict []). cbn [try_except]. repeat split; intros; congruence.
Qed.

End Client.
(** ** Fetch cycles *)

Lemma dict_get_set_cases (d : dict) (k v k' v' : pyval) :
  dict_get d k = Some v ->
  dict_get (dict_set d k' v') k = Some v
  \/ (dict_get (dict_set d k' v') k = Some v'
      /\ dict_get d k' = Some v /\ key_eqb k k' = true).
Proof.
  induction d as [|[k0 v0] d IH]; cbn [dict_get dict_set]; [discriminate|].
  intros H.
  destruct (key_eqb k0 k') eqn:E'; cbn [dict_get].
  - destruct (key_eqb k0 k) eqn:E.
    + right. repeat split; [exact H|].
      apply key_eqb_trans with (b := k0); [|exact E'].
      now rewrite key_eqb_sym.
    + now left.
  - destruct (key_eqb k0 k) eqn:E.
    + now left.
    + destruct (IH H) as [Hl|(Hr1 & Hr2 & Hr3)]; [now left|].
      right. repeat split; assumption.
Qed.

Lemma dict_set_values (P : pyval -> Prop) (d : dict) (k v : pyval) :
  Forall P (map snd d) -> P v -> Forall P (map snd (dict_set d k v)).
Proof.
  intros Hd Hv. induction d as [|[k0 v0] d IH]; cbn [dict_set map snd].
  - now constructor.
  - inversion Hd as [|? ? H0 Hrest]; subst.
    destruct (key_eqb k0 k); cbn [map snd]; constructor; auto.
Qed.

Lemma dict_get_values (P : pyval -> Prop) (d : dict) (k v : pyval) :
  Forall P (map snd d) -> dict_get d k = Some v -> P v.
Proof.
  intros Hd. induction d as [|[k0 v0] d IH]; cbn [dict_get]; [discriminate|].
  inversion Hd as [|? ? H0 Hrest]; subst.
  destruct (key_eqb k0 k); [|now apply IH].
  intros H. injection H as <-. exact H0.
Qed.

Section Fetching.

Context (net : pyval -> net_outcome)
        (bytes_decode : string -> option string)
        (json_loads : string -> option pyval).

Local Abbreviation send_json' := (send_json net bytes_decode json_loads).
Local Abbreviation exchange' := (exchange net bytes_decode json_loads).
Local Abbreviation timelines_loop' := (timelines_loop net bytes_decode json_loads).
Local Abbreviation get_timelines' := (get_timelines net bytes_decode json_loads).
Local Abbreviation get_cues' := (get_cues net bytes_decode json_loads).
Local Abbreviation cues_for_all' := (cues_for_all net bytes_decode json_loads).
Local Abbreviation fetch_cycle' := (fetch_cycle net bytes_decode json_loads).

Lemma timelines_loop_fresh (handles : list pyval) :
  forall clean w r w',
    Forall fresh_timeline (map snd clean) ->
    timelines_loop' handles clean w = (r, w') ->
    timelines w' = timelines w
    /\ (forall clean', r = inr clean' -> Forall fresh_timeline (map snd clean')).
Proof.
  induction handles as [|handle rest IH]; intros clean w r w' Hclean H.
  - cbn [timelines_loop] in H. unfold ret in H. injection H as <- <-.
    split; [reflexivity|]. intros clean' H. injection H as <-. exact Hclean.
  - cbn [timelines_loop] in H. unfold bind at 1 in H.
    unfold send_json at 1 in H.
    set (w1 := set_request_id (request_id w + 1) w) in H.
    destruct (try_except _ _) as [e|info] in H.
    { injection H as <- <-. split; [reflexivity|discriminate]. }
    unfold bind at 1, lift, dict_setitem in H.
    destruct (hashable handle).
    2: { injection H as <- <-. split; [reflexivity|discriminate]. }
    apply IH in H.
    + exact H.
    + apply dict_set_values; [exact Hclean|]. eexists. reflexivity.
Qed.

Lemma get_timelines_fresh (w w1 : World) :
  get_timelines' w = (inr tt, w1) ->
  Forall fresh_timeline (map snd (timelines w1)).
Proof.
  unfold get_timelines. unfold bind at 1. unfold send_json at 1.
  set (w0 := set_request_id (request_id w + 1) w).
  destruct (try_except _ _) as [e|result]; [discriminate|].
  unfold bind at 1, lift.
  destruct (py_get result "result" (VList [])) as [e|tls]; [discriminate|].
  unfold bind at 1.
  destruct (py_iter tls) as [e|handles]; [discriminate|].
  unfold bind at 1.
  destruct (timelines_loop' handles [] w0) as [r w2] eqn:El.
  destruct (timelines_loop_fresh handles [] w0 r w2 (Forall_nil _) El) as [_ Hf].
  destruct r as [e|clean]; [discriminate|].
  unfold modify. intros H. injection H as <-. cbn.
  now apply Hf.
Qed.

(** What one [get_cues] does to the timelines. *)
Lemma get_cues_timelines (h' : pyval) (w : World) (r : res unit) (w' : World) :
  get_cues' h' w = (r, w') ->
  request_id w' = request_id w + 1
  /\ (timelines w' = timelines w
      \/ exists d cue_data,
           dict_get (timelines w) h' = Some (VDict d)
           /\ timelines w'
              = dict_set (timelines w) h'
                         (VDict (dict_set d (VStr "cues") (VDict cue_data)))
           /\ (cue_records json_loads
                           (cue_reply net bytes_decode json_loads
                                      (request_id w) h') = inr [] ->
               cue_data = [])).
Proof.
  unfold get_cues. unfold bind at 1. unfold send_json at 1.
  set (w1 := set_request_id (request_id w + 1) w).
  assert (Hstore : forall cue_data,
             store_cues h' cue_data w1 = (r, w') ->
             request_id w' = request_id w + 1
             /\ (timelines w' = timelines w
                 \/ exists d,
                      dict_get (timelines w) h' = Some (VDict d)
                      /\ timelines w'
                         = dict_set (timelines w) h'
                             (VDict (dict_set d (VStr "cues")
                                              (VDict cue_data))))).
  { intros cue_data. unfold store_cues. cbn [timelines w1 set_request_id].
    destruct (dict_contains (timelines w) h') as [e'|[|]];
      try (intros H; injection H as <- <-; split; [reflexivity|now left]).
    destruct (dict_get (timelines w) h') as [tl|] eqn:Eg;
      [|intros H; injection H as <- <-; split; [reflexivity|now left]].
    destruct tl as [| | | | |d];
      try (intros H; injection H as <- <-; split; [reflexivity|now left]).
    cbn [py_setitem]. intros H. injection H as <- <-.
    split; [reflexivity|]. right. exists d. split; reflexivity. }
  unfold cue_reply.
  destruct (exchange' (make_request (request_id w) GET_CUE_INFO
                                    (VDict [(VStr "handle", h')])))
    as [e|reply] eqn:Ex; cbn [try_except try_default].
  - cbn [bind lift cue_records py_get dict_get_default dict_get rbind
         isinstance_str py_or truthy cues_loop].
    intros H. destruct (Hstore [] H) as [Hid [Hl|(d & Hd & Ht)]];
      (split; [exact Hid|]); [now left|].
    right. exists d, []. repeat split; assumption.
  - unfold bind at 1, lift.
    destruct (cue_records json_loads reply) as [e|info_json];
      [intros H; injection H as <- <-; split; [reflexivity|now left]|].
    unfold bind at 1.
    destruct (cues_loop info_json []) as [e|cue_data] eqn:El;
      [intros H; injection H as <- <-; split; [reflexivity|now left]|].
    intros H. destruct (Hstore cue_data H) as [Hid [Hl|(d & Hd & Ht)]];
      (split; [exact Hid|]); [now left|].
    right. exists d, cue_data. repeat split; try assumption.
    intros [= ->]. cbn [cues_loop] in El. congruence.
Qed.

Lemma get_cues_no_cues (h h' : pyval) (w : World) :
  (key_eqb h' h = true ->
   cue_records json_loads
               (cue_reply net bytes_decode json_loads (request_id w) h')
   = inr []) ->
  no_cues_at h w -> no_cues_at h (snd (get_cues' h' w)).
Proof.
  intros Hfail [info Hinfo]. unfold no_cues_at.
  destruct (get_cues' h' w) as [r w'] eqn:Eg. cbn [snd].
  destruct (get_cues_timelines h' w r w' Eg)
    as [_ [->|(d & cue_data & Hd & -> & Hcd)]].
  - now exists info.
  - destruct (dict_get_set_cases _ _ _ h'
                (VDict (dict_set d (VStr "cues") (VDict cue_data))) Hinfo)
      as [->|(-> & Hsame & Hkey)].
    + now exists info.
    + rewrite Hd in Hsame. injection Hsame as ->.
      rewrite key_eqb_sym in Hkey.
      rewrite (Hcd (Hfail Hkey)). now exists info.
Qed.

Lemma cues_for_all_no_cues (h : pyval) (handles : list pyval) :
  forall w,
    (forall i h',
        nth_error handles i = Some h' ->
        key_eqb h' h = true ->
        cue_records json_loads
                    (cue_reply net bytes_decode json_loads
                               (request_id w + Z.of_nat i) h')
        = inr []) ->
    no_cues_at h w -> no_cues_at h (snd (cues_for_all' handles w)).
Proof.
  induction handles as [|h' rest IH]; intros w Hfail Hw.
  - exact Hw.
  - cbn [cues_for_all]. unfold bind.
    assert (Hstep : no_cues_at h (snd (get_cues' h' w))).
    { apply get_cues_no_cues; [|exact Hw]. intros Hk.
      specialize (Hfail 0%nat h' eq_refl Hk).
      now rewrite Z.add_0_r in Hfail. }
    destruct (get_cues' h' w) as [[e|[]] w'] eqn:Eg; cbn [snd] in *.
    + exact Hstep.
    + apply IH; [|exact Hstep].
      destruct (get_cues_timelines h' w _ w' Eg) as [Hid _].
      intros i h'' Hn Hk. rewrite Hid.
      specialize (Hfail (S i) h'' Hn Hk).
      rewrite Nat2Z.inj_succ in Hfail.
      now replace (request_id w + 1 + Z.of_nat i)
        with (request_id w + Z.succ (Z.of_nat i)) by lia.
Qed.

(** C3, amended.  When the timeline list of a fetch cycle reports the
    handle [h] and the cue request the cycle sends for [h] fails (the
    connection raises or times out, the reply does not decode or is not
    JSON) or brings no cue records, the snapshot after the cycle holds the
    timeline [h] with its info and an empty cue mapping: the cues stored
    before the cycle are not kept.  Only that one request needs to fail. *)
Theorem failed_cue_fetch_empties_cues (w w1 : World) (h : pyval) :
  get_timelines' w = (inr tt, w1) ->
  dict_get (timelines w1) h <> None ->
  cue_fetch_fails net bytes_decode json_loads w1 h ->
  exists info,
    dict_get (timelines (snd (fetch_cycle' w))) h
    = Some (VDict [ (VStr "info", info); (VStr "cues", VDict []) ])
    /\ cues_of (snd (fetch_cycle' w)) h = Some (VDict []).
Proof.
  intros Hget Hreported Hfail.
  assert (Hw1 : no_cues_at h w1).
  { destruct (dict_get (timelines w1) h) as [tl|] eqn:Eg; [|now elim Hreported].
    destruct (dict_get_values fresh_timeline _ _ _
                (get_timelines_fresh w w1 Hget) Eg) as [info ->].
    now exists info. }
  assert (Hend : no_cues_at h (snd (fetch_cycle' w))).
  { unfold fetch_cycle. unfold bind at 1. rewrite Hget.
    unfold bind at 1, gets. now apply cues_for_all_no_cues. }
  destruct Hend as [info Hinfo]. exists info. split; [exact Hinfo|].
  unfold cues_of. now rewrite Hinfo.
Qed.

End Fetching.

Lemma example_get_timelines :
  get_timelines example_net example_decode example_loads example_world
  = (inr tt,
     set_timelines [ (VInt 1, VDict [ (VStr "info", VDict []);
                                     (VStr "cues", VDict []) ]) ]
                   (set_request_id 3 example_world)).
Proof. vm_compute. reflexivity. Qed.

Lemma stage_get_timelines :
  get_timelines stage_net example_decode stage_loads example_world
  = (inr tt,
     set_timelines [ (VInt 1, VDict [ (VStr "info", VDict []);
                                     (VStr "cues", VDict []) ]) ]
                   (set_request_id 3 example_world)).
Proof. vm_compute. reflexivity. Qed.

(** The engine serves cues, and only the request of this cycle, the one
    with the number 3, times out. *)
Lemma stage_cue_fetch_fails :
  cue_fetch_fails stage_net example_decode stage_loads
                  (set_timelines [ (VInt 1, VDict [ (VStr "info", VDict []);
                                                    (VStr "cues", VDict []) ]) ]
                                 (set_request_id 3 example_world))
                  (VInt 1).
Proof.
  intros [|[|i]] h' Hn Hk; cbn in Hn; try discriminate.
  injection Hn as <-. reflexivity.
Qed.

Lemma failed_cue_fetch_empties_cues_witness :
  cue_records stage_loads
              (cue_reply stage_net example_decode stage_loads 4 (VInt 1))
  = inr [VDict example_cue; VDict example_cue_no_time]
  /\ exists info,
       dict_get (timelines (snd (fetch_cycle stage_net example_decode
                                             stage_loads example_world)))
                (VInt 1)
       = Some (VDict [ (VStr "info", info); (VStr "cues", VDict []) ])
       /\ cues_of (snd (fetch_cycle stage_net example_decode stage_loads
                                    example_world)) (VInt 1)
          = Some (VDict []).
Proof.
  split; [vm_compute; reflexivity|].
  apply (failed_cue_fetch_empties_cues stage_net example_decode stage_loads
           example_world _ (VInt 1) stage_get_timelines).
  - discriminate.
  - exact stage_cue_fetch_fails.
Defined.

(** C3 as stated fails: the timeline list still reports timeline 1, its cue
    request times out, and the two cues stored before the cycle are gone
    after it. *)
Lemma failed_cue_fetch_counterexample :
  (exists w1,
      get_timelines stage_net example_decode stage_loads example_world
      = (inr tt, w1)
      /\ dict_get (timelines w1) (VInt 1) <> None
      /\ cue_fetch_fails stage_net example_decode stage_loads w1 (VInt 1))
  /\ (exists cues,
         cues_of example_world (VInt 1) = Some (VDict cues)
         /\ List.length cues = 2%nat)
  /\ cues_of (snd (fetch_cycle stage_net example_decode stage_loads
                               example_world)) (VInt 1)
     = Some (VDict [])
  /\ cues_of (snd (fetch_cycle stage_net example_decode stage_loads
                               example_world)) (VInt 1)
     <> cues_of example_world (VInt 1).
Proof.
  split; [|split; [|split]].
  - eexists. split; [exact stage_get_timelines|].
    split; [discriminate|exact stage_cue_fetch_fails].
  - eexists. split; reflexivity.
  - vm_compute. reflexivity.
  - vm_compute. discriminate.
Qed.

(** ** What the fetchers and the broadcasts leave alone *)

Lemma keeps_ret {A : Type} (a : A) : keeps_timers (ret a).
Proof. intros w. reflexivity. Qed.

Lemma keeps_lift {A : Type} (r : res A) : keeps_timers (lift r).
Proof. intros w. reflexivity. Qed.

Lemma keeps_gets {A : Type} (f : World -> A) : keeps_timers (gets f).
Proof. intros w. reflexivity. Qed.

Lemma keeps_modify (f : World -> World) :
  (forall w, timer_state (f w) = timer_state w) -> keeps_timers (modify f).
Proof. intros Hf w. apply Hf. Qed.

Lemma keeps_bind {A B : Type} (m : M A) (k : A -> M B) :
  keeps_timers m -> (forall a, keeps_timers (k a)) -> keeps_timers (bind m k).
Proof.
  intros Hm Hk w. unfold bind. specialize (Hm w).
  destruct (m w) as [[e|a] w']; cbn [snd] in *.
  - exact Hm.
  - rewrite (Hk a w'). exact Hm.
Qed.

Lemma broadcast_polling_state_timers (w : World) :
  timer_state (broadcast_polling_state w) = timer_state w.
Proof. unfold broadcast_polling_state. destruct (connected_clients w); reflexivity. Qed.

Lemma keeps_broadcast_update : keeps_timers broadcast_update.
Proof.
  intros w. unfold broadcast_update.
  destruct (connected_clients w); [reflexivity|].
  destruct (rbind (snapshot_payload w) _); reflexivity.
Qed.

Lemma ws_connect_timers (c : nat) (w : World) :
  timer_state (ws_connect c w) = timer_state w.
Proof.
  unfold ws_connect.
  set (w1 := if existsb (Nat.eqb c) (connected_clients w) then w else _).
  assert (H1 : timer_state w1 = timer_state w).
  { unfold w1. destruct (existsb (Nat.eqb c) (connected_clients w)); reflexivity. }
  destruct (rbind (snapshot_payload w1) _); [exact H1|].
  destruct (is_closed w1 c); exact H1.
Qed.

Section Frames.

Context (net : pyval -> net_outcome)
        (bytes_decode : string -> option string)
        (json_loads : string -> option pyval).

Lemma keeps_send_json (method : string) (params : pyval) :
  keeps_timers (send_json net bytes_decode json_loads method params).
Proof. intros w. reflexivity. Qed.

Lemma keeps_get_project_name :
  keeps_timers (get_project_name net bytes_decode json_loads).
Proof.
  unfold get_project_name.
  apply keeps_bind; [apply keeps_send_json|]. intros result.
  apply keeps_bind; [apply keeps_lift|]. intros name.
  apply keeps_modify. reflexivity.
Qed.

Lemma keeps_timelines_loop (handles : list pyval) (clean : dict) :
  keeps_timers (timelines_loop net bytes_decode json_loads handles clean).
Proof.
  revert clean. induction handles as [|handle rest IH]; intros clean.
  - apply keeps_ret.
  - cbn [timelines_loop].
    apply keeps_bind; [apply keeps_send_json|]. intros info.
    apply keeps_bind; [apply keeps_lift|]. intros clean'. apply IH.
Qed.

Lemma keeps_get_timelines :
  keeps_timers (get_timelines net bytes_decode json_loads).
Proof.
  unfold get_timelines.
  apply keeps_bind; [apply keeps_send_json|]. intros result.
  apply keeps_bind; [apply keeps_lift|]. intros tls.
  apply keeps_bind; [apply keeps_lift|]. intros handles.
  apply keeps_bind; [apply keeps_timelines_loop|]. intros clean.
  apply keeps_modify. reflexivity.
Qed.

Lemma keeps_store_cues (h : pyval) (cue_data : dict) :
  keeps_timers (store_cues h cue_data).
Proof.
  intros w. unfold store_cues.
  destruct (dict_contains (timelines w) h) as [e|[|]]; try reflexivity.
  destruct (dict_get (timelines w) h) as [tl|]; [|reflexivity].
  destruct (py_setitem tl "cues" (VDict cue_data)); reflexivity.
Qed.

Lemma keeps_get_cues (h : pyval) :
  keeps_timers (get_cues net bytes_decode json_loads h).
Proof.
  unfold get_cues.
  apply keeps_bind; [apply keeps_send_json|]. intros cue_info.
  apply keeps_bind; [apply keeps_lift|]. intros info_json.
  apply keeps_bind; [apply keeps_lift|]. intros cue_data.
  apply keeps_store_cues.
Qed.

Lemma keeps_cues_for_all (handles : list pyval) :
  keeps_timers (cues_for_all net bytes_decode json_loads handles).
Proof.
  induction handles as [|h rest IH]; cbn [cues_for_all].
  - apply keeps_ret.
  - apply keeps_bind; [apply keeps_get_cues|]. intros _. exact IH.
Qed.

Lemma keeps_fetch_cycle : keeps_timers (fetch_cycle net bytes_decode json_loads).
Proof.
  unfold fetch_cycle.
  apply keeps_bind; [apply keeps_get_timelines|]. intros _.
  apply keeps_bind; [apply keeps_gets|]. intros handles.
  apply keeps_cues_for_all.
Qed.

Lemma keeps_force_update : keeps_timers (force_update net bytes_decode json_loads).
Proof.
  unfold force_update.
  apply keeps_bind; [apply keeps_lift|]. intros _.
  apply keeps_bind; [apply keeps_get_project_name|]. intros _.
  apply keeps_bind; [apply keeps_fetch_cycle|]. intros _.
  apply keeps_broadcast_update.
Qed.

Lemma keeps_lifespan : keeps_timers (lifespan net bytes_decode json_loads).
Proof.
  unfold lifespan.
  apply keeps_bind; [apply keeps_get_project_name|]. intros _.
  apply keeps_bind; [apply keeps_fetch_cycle|]. intros _.
  apply keeps_bind; [apply keeps_modify; reflexivity|]. intros _.
  apply keeps_broadcast_update.
Qed.

Lemma keeps_polling_iteration :
  keeps_timers (polling_iteration net bytes_decode json_loads).
Proof.
  intros w. unfold polling_iteration.
  destruct (enabled (polling w)); [|reflexivity].
  apply keeps_bind.
  - destruct (10 <=? clock w - last_project_timeline_fetch w).
    + apply keeps_bind; [apply keeps_get_project_name|]. intros _.
      apply keeps_modify. reflexivity.
    + apply keeps_ret.
  - intros _. apply keeps_bind; [apply keeps_fetch_cycle|]. intros _.
    apply keeps_broadcast_update.
Qed.

(** The rest of [enable_polling], after its locked block. *)
Lemma keeps_enable_tail :
  keeps_timers
    (_ <- get_project_name net bytes_decode json_loads ;;
     _ <- fetch_cycle net bytes_decode json_loads ;;
     _ <- modify broadcast_polling_state ;;
     _ <- broadcast_update ;;
     p <- gets polling ;;
     ret ("enabled", p))%M.
Proof.
  apply keeps_bind; [apply keeps_get_project_name|]. intros _.
  apply keeps_bind; [apply keeps_fetch_cycle|]. intros _.
  apply keeps_bind; [apply keeps_modify, broadcast_polling_state_timers|]. intros _.
  apply keeps_bind; [apply keeps_broadcast_update|]. intros _.
  apply keeps_bind; [apply keeps_gets|]. intros p. apply keeps_ret.
Qed.

End Frames.

(** ** The timers *)

Lemma nth_error_set_state_at (l : list Task) (i j : nat) (s : task_state) :
  nth_error (set_state_at i s l) j
  = if Nat.eqb j i
    then option_map (fun t => {| deadline := deadline t; state := s |})
                    (nth_error l j)
    else nth_error l j.
Proof.
  revert i j. induction l as [|t l IH]; intros i j.
  - destruct i, j; cbn; try reflexivity. now destruct (Nat.eqb j i).
  - destruct i as [|i], j as [|j]; cbn; try reflexivity.
    apply IH.
Qed.

Lemma filter_pending_none (l : list Task) :
  (forall j t, nth_error l j = Some t -> state t <> Pending) ->
  filter (fun t => negb (done (state t))) l = [].
Proof.
  induction l as [|a l IH]; intros H; [reflexivity|].
  cbn [filter].
  assert (Ha : state a <> Pending) by exact (H 0%nat a eq_refl).
  destruct (state a); [now elim Ha| |]; cbn;
    apply IH; intros j t Hj; exact (H (S j) t Hj).
Qed.

Lemma filter_pending_one (l : list Task) :
  forall i t,
    nth_error l i = Some t -> state t = Pending ->
    (forall j t', nth_error l j = Some t' -> state t' = Pending -> j = i) ->
    List.length (filter (fun t => negb (done (state t))) l) = 1%nat.
Proof.
  induction l as [|a l IH]; intros i t Hi Ht Huniq.
  - destruct i; discriminate.
  - destruct i as [|i].
    + cbn in Hi. injection Hi as ->. cbn [filter]. rewrite Ht. cbn.
      rewrite filter_pending_none; [reflexivity|].
      intros j t' Hj Hp. specialize (Huniq (S j) t' Hj Hp). discriminate.
    + cbn [filter].
      assert (Ha : state a <> Pending).
      { intros Hp. specialize (Huniq 0%nat a eq_refl Hp). discriminate. }
      assert (E : negb (done (state a)) = false).
      { destruct (state a); [now elim Ha| |]; reflexivity. }
      rewrite E. apply (IH i t Hi Ht).
      intros j t' Hj Hp. specialize (Huniq (S j) t' Hj Hp). now injection Huniq.
Qed.

Lemma timers_ok_ext (w w' : World) :
  timer_state w' = timer_state w -> timers_ok w -> timers_ok w'.
Proof.
  unfold timer_state, timers_ok. intros H.
  injection H as Hp Ha Ht Hc. now rewrite Hp, Ha, Ht, Hc.
Qed.

Lemma timers_ok_pending (w : World) :
  timers_ok w ->
  pending_tasks w = if enabled (polling w) then 1%nat else 0%nat.
Proof.
  unfold timers_ok, pending_tasks.
  destruct (enabled (polling w)).
  - intros (i & t & t0 & _ & Hi & Ht & _ & _ & _ & _ & Huniq).
    now apply (filter_pending_one _ i t).
  - intros [_ Hnone]. now rewrite filter_pending_none.
Qed.

Lemma timers_ok_initial (t0 : Z) : timers_ok (initial_world t0).
Proof.
  unfold timers_ok. cbn. split; [reflexivity|].
  intros [|j] t' H; discriminate.
Qed.

(** *** [enable_polling] *)

Lemma task_pending_none (w : World) (i : nat) :
  (forall j t, nth_error (tasks w) j = Some t -> state t <> Pending) ->
  task_pending w i = false.
Proof.
  intros H. unfold task_pending.
  destruct (nth_error (tasks w) i) as [t|] eqn:E; [|reflexivity].
  specialize (H i t E). destruct (state t); [now elim H| |]; reflexivity.
Qed.

Lemma enable_locked_timers (w : World) :
  (forall j t, nth_error (tasks w) j = Some t -> state t <> Pending) ->
  timer_state (enable_locked w)
  = ({| enabled := true; enabled_at := Some (clock w);
        auto_disable_at := Some (clock w + 6 * 3600) |},
     Some (List.length (tasks w)),
     (tasks w ++ [ {| deadline := clock w + 6 * 3600; state := Pending |} ])%list,
     clock w).
Proof.
  intros Hnone. unfold enable_locked.
  set (w1 := set_polling _ w).
  set (w2 := match polling_task w1 with
             | None => start_polling_task w1
             | Some s => if done s then start_polling_task w1 else w1
             end).
  assert (H2 : timer_state w2 = timer_state w1).
  { unfold w2. destruct (polling_task w1) as [s|]; [|reflexivity].
    destruct (done s); reflexivity. }
  assert (H2' : polling w2 = polling w1 /\ tasks w2 = tasks w
                /\ clock w2 = clock w).
  { unfold timer_state in H2. injection H2 as Hp _ Ht Hcl. now repeat split. }
  destruct H2' as (Hp & Ht & Hcl).
  assert (Hc : cancel_auto_disable w2 = w2).
  { unfold cancel_auto_disable. destruct (auto_disable_task w2); [|reflexivity].
    rewrite task_pending_none; [reflexivity|]. rewrite Ht. exact Hnone. }
  rewrite Hc.
  change (timer_state (create_auto_disable w2))
    with (polling w2, Some (List.length (tasks w2)),
          (tasks w2 ++ [ {| deadline := clock w2 + AUTO_DISABLE_SECONDS;
                            state := Pending |} ])%list,
          clock w2).
  rewrite Hp, Ht, Hcl. reflexivity.
Qed.

Lemma timers_ok_enable_locked (w : World) :
  timers_ok w -> enabled (polling w) = false -> timers_ok (enable_locked w).
Proof.
  unfold timers_ok at 1. intros H Hd. rewrite Hd in H. destruct H as [_ Hnone].
  apply timers_ok_ext
    with (w := set_tasks
                 (tasks w ++ [ {| deadline := clock w + 6 * 3600;
                                  state := Pending |} ])%list
                 (set_auto_disable_task (Some (List.length (tasks w)))
                    (set_polling {| enabled := true;
                                    enabled_at := Some (clock w);
                                    auto_disable_at := Some (clock w + 6 * 3600) |}
                                 w))).
  { now rewrite (enable_locked_timers w Hnone). }
  unfold timers_ok.
  cbn [polling auto_disable_task tasks clock set_tasks set_auto_disable_task
       set_polling enabled enabled_at auto_disable_at].
  exists (List.length (tasks w)),
         {| deadline := clock w + 6 * 3600; state := Pending |}, (clock w).
  split; [reflexivity|].
  split; [rewrite nth_error_app2 by lia; now rewrite Nat.sub_diag|].
  split; [reflexivity|]. split; [reflexivity|]. split; [reflexivity|].
  split; [reflexivity|]. split; [cbn [deadline]; lia|].
  intros j t' Hj Hpend.
  destruct (Nat.lt_ge_cases j (List.length (tasks w))) as [Hlt|Hge].
  - rewrite nth_error_app1 in Hj by assumption. now elim (Hnone j t' Hj).
  - assert (Hlen : (j < List.length
                          (tasks w ++ [ {| deadline := clock w + 6 * 3600;
                                           state := Pending |} ]))%nat).
    { apply nth_error_Some. congruence. }
    rewrite length_app in Hlen. cbn [List.length] in Hlen. lia.
Qed.


(** *** [disable_polling] *)

Lemma timer_state_fields (w w' : World) :
  timer_state w' = timer_state w ->
  polling w' = polling w /\ auto_disable_task w' = auto_disable_task w
  /\ tasks w' = tasks w /\ clock w' = clock w.
Proof.
  unfold timer_state. intros H.
  repeat split.
  - exact (f_equal (fun x => fst (fst (fst x))) H).
  - exact (f_equal (fun x => snd (fst (fst x))) H).
  - exact (f_equal (fun x => snd (fst x)) H).
  - exact (f_equal snd H).
Qed.


Lemma disable_polling_already (w : World) :
  enabled (polling w) = false ->
  disable_polling w = (inr ("already_disabled", polling w), w).
Proof. intros Hd. unfold disable_polling. now rewrite Hd. Qed.

Lemma disable_polling_world (w : World) :
  enabled (polling w) = true ->
  disable_polling w
  = (inr ("disabled", polling_disabled),
     broadcast_polling_state (disable_locked w)).
Proof.
  intros He. unfold disable_polling. rewrite He. cbn [negb].
  f_equal. f_equal. f_equal.
  destruct (timer_state_fields _ _ (broadcast_polling_state_timers
                                      (disable_locked w))) as (-> & _).
  unfold disable_locked.
  destruct (auto_disable_task _) as [i|]; [|reflexivity].
  destruct (task_pending _ i); reflexivity.
Qed.

Lemma disable_locked_polling (w : World) :
  polling (disable_locked w) = polling_disabled.
Proof.
  unfold disable_locked.
  destruct (auto_disable_task _) as [i|]; [|reflexivity].
  destruct (task_pending _ i); reflexivity.
Qed.

(** The timer [auto_disable_task] refers to is no longer armed. *)
Lemma disable_locked_cancels (w : World) (i : nat) :
  auto_disable_task w = Some i -> task_pending (disable_locked w) i = false.
Proof.
  intros Ha. unfold disable_locked.
  cbn [auto_disable_task set_polling]. rewrite Ha.
  destruct (task_pending (set_polling polling_disabled w) i) eqn:Ep;
    [|exact Ep].
  unfold task_pending in *. cbn [tasks set_polling set_tasks set_auto_disable_task] in *.
  rewrite nth_error_set_state_at, Nat.eqb_refl.
  destruct (nth_error (tasks w) i); reflexivity.
Qed.

Lemma timers_ok_disable_locked (w : World) :
  timers_ok w -> enabled (polling w) = true ->
  timers_ok (disable_locked w) /\ auto_disable_task (disable_locked w) = None.
Proof.
  unfold timers_ok at 1. intros H He. rewrite He in H.
  destruct H as (i & t & t0 & Ha & Hi & Ht & _ & _ & _ & _ & Huniq).
  unfold disable_locked. cbn [auto_disable_task set_polling]. rewrite Ha.
  assert (Hp : task_pending (set_polling polling_disabled w) i = true).
  { unfold task_pending. cbn [tasks set_polling]. now rewrite Hi, Ht. }
  rewrite Hp. split; [|reflexivity].
  unfold timers_ok.
  cbn [polling auto_disable_task tasks clock set_tasks set_auto_disable_task
       set_polling enabled polling_disabled].
  split; [reflexivity|].
  intros j t' Hj Hpend. rewrite nth_error_set_state_at in Hj.
  destruct (Nat.eqb j i) eqn:Eji.
  - destruct (nth_error (tasks w) j); [|discriminate].
    cbn in Hj. injection Hj as <-. discriminate.
  - apply Nat.eqb_neq in Eji. apply Eji. exact (Huniq j t' Hj Hpend).
Qed.

Lemma timers_ok_disable (w : World) :
  timers_ok w -> timers_ok (snd (disable_polling w)).
Proof.
  intros H. destruct (enabled (polling w)) eqn:He.
  - rewrite disable_polling_world by assumption. cbn [snd].
    apply timers_ok_ext with (w := disable_locked w).
    + apply broadcast_polling_state_timers.
    + now apply timers_ok_disable_locked.
  - now rewrite disable_polling_already.
Qed.

(** *** The passing of time *)

Lemma run_due_app (l1 l2 : list nat) (w : World) :
  run_due (l1 ++ l2) w = run_due l2 (run_due l1 w).
Proof.
  revert w. induction l1 as [|i l1 IH]; intros w; [reflexivity|].
  cbn [app run_due]. apply IH.
Qed.

Lemma run_due_none (l : list nat) (w : World) :
  (forall j, In j l -> task_due w j = false) -> run_due l w = w.
Proof.
  induction l as [|i l IH]; intros H; [reflexivity|].
  cbn [run_due]. rewrite (H i (or_introl eq_refl)).
  apply IH. intros j Hj. apply H. now right.
Qed.

Lemma task_due_not_pending (w : World) (j : nat) :
  (forall t, nth_error (tasks w) j = Some t -> state t <> Pending) ->
  task_due w j = false.
Proof.
  intros H. unfold task_due.
  destruct (nth_error (tasks w) j) as [t|]; [|reflexivity].
  specialize (H t eq_refl). destruct (state t); [now elim H| |]; reflexivity.
Qed.

Lemma auto_disable_polling_fields (i : nat) (w : World) :
  polling (auto_disable_polling i w)
  = (if enabled (polling w) then polling_disabled else polling w)
  /\ auto_disable_task (auto_disable_polling i w) = None
  /\ tasks (auto_disable_polling i w) = set_state_at i Finished (tasks w)
  /\ clock (auto_disable_polling i w) = clock w.
Proof.
  unfold auto_disable_polling.
  set (w1 := if enabled (polling w) then set_polling polling_disabled w else w).
  destruct (timer_state_fields _ _ (broadcast_polling_state_timers w1))
    as (Hp & _ & Ht & Hc).
  cbn [polling auto_disable_task tasks clock set_tasks set_auto_disable_task].
  rewrite Hp, Ht, Hc. unfold w1.
  destruct (enabled (polling w)); repeat split.
Qed.

(** The one armed timer fires and nothing else happens. *)
Lemma run_due_fires (w : World) (i : nat) (t : Task) :
  nth_error (tasks w) i = Some t ->
  state t = Pending ->
  deadline t <= clock w ->
  (forall j t', nth_error (tasks w) j = Some t' -> state t' = Pending -> j = i) ->
  run_due (seq 0 (List.length (tasks w))) w = auto_disable_polling i w.
Proof.
  intros Hi Ht Hd Huniq.
  assert (Hlt : (i < List.length (tasks w))%nat).
  { apply nth_error_Some. congruence. }
  replace (List.length (tasks w))
    with (i + (1 + (List.length (tasks w) - S i)))%nat by lia.
  assert (Hother : forall j, j <> i -> task_due w j = false).
  { intros j Hj. apply task_due_not_pending. intros t' Hj' Hp.
    apply Hj. exact (Huniq j t' Hj' Hp). }
  assert (Hdue : task_due w i = true).
  { unfold task_due. rewrite Hi, Ht. cbn. now apply Z.leb_le. }
  rewrite seq_app, run_due_app.
  rewrite (run_due_none (seq 0 i) w)
    by (intros j Hj; apply in_seq in Hj; apply Hother; lia).
  cbn [Nat.add seq run_due]. rewrite Hdue.
  apply run_due_none. intros j Hj.
  apply task_due_not_pending. intros t' Hj' Hp.
  destruct (auto_disable_polling_fields i w) as (_ & _ & E & _).
  rewrite E, nth_error_set_state_at in Hj'.
  destruct (Nat.eqb j i) eqn:Eji.
  - destruct (nth_error (tasks w) j); [|discriminate].
    cbn in Hj'. injection Hj' as <-. discriminate.
  - apply Nat.eqb_neq in Eji. apply Eji. exact (Huniq j t' Hj' Hp).
Qed.

Lemma elapse_clock_only (dt : Z) (w : World) :
  (forall j, task_due (set_clock (clock w + Z.max 0 dt) w) j = false) ->
  elapse dt w = set_clock (clock w + Z.max 0 dt) w.
Proof.
  intros H. unfold elapse. apply run_due_none. intros j _. apply H.
Qed.

(** Time passing while polling is disabled. *)
Lemma elapse_disabled (dt : Z) (w : World) :
  timers_ok w -> enabled (polling w) = false ->
  elapse dt w = set_clock (clock w + Z.max 0 dt) w.
Proof.
  unfold timers_ok. intros H Hd. rewrite Hd in H. destruct H as [_ Hnone].
  apply elapse_clock_only. intros j.
  apply task_due_not_pending. intros t Hj. exact (Hnone j t Hj).
Qed.

(** Time passing, short of the deadline, while polling is enabled. *)
Lemma elapse_before (dt D : Z) (w : World) :
  timers_ok w -> enabled (polling w) = true -> deadline_of w = Some D ->
  clock w + Z.max 0 dt < D ->
  elapse dt w = set_clock (clock w + Z.max 0 dt) w.
Proof.
  unfold timers_ok, deadline_of. intros H He HD Hlt. rewrite He in H.
  destruct H as (i & t & t0 & Ha & Hi & Ht & _ & _ & _ & _ & Huniq).
  rewrite Ha, Hi in HD. cbn in HD. injection HD as HD.
  apply elapse_clock_only. intros j. unfold task_due. cbn [tasks clock set_clock].
  destruct (nth_error (tasks w) j) as [t'|] eqn:Ej; [|reflexivity].
  destruct (state t') eqn:Es; try reflexivity.
  pose proof (Huniq j t' Ej Es) as ->.
  rewrite Hi in Ej. injection Ej as <-. cbn. apply Z.leb_gt. lia.
Qed.

(** Time passing up to the deadline or beyond it: the timer fires. *)
Lemma elapse_after (dt D : Z) (w : World) :
  timers_ok w -> enabled (polling w) = true -> deadline_of w = Some D ->
  D <= clock w + Z.max 0 dt ->
  exists i,
    auto_disable_task w = Some i
    /\ elapse dt w
       = auto_disable_polling i (set_clock (clock w + Z.max 0 dt) w).
Proof.
  unfold timers_ok, deadline_of. intros H He HD Hge. rewrite He in H.
  destruct H as (i & t & t0 & Ha & Hi & Ht & _ & _ & _ & _ & Huniq).
  rewrite Ha, Hi in HD. cbn in HD. injection HD as HD.
  exists i. split; [exact Ha|]. unfold elapse.
  apply (run_due_fires (set_clock (clock w + Z.max 0 dt) w) i t);
    cbn [tasks clock set_clock]; try assumption. lia.
Qed.
Section PollingProperties.

Context (net : pyval -> net_outcome)
        (bytes_decode : string -> option string)
        (json_loads : string -> option pyval).

Local Abbreviation enable_polling' := (enable_polling net bytes_decode json_loads).
Local Abbreviation run_event' := (run_event net bytes_decode json_loads).
Local Abbreviation run' := (run net bytes_decode json_loads).
Local Abbreviation reachable' := (reachable net bytes_decode json_loads).

Lemma enable_polling_timers (w : World) :
  enabled (polling w) = false ->
  timer_state (snd (enable_polling' w)) = timer_state (enable_locked w).
Proof.
  intros Hd. unfold enable_polling. rewrite Hd.
  apply (keeps_enable_tail net bytes_decode json_loads).
Qed.

Lemma enable_polling_already (w : World) :
  enabled (polling w) = true ->
  enable_polling' w = (inr ("already_enabled", polling w), w).
Proof. intros He. unfold enable_polling. now rewrite He. Qed.

Lemma timers_ok_enable (w : World) :
  timers_ok w -> timers_ok (snd (enable_polling' w)).
Proof.
  intros H. destruct (enabled (polling w)) eqn:He.
  - now rewrite enable_polling_already.
  - apply timers_ok_ext with (w := enable_locked w).
    + now apply enable_polling_timers.
    + now apply timers_ok_enable_locked.
Qed.


Lemma run_event_quiet_timers (e : event) (w : World) :
  quiet e -> (forall dt, e <> EvElapse dt) ->
  timer_state (run_event' e w) = timer_state w.
Proof.
  intros Hq Hne. destruct e as [| | |dt| | |c|c]; cbn [run_event].
  - apply (keeps_lifespan net bytes_decode json_loads).
  - destruct Hq.
  - destruct Hq.
  - now elim (Hne dt).
  - apply (keeps_force_update net bytes_decode json_loads).
  - destruct (polling_task w) as [[| |]|]; try reflexivity.
    pose proof (keeps_polling_iteration net bytes_decode json_loads w) as H.
    destruct (polling_iteration net bytes_decode json_loads w) as [[e|u] w'];
      exact H.
  - apply ws_connect_timers.
  - reflexivity.
Qed.

Lemma timers_ok_deadline (w : World) :
  timers_ok w -> enabled (polling w) = true ->
  exists t0,
    enabled_at (polling w) = Some t0
    /\ auto_disable_at (polling w) = Some (t0 + 6 * 3600)
    /\ deadline_of w = Some (t0 + 6 * 3600)
    /\ clock w < t0 + 6 * 3600.
Proof.
  unfold timers_ok, deadline_of. intros H He. rewrite He in H.
  destruct H as (i & t & t0 & Ha & Hi & Ht & Hat & Hau & Hd & Hc & _).
  exists t0. rewrite Ha, Hi. cbn. rewrite Hd. repeat split; try assumption. lia.
Qed.


Lemma timers_ok_set_clock_before (w : World) (c D : Z) :
  timers_ok w -> enabled (polling w) = true -> deadline_of w = Some D ->
  c < D -> timers_ok (set_clock c w).
Proof.
  unfold timers_ok, deadline_of. intros H He HD Hc.
  cbn [polling auto_disable_task tasks clock set_clock]. rewrite He in *.
  destruct H as (i & t & t0 & Ha & Hi & Ht & Hat & Hau & Hd & _ & Hu).
  rewrite Ha, Hi in HD. cbn in HD. injection HD as HD.
  exists i, t, t0. repeat split; try assumption. lia.
Qed.

Lemma timers_ok_set_clock_disabled (w : World) (c : Z) :
  timers_ok w -> enabled (polling w) = false -> timers_ok (set_clock c w).
Proof.
  unfold timers_ok. cbn [polling auto_disable_task tasks clock set_clock].
  intros H Hd. now rewrite Hd in *.
Qed.

Lemma timers_ok_fired (w : World) (i : nat) (c : Z) :
  timers_ok w -> enabled (polling w) = true -> auto_disable_task w = Some i ->
  polling (auto_disable_polling i (set_clock c w)) = polling_disabled
  /\ timers_ok (auto_disable_polling i (set_clock c w)).
Proof.
  unfold timers_ok at 1. intros H He Ha. rewrite He in H.
  destruct H as (i' & t & t0 & Ha' & Hi & Ht & _ & _ & _ & _ & Huniq).
  rewrite Ha in Ha'. injection Ha' as <-.
  destruct (auto_disable_polling_fields i (set_clock c w)) as (Hp & Hau & Hts & Hc).
  cbn [polling tasks set_clock] in Hp, Hts.
  rewrite He in Hp. split; [exact Hp|].
  unfold timers_ok. rewrite Hp, Hts. cbn [enabled polling_disabled].
  split; [reflexivity|].
  intros j t' Hj Hpend. rewrite nth_error_set_state_at in Hj.
  destruct (Nat.eqb j i) eqn:Eji.
  - destruct (nth_error (tasks w) j); [|discriminate].
    cbn in Hj. injection Hj as <-. discriminate.
  - apply Nat.eqb_neq in Eji. apply Eji. exact (Huniq j t' Hj Hpend).
Qed.

Lemma timers_ok_elapse (dt : Z) (w : World) :
  timers_ok w -> timers_ok (elapse dt w).
Proof.
  intros H. destruct (enabled (polling w)) eqn:He.
  - destruct (timers_ok_deadline w H He) as (t0 & _ & _ & HD & _).
    destruct (Z_lt_ge_dec (clock w + Z.max 0 dt) (t0 + 6 * 3600)) as [Hlt|Hge].
    + rewrite (elapse_before dt _ w H He HD Hlt).
      now apply timers_ok_set_clock_before with (D := t0 + 6 * 3600).
    + destruct (elapse_after dt _ w H He HD) as (i & Ha & ->); [lia|].
      now apply timers_ok_fired.
  - rewrite (elapse_disabled dt w H He).
    now apply timers_ok_set_clock_disabled.
Qed.

Lemma timers_ok_step (e : event) (w : World) :
  timers_ok w -> timers_ok (run_event' e w).
Proof.
  intros H. destruct e as [| | |dt| | |c|c].
  - apply timers_ok_ext with (w := w); [|exact H].
    now apply run_event_quiet_timers.
  - now apply timers_ok_enable.
  - now apply timers_ok_disable.
  - now apply timers_ok_elapse.
  - apply timers_ok_ext with (w := w); [|exact H].
    now apply run_event_quiet_timers.
  - apply timers_ok_ext with (w := w); [|exact H].
    now apply run_event_quiet_timers.
  - apply timers_ok_ext with (w := w); [|exact H].
    now apply run_event_quiet_timers.
  - apply timers_ok_ext with (w := w); [|exact H].
    now apply run_event_quiet_timers.
Qed.

Lemma reachable_timers_ok (w : World) : reachable' w -> timers_ok w.
Proof.
  induction 1 as [t0|w e _ IH].
  - apply timers_ok_initial.
  - now apply timers_ok_step.
Qed.





Lemma enable_locked_polling (w : World) :
  polling (enable_locked w)
  = {| enabled := true; enabled_at := Some (clock w);
       auto_disable_at := Some (clock w + 6 * 3600) |}.
Proof.
  unfold enable_locked, create_auto_disable, cancel_auto_disable.
  cbn [polling set_auto_disable_task set_tasks].
  match goal with
  | |- polling (match auto_disable_task ?x with _ => _ end) = _ =>
      assert (Hx : polling x = {| enabled := true; enabled_at := Some (clock w);
                                  auto_disable_at := Some (clock w + 6 * 3600) |});
      [|destruct (auto_disable_task x) as [i|]; [|exact Hx];
        destruct (task_pending x i); exact Hx]
  end.
  cbn [polling_task set_polling].
  destruct (polling_task w) as [s|]; [|reflexivity].
  destruct (done s); reflexivity.
Qed.

Lemma enable_locked_clock (w : World) : clock (enable_locked w) = clock w.
Proof.
  unfold enable_locked, create_auto_disable, cancel_auto_disable.
  cbn [clock set_auto_disable_task set_tasks].
  match goal with
  | |- clock (match auto_disable_task ?x with _ => _ end) = _ =>
      assert (Hx : clock x = clock w);
      [|destruct (auto_disable_task x) as [i|]; [|exact Hx];
        destruct (task_pending x i); exact Hx]
  end.
  cbn [polling_task set_polling].
  destruct (polling_task w) as [s|]; [|reflexivity].
  destruct (done s); reflexivity.
Qed.

Lemma enable_polling_enabled (w : World) :
  enabled (polling (snd (enable_polling' w))) = true.
Proof.
  destruct (enabled (polling w)) eqn:He.
  - now rewrite enable_polling_already.
  - destruct (timer_state_fields _ _ (enable_polling_timers w He)) as (-> & _).
    now rewrite enable_locked_polling.
Qed.

(** C5.  [enable_polling] on a state with [enabled] true returns that state
    and changes nothing: neither [enabled_at] nor [auto_disable_at], and no
    timer is created.  From a state the process can reach, a second call
    right after a first one is such a call, and exactly one auto-disable
    timer is armed after the two. *)
Theorem enable_polling_idempotent :
  (forall w,
      enabled (polling w) = true ->
      enable_polling' w = (inr ("already_enabled", polling w), w))
  /\ (forall w,
         reachable' w ->
         enable_polling' (snd (enable_polling' w))
         = (inr ("already_enabled", polling (snd (enable_polling' w))),
            snd (enable_polling' w))
         /\ pending_tasks (snd (enable_polling' (snd (enable_polling' w))))
            = 1%nat).
Proof.
  split; [exact enable_polling_already|].
  intros w Hr.
  pose proof (enable_polling_enabled w) as Hen.
  pose proof (enable_polling_already _ Hen) as Hsecond.
  split; [exact Hsecond|].
  rewrite Hsecond. cbn [snd].
  rewrite timers_ok_pending, Hen; [reflexivity|].
  apply timers_ok_enable. now apply reachable_timers_ok.
Qed.

(** C9.  [disable_polling] on a state with [enabled] false, the initial
    state included, returns that state and changes nothing.  On a state with
    [enabled] true it sets [enabled] to false and [enabled_at] and
    [auto_disable_at] to null, and the timer [auto_disable_task] refers to is
    no longer armed; from a state the process can reach, no timer at all is
    armed afterwards. *)
Theorem disable_polling_transition :
  (forall w,
      enabled (polling w) = false ->
      disable_polling w = (inr ("already_disabled", polling w), w))
  /\ (forall t0,
         disable_polling (initial_world t0)
         = (inr ("already_disabled", polling_disabled), initial_world t0))
  /\ (forall w,
         enabled (polling w) = true ->
         fst (disable_polling w) = inr ("disabled", polling_disabled)
         /\ polling (snd (disable_polling w)) = polling_disabled
         /\ (forall i, auto_disable_task w = Some i ->
                       task_pending (snd (disable_polling w)) i = false)
         /\ (reachable' w ->
             pending_tasks (snd (disable_polling w)) = 0%nat
             /\ auto_disable_task (snd (disable_polling w)) = None)).
Proof.
  split; [exact disable_polling_already|].
  split; [intros t0; reflexivity|].
  intros w He. rewrite (disable_polling_world w He). cbn [fst snd].
  destruct (timer_state_fields _ _ (broadcast_polling_state_timers
                                      (disable_locked w)))
    as (Hp & Ha & Ht & Hc).
  split; [reflexivity|].
  split; [rewrite Hp; apply disable_locked_polling|].
  split.
  - intros i Hi. unfold task_pending. rewrite Ht.
    exact (disable_locked_cancels w i Hi).
  - intros Hr. apply reachable_timers_ok in Hr.
    destruct (timers_ok_disable_locked w Hr He) as [Hok Hnone].
    split; [|now rewrite Ha].
    rewrite timers_ok_pending.
    + now rewrite Hp, disable_locked_polling.
    + now apply timers_ok_ext with (w := disable_locked w);
        [apply broadcast_polling_state_timers|].
Qed.


End PollingProperties.

(** *** The state machine on a concrete run *)

Lemma one_viewer_reachable :
  reachable example_net example_decode example_loads one_viewer.
Proof. apply reachable_step, reachable_initial. Qed.

Lemma reachable_after_enable (net : pyval -> net_outcome)
    (bytes_decode : string -> option string)
    (json_loads : string -> option pyval) (w : World) :
  reachable net bytes_decode json_loads w ->
  reachable net bytes_decode json_loads
            (snd (enable_polling net bytes_decode json_loads w)).
Proof.
  intros H. exact (reachable_step net bytes_decode json_loads w EvEnable H).
Qed.

Lemma one_viewer_enabled_reachable :
  reachable example_net example_decode example_loads
            (snd (enable_polling example_net example_decode example_loads
                                 one_viewer)).
Proof. exact (reachable_after_enable _ _ _ one_viewer one_viewer_reachable). Qed.

Lemma enable_polling_idempotent_witness :
  enable_polling example_net example_decode example_loads
    (snd (enable_polling example_net example_decode example_loads one_viewer))
  = (inr ("already_enabled",
          {| enabled := true; enabled_at := Some 0;
             auto_disable_at := Some 21600 |}),
     snd (enable_polling example_net example_decode example_loads one_viewer))
  /\ pending_tasks
       (snd (enable_polling example_net example_decode example_loads
               (snd (enable_polling example_net example_decode example_loads
                                    one_viewer))))
     = 1%nat.
Proof.
  exact (proj2 (enable_polling_idempotent example_net example_decode example_loads)
               one_viewer one_viewer_reachable).
Defined.

Lemma disable_polling_transition_witness :
  disable_polling one_viewer
  = (inr ("already_disabled", polling_disabled), one_viewer)
  /\ polling (snd (disable_polling
                     (snd (enable_polling example_net example_decode
                                          example_loads one_viewer))))
     = polling_disabled
  /\ pending_tasks
       (snd (disable_polling
               (snd (enable_polling example_net example_decode example_loads
                                    one_viewer))))
     = 0%nat.
Proof.
  pose proof (disable_polling_transition example_net example_decode example_loads)
    as (Hoff & _ & Hon).
  split; [exact (Hoff one_viewer eq_refl)|].
  destruct (Hon (snd (enable_polling example_net example_decode example_loads
                                     one_viewer)) eq_refl)
    as (_ & Hp & _ & Hr).
  split; [exact Hp|].
  exact (proj1 (Hr one_viewer_enabled_reachable)).
Defined.

(** ** What [get_cues] stores is a Cue of the data model *)

Lemma cue_entry_inv (cue k v : pyval) :
  cue_entry cue = inr (k, v) ->
  exists items cp tpo,
    cue = VDict items
    /\ parse_countdown_string (dict_get_default items "countdown" VNone) = inr cp
    /\ parse_if_present (dict_get_default items "time" VNone) = inr tpo
    /\ hashable (cue_name items) = true
    /\ k = cue_name items
    /\ v = VDict (stored_cue items cp tpo).
Proof.
  unfold cue_entry. destruct cue as [| | | | |items]; try discriminate.
  cbn [py_get rbind].
  destruct (parse_countdown_string (dict_get_default items "countdown" VNone))
    as [e|cp] eqn:Ec; [discriminate|]. cbn [rbind].
  destruct (parse_if_present (dict_get_default items "time" VNone))
    as [e|tpo] eqn:Et; [discriminate|]. cbn [rbind].
  destruct (fallback (VDict items) (dict_get_default items "countdown" VNone)
                     cp tpo) as [e|c] eqn:Ef; [discriminate|]. cbn [rbind].
  apply fallback_returns in Ef. subst c.
  fold (cue_name items).
  destruct (hashable (cue_name items)) eqn:Eh; [|discriminate].
  intros H. injection H as <- <-.
  exists items, cp, tpo. repeat split; assumption.
Qed.

(** A record that is stored went through the fallback without an
    exception. *)
Lemma cue_entry_fallback (items : dict) (k v : pyval) (cp : Countdown)
    (tpo : option Countdown) :
  cue_entry (VDict items) = inr (k, v) ->
  parse_countdown_string (dict_get_default items "countdown" VNone) = inr cp ->
  parse_if_present (dict_get_default items "time" VNone) = inr tpo ->
  fallback (VDict items) (dict_get_default items "countdown" VNone) cp tpo
  = inr (fallback_value (dict_get_default items "countdown" VNone) cp tpo).
Proof.
  unfold cue_entry. cbn [py_get rbind]. intros H Hc Ht.
  rewrite Hc in H. cbn [rbind] in H. rewrite Ht in H. cbn [rbind] in H.
  destruct (fallback (VDict items) (dict_get_default items "countdown" VNone)
                     cp tpo) as [e|c] eqn:Ef; [discriminate|].
  now rewrite (fallback_returns _ _ _ _ _ Ef).
Qed.

Lemma stored_cue_wf (items : dict) (cp : Countdown) (tpo : option Countdown) :
  wf_cue (VDict (stored_cue items cp tpo)) = true.
Proof.
  pose proof (stored_cue_original_ms items cp tpo) as Hms.
  pose proof (stored_cue_countdown items cp tpo) as Hcd.
  unfold wf_cue, original_countdown_ms, field.
  destruct (stored_cue items cp tpo) as [|item rest]; [discriminate|].
  now rewrite Hms, Hcd.
Qed.

Lemma cue_entry_wf (cue k v : pyval) :
  cue_entry cue = inr (k, v) -> wf_cue v = true.
Proof.
  intros H. apply cue_entry_inv in H.
  destruct H as (items & cp & tpo & _ & _ & _ & _ & _ & ->).
  apply stored_cue_wf.
Qed.

Lemma dict_set_forallb (p : pyval -> bool) (d : dict) (k v : pyval) :
  forallb (fun kv => p (snd kv)) d = true -> p v = true ->
  forallb (fun kv => p (snd kv)) (dict_set d k v) = true.
Proof.
  intros Hd Hv. induction d as [|[k0 v0] d IH]; cbn [dict_set forallb snd].
  - now rewrite Hv.
  - cbn [forallb snd] in Hd. apply andb_true_iff in Hd as [H0 Hrest].
    destruct (key_eqb k0 k); cbn [forallb snd].
    + now rewrite Hv, Hrest.
    + now rewrite H0, IH.
Qed.

(** Every value of the cue mapping [get_cues] builds has an integer
    [_original_countdown_ms] and a Countdown dict. *)
Lemma cues_loop_wf (info_json : list pyval) :
  forall cue_data cue_data',
    forallb (fun kv => wf_cue (snd kv)) cue_data = true ->
    cues_loop info_json cue_data = inr cue_data' ->
    forallb (fun kv => wf_cue (snd kv)) cue_data' = true.
Proof.
  induction info_json as [|cue rest IH]; intros cue_data cue_data' Hwf H.
  - cbn in H. injection H as <-. exact Hwf.
  - cbn [cues_loop] in H.
    destruct (cue_entry cue) as [e|[k v]] eqn:Ee; [discriminate|].
    cbn [rbind fst snd] in H.
    apply (IH _ _ (dict_set_forallb wf_cue cue_data k v Hwf
                     (cue_entry_wf cue k v Ee)) H).
Qed.
Lemma dict_set_in (d : dict) (k v k0 v0 : pyval) :
  In (k, v) (dict_set d k0 v0) -> In (k, v) d \/ v = v0.
Proof.
  induction d as [|[k1 v1] d IH]; cbn [dict_set].
  - intros [H|[]]. right. congruence.
  - destruct (key_eqb k1 k0).
    + intros [H|H]; [right; congruence|left; now right].
    + intros [H|H]; [left; now left|].
      destruct (IH H) as [Hin|Hv]; [left; now right|now right].
Qed.

(** Every value of the cue mapping is what [cue_entry] made of one of the
    cue records. *)
Lemma cues_loop_entries (info_json : list pyval) :
  forall cue_data cue_data',
    cues_loop info_json cue_data = inr cue_data' ->
    forall k v,
      In (k, v) cue_data' ->
      In (k, v) cue_data
      \/ exists cue k', In cue info_json /\ cue_entry cue = inr (k', v).
Proof.
  induction info_json as [|cue rest IH]; intros cue_data cue_data' H k v Hin.
  - cbn in H. injection H as <-. now left.
  - cbn [cues_loop] in H.
    destruct (cue_entry cue) as [e|[k1 v1]] eqn:Ee; [discriminate|].
    cbn [rbind fst snd] in H.
    destruct (IH _ _ H k v Hin) as [Hold|(cue' & k' & Hc & He)].
    + destruct (dict_set_in _ _ _ _ _ Hold) as [Hd|Hv]; [now left|].
      subst v. right. exists cue, k1. split; [now left|exact Ee].
    + right. exists cue', k'. split; [now right|exact He].
Qed.

Section Storing.

Context (net : pyval -> net_outcome)
        (bytes_decode : string -> option string)
        (json_loads : string -> option pyval).

(** After a [get_cues] that returns, the snapshot holds, for a timeline it
    knows, the cue mapping built from the reply; every cue in it is what
    [cue_entry] made of one of the cue records of the reply. *)
Lemma get_cues_stores (h : pyval) (w w' : World) :
  get_cues net bytes_decode json_loads h w = (inr tt, w') ->
  dict_get (timelines w) h <> None ->
  exists cue_info info_json cue_data,
    fst (send_json net bytes_decode json_loads GET_CUE_INFO
                   (VDict [(VStr "handle", h)]) w) = inr cue_info
    /\ cue_records json_loads cue_info = inr info_json
    /\ cues_loop info_json [] = inr cue_data
    /\ cues_of w' h = Some (VDict cue_data)
    /\ (forall k v,
           In (k, v) cue_data ->
           exists cue k', In cue info_json /\ cue_entry cue = inr (k', v)).
Proof.
  unfold get_cues. unfold bind at 1.
  destruct (send_json net bytes_decode json_loads GET_CUE_INFO
                      (VDict [(VStr "handle", h)]) w) as [[e|cue_info] w1] eqn:Es;
    [discriminate|].
  assert (Hw1 : timelines w1 = timelines w).
  { unfold send_json in Es. injection Es as _ <-. reflexivity. }
  unfold bind at 1, lift.
  destruct (cue_records json_loads cue_info) as [e|info_json] eqn:Er;
    [discriminate|].
  unfold bind at 1.
  destruct (cues_loop info_json []) as [e|cue_data] eqn:El; [discriminate|].
  unfold store_cues, dict_contains. rewrite Hw1.
  destruct (hashable h) eqn:Eh; [|discriminate].
  intros H Hknown.
  destruct (dict_get (timelines w) h) as [tl|] eqn:Eg; [|now elim Hknown].
  destruct tl as [| | | | |d]; try discriminate.
  cbn [py_setitem] in H. injection H as <-.
  exists cue_info, info_json, cue_data.
  split; [reflexivity|]. split; [exact Er|]. split; [exact El|].
  split.
  - unfold cues_of. cbn [timelines set_timelines].
    rewrite dict_get_set_same by assumption. cbn [field].
    now rewrite dict_get_set_same.
  - intros k v Hin.
    destruct (cues_loop_entries info_json [] cue_data El k v Hin) as [[]|Hex].
    exact Hex.
Qed.

End Storing.
(** * Further properties *)

(** ** The parser *)

Lemma parse_str_returns (s : string) :
  exists c,
    parse_countdown_string (VStr s) = inr c
    /\ (c = zero_countdown
        \/ (PyStr.contains ":" s = true /\ raw c = VStr s)).
Proof.
  unfold parse_countdown_string. cbn [truthy has_colon rbind].
  destruct (negb (negb (String.eqb s "")));
    [exists zero_countdown; split; [reflexivity|now left]|].
  destruct (PyStr.contains ":" s) eqn:Hc; cbn [negb];
    [|exists zero_countdown; split; [reflexivity|now left]].
  destruct (parse_body s) as [e|c] eqn:Eb; cbn [try_except].
  - exists zero_countdown. split; [reflexivity|now left].
  - exists c. split; [reflexivity|]. right. split; [reflexivity|].
    now apply parse_body_raw.
Qed.

(** X1.  [parse_countdown_string] on [None], a [bool], an [int] and a
    [str].  It raises [TypeError] on a non-zero [int] and on [True] (the test
    [":" not in raw] stands before the [try]) and returns the zero Countdown
    on [None], [0] and [False].  On a string it never raises: it returns the
    zero Countdown or, for a string with a [":"], a Countdown whose [raw] is
    that string unchanged. *)
Theorem parse_outcomes :
  parse_countdown_string VNone = inr zero_countdown
  /\ (forall b,
         parse_countdown_string (VBool b)
         = if b then inl TypeError else inr zero_countdown)
  /\ (forall z,
         parse_countdown_string (VInt z)
         = if z =? 0 then inr zero_countdown else inl TypeError)
  /\ (forall s,
         exists c,
           parse_countdown_string (VStr s) = inr c
           /\ (c = zero_countdown
               \/ (PyStr.contains ":" s = true /\ raw c = VStr s))).
Proof.
  split; [reflexivity|]. split; [|split].
  - intros []; reflexivity.
  - intros z. unfold parse_countdown_string. cbn [truthy].
    now destruct (z =? 0).
  - apply parse_str_returns.
Qed.

Lemma rstrip_keeps_head (c : ascii) (r : string) :
  PyStr.isspace c = false -> exists r', PyStr.rstrip (String c r) = String c r'.
Proof.
  intros Hc. cbn [PyStr.rstrip].
  destruct (PyStr.rstrip r) as [|c' r'].
  - rewrite Hc. now exists EmptyString.
  - now exists (String c' r').
Qed.

Lemma strip_minus (r : string) :
  PyStr.startswith (PyStr.strip (String "-" r)) "-" = true.
Proof.
  unfold PyStr.strip. cbn [PyStr.lstrip].
  change (PyStr.isspace "-") with false. cbn iota.
  destruct (rstrip_keeps_head "-" r eq_refl) as [r' ->].
  destruct r'; reflexivity.
Qed.

Lemma not_negative_head (s : string) :
  PyStr.startswith (PyStr.strip s) "-" = false ->
  PyStr.lstrip_char "-" (String "-" s) = s.
Proof.
  intros H. cbn [PyStr.lstrip_char]. rewrite Ascii.eqb_refl.
  destruct s as [|c s]; [reflexivity|].
  cbn [PyStr.lstrip_char].
  destruct (Ascii.eqb c "-") eqn:E; [|reflexivity].
  apply Ascii.eqb_eq in E. subst c. now rewrite strip_minus in H.
Qed.

(** X2.  A leading ["-"] turns the sign of [hours] and [totalMs] and of
    nothing else: when a string that does not itself start with ["-"]
    (whitespace aside) parses to a Countdown other than the zero one, the
    string with ["-"] put in front parses to the same minutes, seconds and
    frames and to the opposite [hours] and [totalMs]. *)
Theorem parse_leading_minus (s : string) (c : Countdown) :
  PyStr.startswith (PyStr.strip s) "-" = false ->
  parse_countdown_string (VStr s) = inr c ->
  c <> zero_countdown ->
  parse_countdown_string (VStr (String "-" s)) = inr (negated (String "-" s) c).
Proof.
  intros Hpos H Hnz.
  unfold parse_countdown_string in *. cbn [truthy has_colon rbind] in *.
  destruct (negb (negb (String.eqb s ""))); [injection H as <-; now elim Hnz|].
  destruct (PyStr.contains ":" s) eqn:Hc; cbn [negb] in H;
    [|injection H as <-; now elim Hnz].
  change (String.eqb (String "-" s) "") with false. cbn [negb].
  cbn [PyStr.contains]. rewrite Hc, orb_true_r. cbn [negb].
  destruct (parse_body s) as [e|c'] eqn:Eb; cbn [try_except] in H;
    [injection H as <-; now elim Hnz|].
  injection H as ->.
  unfold parse_body in *.
  rewrite strip_minus. rewrite (not_negative_head s Hpos).
  rewrite Hpos in Eb.
  destruct (PyStr.split ":" s) as [|h [|m [|sec [|f [|x l]]]]]; try discriminate.
  destruct (PyStr.py_int h) as [e|hh]; [discriminate|].
  destruct (PyStr.py_int m) as [e|mm]; [discriminate|].
  destruct (PyStr.py_int sec) as [e|ss]; [discriminate|].
  destruct (PyStr.py_int f) as [e|ff]; [discriminate|].
  cbn [rbind] in *.
  destruct (frames_ms ff) as [e|ms]; [discriminate|].
  cbn [rbind try_except] in *. injection Eb as <-. reflexivity.
Qed.

Lemma parse_leading_minus_witness :
  parse_countdown_string (VStr "-1:02:03:2000")
  = inr {| raw := VStr "-1:02:03:2000"; hours := -1; minutes := 2; seconds := 3;
           frames := 2000; totalMs := - 3756333 |}.
Proof.
  apply (parse_leading_minus "1:02:03:2000"
           {| raw := VStr "1:02:03:2000"; hours := 1; minutes := 2; seconds := 3;
              frames := 2000; totalMs := 3756333 |}).
  - reflexivity.
  - vm_compute. reflexivity.
  - discriminate.
Defined.
Lemma parse_clock_timecode (h m s f : string) :
  component (2 ^ 62) h -> component 60 m -> component 60 s -> component 60 f ->
  parse_countdown_string (VStr (timecode false h m s f))
  = inr {| raw := VStr (timecode false h m s f);
           hours := number h; minutes := number m; seconds := number s;
           frames := number f;
           totalMs := number h * 3600000 + number m * 60000 + number s * 1000
                      + (number f * 1000) / 60 |}.
Proof.
  intros (Hh & Lh & _) (Hm & Lm & _) (Hs & Ls & _) (Hf & Lf & Bf).
  pose proof (is_digits_all h Hh) as Ah. pose proof (is_digits_all m Hm) as Am.
  pose proof (is_digits_all s Hs) as As. pose proof (is_digits_all f Hf) as Af.
  unfold parse_countdown_string. cbn [truthy has_colon rbind].
  rewrite timecode_not_empty, timecode_has_colon. cbn [negb].
  unfold parse_body.
  rewrite timecode_strip by assumption.
  rewrite timecode_is_negative by assumption.
  cbv zeta. cbn iota.
  rewrite timecode_split by assumption.
  rewrite !py_int_digits by assumption. cbn [rbind].
  rewrite frames_ms_below_969.
  2: { split; [apply digits_value_nonneg|]; lia. }
  cbn [rbind try_except]. do 2 f_equal. lia.
Qed.

Lemma number_nonneg (s : string) : 0 <= number s.
Proof. apply digits_value_nonneg. lia. Qed.

(** X3.  On timecodes of the clock face (minutes, seconds and frames below
    60) [totalMs] orders Countdowns as their components do, hours first and
    frames last; two such timecodes with the same [totalMs] denote the same
    four numbers. *)
Theorem total_ms_orders_timecodes (h1 m1 s1 f1 h2 m2 s2 f2 : string) :
  component (2 ^ 62) h1 -> component 60 m1 -> component 60 s1 ->
  component 60 f1 ->
  component (2 ^ 62) h2 -> component 60 m2 -> component 60 s2 ->
  component 60 f2 ->
  exists c1 c2,
    parse_countdown_string (VStr (timecode false h1 m1 s1 f1)) = inr c1
    /\ parse_countdown_string (VStr (timecode false h2 m2 s2 f2)) = inr c2
    /\ (totalMs c1 < totalMs c2
        <-> earlier (number h1, number m1, number s1, number f1)
                    (number h2, number m2, number s2, number f2))
    /\ (totalMs c1 = totalMs c2
        <-> (number h1, number m1, number s1, number f1)
            = (number h2, number m2, number s2, number f2)).
Proof.
  intros Hh1 Hm1 Hs1 Hf1 Hh2 Hm2 Hs2 Hf2.
  eexists. eexists.
  split; [now apply parse_clock_timecode|].
  split; [now apply parse_clock_timecode|].
  cbn [totalMs]. unfold earlier.
  destruct Hm1 as (_ & _ & Bm1), Hs1 as (_ & _ & Bs1), Hf1 as (_ & _ & Bf1).
  destruct Hm2 as (_ & _ & Bm2), Hs2 as (_ & _ & Bs2), Hf2 as (_ & _ & Bf2).
  pose proof (number_nonneg h1). pose proof (number_nonneg m1).
  pose proof (number_nonneg s1). pose proof (number_nonneg f1).
  pose proof (number_nonneg h2). pose proof (number_nonneg m2).
  pose proof (number_nonneg s2). pose proof (number_nonneg f2).
  set (h1' := number h1) in *. set (m1' := number m1) in *.
  set (s1' := number s1) in *. set (f1' := number f1) in *.
  set (h2' := number h2) in *. set (m2' := number m2) in *.
  set (s2' := number s2) in *. set (f2' := number f2) in *.
  clearbody h1' m1' s1' f1' h2' m2' s2' f2'.
  split; split.
  - Z.to_euclidean_division_equations. lia.
  - Z.to_euclidean_division_equations. lia.
  - intros E.
    assert (h1' = h2' /\ m1' = m2' /\ s1' = s2' /\ f1' = f2')
      by (Z.to_euclidean_division_equations; lia).
    intuition congruence.
  - intros E. injection E as -> -> -> ->. reflexivity.
Qed.

Lemma total_ms_orders_timecodes_witness :
  exists c1 c2,
    parse_countdown_string (VStr "00:59:59:59") = inr c1
    /\ parse_countdown_string (VStr "01:00:00:00") = inr c2
    /\ totalMs c1 < totalMs c2.
Proof.
  destruct (total_ms_orders_timecodes "00" "59" "59" "59" "01" "00" "00" "00")
    as (c1 & c2 & H1 & H2 & Hlt & _);
    try (repeat split; first [reflexivity | discriminate]).
  exists c1, c2. split; [exact H1|]. split; [exact H2|].
  apply Hlt. cbn. left. reflexivity.
Defined.
(** ** The payload *)

Lemma payload_cues_length (tl_handle name mode : pyval) (cues : dict) :
  forall countdowns countdowns',
    payload_cues tl_handle name mode cues countdowns = inr countdowns' ->
    (List.length countdowns' <= List.length countdowns + List.length cues)%nat.
Proof.
  induction cues as [|[cue_handle cue] cues IH]; intros acc acc' H.
  - cbn in H. injection H as <-. lia.
  - cbn [payload_cues] in H. cbn [List.length].
    assert (Hskip : payload_cues tl_handle name mode cues acc = inr acc' ->
                    (List.length acc' <= List.length acc + S (List.length cues))%nat).
    { intros H'. specialize (IH _ _ H'). lia. }
    destruct cue as [| | | | |items]; try (now apply Hskip).
    destruct (negb (truthy (VDict items))); [now apply Hskip|].
    destruct (lt_zero _) as [e|neg]; [discriminate|]. cbn [rbind] in H.
    destruct neg; [now apply Hskip|].
    destruct (py_or _ _) as [| | | | |cd]; try (now apply Hskip).
    specialize (IH _ _ H). rewrite length_app in IH. cbn [List.length] in IH. lia.
Qed.

Lemma payload_timelines_length (timelines : dict) :
  forall countdowns countdowns',
    payload_timelines timelines countdowns = inr countdowns' ->
    (List.length countdowns' <= List.length countdowns + cue_count timelines)%nat.
Proof.
  induction timelines as [|[tl_handle tl] timelines IH]; intros acc acc' H.
  - cbn in H. injection H as <-. cbn. lia.
  - cbn [payload_timelines] in H. cbn [cue_count fold_right snd].
    fold (cue_count timelines).
    assert (Hskip : payload_timelines timelines acc = inr acc' ->
                    (List.length acc'
                     <= List.length acc
                        + (List.length (items_of (or_none (field tl "cues")))
                           + cue_count timelines))%nat).
    { intros H'. specialize (IH _ _ H'). lia. }
    destruct tl as [| | | | |d]; try (now apply Hskip).
    destruct (negb (truthy (VDict d))); [now apply Hskip|].
    destruct (py_get _ "name" _) as [e|name]; [discriminate|]. cbn [rbind] in H.
    destruct (py_get _ "Mode" _) as [e|mode]; [discriminate|]. cbn [rbind] in H.
    cbn [field] in *. unfold dict_get_default in H.
    destruct (dict_get d (VStr "cues")) as [cv|] eqn:Ecu; cbn [or_none] in *;
      cbv beta iota in H.
    + destruct (py_or cv (VDict [])) as [| | | | |cues] eqn:Eo;
        try (now apply Hskip).
      destruct (payload_cues tl_handle name mode cues acc) as [e|mid] eqn:Ec;
        [discriminate|]. cbn [rbind] in H.
      apply payload_cues_length in Ec. specialize (IH _ _ H).
      assert (Hc : (List.length cues <= List.length (items_of cv))%nat).
      { unfold py_or in Eo. destruct (truthy cv).
        - subst cv. cbn. lia.
        - injection Eo as <-. cbn. lia. }
      lia.
    + cbn [py_or truthy payload_cues rbind] in H. now apply Hskip.
Qed.

(** X4.  Whenever [buildCountdownPayload] returns, the payload has the three
    keys [projectName], [countdowns] and [polling], with the project name and
    the polling state passed through, and its list holds at most as many
    records as the timelines hold cues. *)
Theorem payload_at_most_one_record_per_cue (timelines project_name polling_state
                                              payload : pyval) :
  buildCountdownPayload timelines project_name polling_state = inr payload ->
  exists countdowns,
    payload = VDict [ (VStr "projectName", project_name);
                      (VStr "countdowns", VList countdowns);
                      (VStr "polling", polling_state) ]
    /\ (List.length countdowns <= cue_count (items_of timelines))%nat.
Proof.
  unfold buildCountdownPayload. cbv zeta.
  change (match timelines with VDict d => d | _ => [] end) with (items_of timelines).
  destruct (payload_timelines (items_of timelines) []) as [e|countdowns] eqn:E;
    cbn [rbind]; [discriminate|].
  intros H. injection H as <-.
  exists countdowns. split; [reflexivity|].
  apply payload_timelines_length in E. cbn [List.length] in E. lia.
Qed.

Lemma payload_at_most_one_record_per_cue_witness :
  exists countdowns,
    buildCountdownPayload (VDict example_timelines) (VStr "Show") VNone
    = inr (VDict [ (VStr "projectName", VStr "Show");
                   (VStr "countdowns", VList countdowns);
                   (VStr "polling", VNone) ])
    /\ (List.length countdowns <= 2)%nat.
Proof.
  destruct (payload_at_most_one_record_per_cue
              (VDict example_timelines) (VStr "Show") VNone _ eq_refl)
    as (countdowns & Hp & Hlen).
  exists countdowns. split; [|exact Hlen].
  rewrite <- Hp. reflexivity.
Defined.
Lemma payload_timelines_app (a b : dict) :
  forall countdowns,
    payload_timelines (a ++ b)%list countdowns
    = (mid <- payload_timelines a countdowns ;; payload_timelines b mid)%res.
Proof.
  induction a as [|[tl_handle tl] a IH]; intros acc; [reflexivity|].
  cbn [app payload_timelines].
  destruct tl as [| | | | |d]; try apply IH.
  destruct (negb (truthy (VDict d))); [apply IH|].
  destruct (py_get _ "name" _) as [e|name]; [reflexivity|]. cbn [rbind].
  destruct (py_get _ "Mode" _) as [e|mode]; [reflexivity|]. cbn [rbind].
  destruct (py_or (dict_get_default d "cues" (VDict [])) (VDict []));
    try apply IH.
  destruct (payload_cues _ _ _ _ _) as [e|mid]; [reflexivity|]. cbn [rbind].
  apply IH.
Qed.

Lemma payload_builds (timelines : dict) (project_name polling_state x : pyval) :
  buildCountdownPayload (VDict timelines) project_name polling_state = inr x ->
  exists countdowns, payload_timelines timelines [] = inr countdowns.
Proof.
  unfold buildCountdownPayload. cbv zeta.
  destruct (payload_timelines timelines []) as [e|countdowns];
    cbn [rbind]; [discriminate|].
  intros _. now exists countdowns.
Qed.

(** X5.  A timeline whose [info] is neither a mapping nor a value that
    counts as false (a list, a string, a number other than zero) makes
    [buildCountdownPayload] raise [AttributeError], whatever follows it,
    once the timelines before it have been gone through without an
    exception. *)
Theorem payload_rejects_info_that_is_no_mapping (pre post d : dict)
    (tl_handle info project_name polling_state built : pyval) :
  buildCountdownPayload (VDict pre) project_name polling_state = inr built ->
  dict_get d (VStr "info") = Some info ->
  truthy info = true ->
  isinstance_dict info = false ->
  buildCountdownPayload (VDict (pre ++ (tl_handle, VDict d) :: post)%list)
                        project_name polling_state
  = inl AttributeError.
Proof.
  intros Hpre Hinfo Ht Hd.
  apply payload_builds in Hpre. destruct Hpre as [mid Hmid].
  unfold buildCountdownPayload. cbv zeta.
  rewrite payload_timelines_app, Hmid. cbn [rbind payload_timelines].
  assert (Hne : truthy (VDict d) = true).
  { destruct d; [discriminate|reflexivity]. }
  rewrite Hne. cbn [negb].
  rewrite (dict_get_default_some d "info" _ _ Hinfo).
  unfold py_or. rewrite Ht.
  destruct info; try discriminate; reflexivity.
Qed.

Lemma payload_rejects_info_that_is_no_mapping_witness :
  buildCountdownPayload
    (VDict (example_timelines
              ++ [ (VInt 2, VDict [ (VStr "info", VList [VStr "Side"]);
                                    (VStr "cues", VDict []) ]) ])%list)
    (VStr "Show") VNone
  = inl AttributeError.
Proof.
  apply (payload_rejects_info_that_is_no_mapping
           example_timelines []
           [ (VStr "info", VList [VStr "Side"]); (VStr "cues", VDict []) ]
           (VInt 2) (VList [VStr "Side"]) (VStr "Show") VNone
           (VDict [ (VStr "projectName", VStr "Show");
                    (VStr "countdowns",
                     VList (expected_countdowns example_timelines));
                    (VStr "polling", VNone) ])).
  - reflexivity.
  - reflexivity.
  - reflexivity.
  - reflexivity.
Defined.

(** X6.  An entry of [timelines] that is not a mapping, or is an empty one,
    is passed over: the payload is the one built without it. *)
Theorem payload_skips_what_is_no_timeline (pre post : dict)
    (tl_handle tl project_name polling_state : pyval) :
  truthy tl && isinstance_dict tl = false ->
  buildCountdownPayload (VDict (pre ++ (tl_handle, tl) :: post)%list)
                        project_name polling_state
  = buildCountdownPayload (VDict (pre ++ post)%list) project_name polling_state.
Proof.
  intros Hj. unfold buildCountdownPayload. cbv zeta.
  rewrite !payload_timelines_app.
  destruct (payload_timelines pre []) as [e|mid]; [reflexivity|].
  cbn [rbind payload_timelines].
  destruct tl as [| | | | |d]; try reflexivity.
  destruct d; [reflexivity|discriminate].
Qed.

Lemma payload_skips_what_is_no_timeline_witness :
  buildCountdownPayload
    (VDict (example_timelines ++ [ (VInt 2, VStr "gone") ])%list) (VStr "Show") VNone
  = buildCountdownPayload (VDict (example_timelines ++ [])%list) (VStr "Show") VNone.
Proof.
  apply (payload_skips_what_is_no_timeline
           example_timelines [] (VInt 2) (VStr "gone") (VStr "Show") VNone).
  reflexivity.
Defined.

(** ** Cue records *)

Lemma parse_number_raises (v : pyval) :
  truthy v && is_number v = true -> parse_countdown_string v = inl TypeError.
Proof.
  destruct v as [|b|z| | |]; cbn [is_number truthy]; try (now rewrite andb_false_r).
  - now destruct b.
  - unfold parse_countdown_string. cbn [truthy].
    now destruct (negb (z =? 0)).
Qed.

Lemma fallback_branches (items : dict) (cs : pyval) (cp : Countdown)
    (tpo : option Countdown) :
  fallback (VDict items) cs cp tpo
  = if clamps cp tpo && negb (warning_formats items cp)
    then inl ValueError
    else inr (fallback_value cs cp tpo).
Proof.
  unfold fallback, fallback_value, clamps, warning_formats, clamp, py_format.
  cbn [py_get rbind printable].
  destruct (totalMs cp <? 0); [|reflexivity]. cbn [andb].
  assert (Hclamp :
            (_ <- (if printable (dict_get_default items "name" (VStr "unknown"))
                   then inr tt else inl ValueError) ;;
             _ <- (if int_str_ok (totalMs cp) then inr tt else inl ValueError) ;;
             _ <- log WARN ;;
             inr (clamp_to_zero cp))%res
            = if negb (printable (dict_get_default items "name" (VStr "unknown"))
                       && int_str_ok (totalMs cp))
              then inl ValueError
              else inr (clamp_to_zero cp)).
  { destruct (printable _); [|reflexivity].
    destruct (int_str_ok _); reflexivity. }
  destruct tpo as [tp|]; [|exact Hclamp].
  destruct (0 <=? totalMs tp); [reflexivity|exact Hclamp].
Qed.

(** X7.  What [get_cues] does with one record of the reply.  A record that
    is not a JSON object raises [AttributeError].  An object whose
    [countdown] or [time] is a number other than zero raises [TypeError].
    An object with a negative countdown and no time that is not negative
    raises [ValueError] when the warning of that branch cannot be formatted,
    that is when the cue's name or the [totalMs] holds an int of more than
    4300 digits.  In every other case in which [countdown] and [time] parse,
    the record is stored under its name (the [name], or else the [handle]),
    unless that name is a list or an object, which raises [TypeError]. *)
Theorem cue_record_outcomes :
  (forall cue, isinstance_dict cue = false -> cue_entry cue = inl AttributeError)
  /\ (forall items,
         truthy (dict_get_default items "countdown" VNone)
         && is_number (dict_get_default items "countdown" VNone) = true ->
         cue_entry (VDict items) = inl TypeError)
  /\ (forall items cp,
         parse_countdown_string (dict_get_default items "countdown" VNone)
         = inr cp ->
         truthy (dict_get_default items "time" VNone)
         && is_number (dict_get_default items "time" VNone) = true ->
         cue_entry (VDict items) = inl TypeError)
  /\ (forall items cp tpo,
         parse_countdown_string (dict_get_default items "countdown" VNone)
         = inr cp ->
         parse_if_present (dict_get_default items "time" VNone) = inr tpo ->
         cue_entry (VDict items)
         = if clamps cp tpo && negb (warning_formats items cp)
           then inl ValueError
           else if hashable (cue_name items)
                then inr (cue_name items, VDict (stored_cue items cp tpo))
                else inl TypeError).
Proof.
  split; [|split; [|split]].
  - intros cue H. destruct cue; try reflexivity. discriminate.
  - intros items H. unfold cue_entry. cbn [py_get rbind].
    now rewrite (parse_number_raises _ H).
  - intros items cp Hc H. unfold cue_entry. cbn [py_get rbind].
    rewrite Hc. cbn [rbind]. unfold parse_if_present.
    apply andb_true_iff in H as [Ht Hn]. rewrite Ht.
    rewrite (parse_number_raises (dict_get_default items "time" VNone));
      [reflexivity|now rewrite Ht, Hn].
  - intros items cp tpo Hc Ht. unfold cue_entry. cbn [py_get rbind].
    rewrite Hc. cbn [rbind]. rewrite Ht. cbn [rbind].
    rewrite fallback_branches.
    destruct (clamps cp tpo && negb (warning_formats items cp));
      [reflexivity|]. cbn [rbind]. fold (cue_name items).
    now destruct (hashable (cue_name items)).
Qed.

Lemma cue_record_outcomes_witness :
  cue_entry (VDict example_cue_no_time)
  = inr (VInt 7,
         VDict (stored_cue example_cue_no_time
                  {| raw := VStr "-00:00:05:00"; hours := 0; minutes := 0;
                     seconds := 5; frames := 0; totalMs := -5000 |}
                  None)).
Proof.
  exact (proj2 (proj2 (proj2 cue_record_outcomes))
           example_cue_no_time
           {| raw := VStr "-00:00:05:00"; hours := 0; minutes := 0;
              seconds := 5; frames := 0; totalMs := -5000 |}
           None eq_refl eq_refl).
Defined.

Lemma fallback_nonneg (cs : pyval) (cp : Countdown) (tpo : option Countdown) :
  0 <= totalMs (fallback_value cs cp tpo).
Proof.
  unfold fallback_value.
  destruct (totalMs cp <? 0) eqn:E; [|now apply Z.ltb_ge in E].
  destruct tpo as [tp|]; [|cbn; lia].
  destruct (0 <=? totalMs tp) eqn:E'; [|cbn; lia].
  apply Z.leb_le in E'. exact E'.
Qed.

(** X8.  The Countdown stored for a cue never has a negative [totalMs].  The
    payload lists the cue exactly when the parsed countdown is not negative,
    and the Countdown stored is then the parsed one: a Countdown taken from
    the [time] field, or set to zero, is stored but never broadcast. *)
Theorem stored_countdown_is_never_negative (cue k v : pyval) :
  cue_entry cue = inr (k, v) ->
  exists items cp c,
    cue = VDict items
    /\ parse_countdown_string (dict_get_default items "countdown" VNone) = inr cp
    /\ field v "countdown" = Some (VDict (countdown_to_dict c))
    /\ 0 <= totalMs c
    /\ visible v = (0 <=? totalMs cp)
    /\ (visible v = true -> c = cp).
Proof.
  intros E.
  destruct (cue_entry_inv _ _ _ E) as (items & cp & tpo & -> & Hc & Ht
                                       & Hh & -> & ->).
  exists items, cp, (fallback_value (dict_get_default items "countdown" VNone) cp tpo).
  assert (Hv : visible (VDict (stored_cue items cp tpo)) = (0 <=? totalMs cp)).
  { unfold visible, original_countdown_ms. cbn [field].
    now rewrite stored_cue_original_ms. }
  split; [reflexivity|]. split; [exact Hc|].
  split; [cbn [field]; apply stored_cue_countdown|].
  split; [apply fallback_nonneg|].
  split; [exact Hv|].
  rewrite Hv. intros Hp. apply Z.leb_le in Hp.
  now apply fallback_untouched.
Qed.

Lemma stored_countdown_is_never_negative_witness :
  exists k v cp c,
    cue_entry (VDict example_cue) = inr (k, v)
    /\ parse_countdown_string (VStr "-00:00:05:00") = inr cp
    /\ field v "countdown" = Some (VDict (countdown_to_dict c))
    /\ totalMs cp = -5000
    /\ totalMs c = 60500
    /\ visible v = false.
Proof.
  destruct (cue_entry (VDict example_cue)) as [e|[k v]] eqn:E;
    [vm_compute in E; discriminate|].
  destruct (stored_countdown_is_never_negative _ k v E)
    as (items & cp & c & Hi & Hc & Hf & Hn & Hv & _).
  injection Hi as <-.
  exists k, v, cp, c.
  split; [reflexivity|]. split; [exact Hc|]. split; [exact Hf|].
  vm_compute in E. injection E as <- <-.
  vm_compute in Hc. injection Hc as <-.
  vm_compute in Hf. injection Hf as Hr Hh Hm Hs Hfr Ht.
  split; [reflexivity|]. split; [|reflexivity].
  destruct c; cbn in *. congruence.
Defined.

Lemma dict_get_set (d : dict) (k' v k : pyval) :
  dict_get (dict_set d k' v) k
  = if key_eqb k' k then Some v else dict_get d k.
Proof.
  induction d as [|[k0 v0] d IH]; cbn [dict_set dict_get].
  - reflexivity.
  - destruct (key_eqb k0 k') eqn:E0; cbn [dict_get].
    + destruct (key_eqb k0 k) eqn:E1.
      * rewrite key_eqb_sym in E0.
        now rewrite (key_eqb_trans _ _ _ E0 E1).
      * destruct (key_eqb k' k) eqn:E2; [|reflexivity].
        now rewrite (key_eqb_trans _ _ _ E0 E2) in E1.
    + destruct (key_eqb k0 k) eqn:E1; [|exact IH].
      destruct (key_eqb k' k) eqn:E2; [|reflexivity].
      rewrite key_eqb_sym in E2.
      now rewrite (key_eqb_trans _ _ _ E1 E2) in E0.
Qed.

Lemma dict_set_length (d : dict) (k v : pyval) :
  (List.length (dict_set d k v) <= S (List.length d))%nat.
Proof.
  induction d as [|[k0 v0] d IH]; cbn [dict_set List.length]; [lia|].
  destruct (key_eqb k0 k); cbn [List.length]; lia.
Qed.

Lemma cues_loop_last (records : list pyval) :
  forall cue_data cue_data' k,
    cues_loop records cue_data = inr cue_data' ->
    dict_get cue_data' k
    = match last_with_name k records with
      | Some v => Some v
      | None => dict_get cue_data k
      end.
Proof.
  induction records as [|cue rest IH]; intros acc acc' k H.
  - cbn in H. injection H as <-. reflexivity.
  - cbn [cues_loop] in H. cbn [last_with_name].
    destruct (cue_entry cue) as [e|[k' v]]; [discriminate|].
    cbn [rbind fst snd] in H.
    rewrite (IH _ _ k H), dict_get_set.
    destruct (last_with_name k rest); [reflexivity|].
    now destruct (key_eqb k' k).
Qed.

Lemma cues_loop_length (records : list pyval) :
  forall cue_data cue_data',
    cues_loop records cue_data = inr cue_data' ->
    (List.length cue_data' <= List.length cue_data + List.length records)%nat.
Proof.
  induction records as [|cue rest IH]; intros acc acc' H.
  - cbn in H. injection H as <-. cbn. lia.
  - cbn [cues_loop] in H.
    destruct (cue_entry cue) as [e|[k' v]]; [discriminate|].
    cbn [rbind fst snd] in H. apply IH in H.
    pose proof (dict_set_length acc k' v). cbn [List.length]. lia.
Qed.

(** X9.  Of the records of one reply that go by the same name, [get_cues]
    keeps the last: the cue stored under a name is what the last record with
    that name is stored as, a name no record has is not in the mapping, and
    the mapping has at most as many cues as the reply has records. *)
Theorem last_record_with_a_name_wins (records : list pyval) (cue_data : dict) :
  cues_loop records [] = inr cue_data ->
  (forall k, dict_get cue_data k = last_with_name k records)
  /\ (List.length cue_data <= List.length records)%nat.
Proof.
  intros H. split.
  - intros k. rewrite (cues_loop_last _ _ _ k H). cbn [dict_get].
    now destruct (last_with_name k records).
  - apply cues_loop_length in H. cbn [List.length] in H. lia.
Qed.

Lemma last_record_with_a_name_wins_witness :
  exists cue_data v,
    cues_loop [ VDict example_cue;
                VDict [ (VStr "name", VStr "Intro");
                        (VStr "countdown", VStr "00:00:07:00") ] ] []
    = inr cue_data
    /\ dict_get cue_data (VStr "Intro") = Some v
    /\ original_countdown_ms v = Some 7000
    /\ List.length cue_data = 1%nat.
Proof.
  destruct (cues_loop [ VDict example_cue;
                        VDict [ (VStr "name", VStr "Intro");
                                (VStr "countdown", VStr "00:00:07:00") ] ] [])
    as [e|cue_data] eqn:E; [vm_compute in E; discriminate|].
  destruct (last_record_with_a_name_wins _ _ E) as [Hlast Hlen].
  specialize (Hlast (VStr "Intro")).
  vm_compute in E. injection E as <-.
  eexists. eexists.
  split; [reflexivity|].
  split; [exact Hlast|].
  split; reflexivity.
Defined.

(** ** The fetchers *)

Lemma set_timelines_same (w : World) : set_timelines (timelines w) w = w.
Proof. now destruct w. Qed.

Lemma dict_keys_set (d : dict) (k v v0 : pyval) :
  dict_get d k = Some v0 -> dict_keys (dict_set d k v) = dict_keys d.
Proof.
  induction d as [|[k1 v1] d IH]; cbn [dict_get dict_set]; [discriminate|].
  rewrite (key_eqb_sym k1 k).
  destruct (key_eqb k k1); [reflexivity|].
  intros H. cbn [dict_keys map fst]. f_equal. now apply IH.
Qed.

Section FetcherFrames.

Context (net : pyval -> net_outcome)
        (bytes_decode : string -> option string)
        (json_loads : string -> option pyval).

Local Abbreviation get_cues' := (get_cues net bytes_decode json_loads).

Lemma store_cues_world (h : pyval) (cue_data : dict) (w : World) :
  exists tls,
    snd (store_cues h cue_data w) = set_timelines tls w
    /\ (tls = timelines w
        \/ (fst (store_cues h cue_data w) = inr tt
            /\ exists d,
                dict_get (timelines w) h = Some (VDict d)
                /\ tls = dict_set (timelines w) h
                                  (VDict (dict_set d (VStr "cues")
                                                   (VDict cue_data))))).
Proof.
  unfold store_cues.
  destruct (dict_contains (timelines w) h) as [e|[|]] eqn:Ec;
    try (exists (timelines w); split;
         [cbn [snd]; now rewrite set_timelines_same|now left]).
  destruct (dict_get (timelines w) h) as [tl|] eqn:Eg;
    try (exists (timelines w); split;
         [cbn [snd]; now rewrite set_timelines_same|now left]).
  destruct tl as [| | | | |d];
    try (exists (timelines w); split;
         [cbn [snd]; now rewrite set_timelines_same|now left]).
  cbn [py_setitem snd fst].
  eexists. split; [reflexivity|]. right. split; [reflexivity|].
  now exists d.
Qed.

Lemma get_cues_world (h : pyval) (w : World) :
  exists tls,
    snd (get_cues' h w)
    = set_timelines tls (set_request_id (request_id w + 1) w)
    /\ (tls = timelines w
        \/ (fst (get_cues' h w) = inr tt
            /\ exists d cue_data,
                dict_get (timelines w) h = Some (VDict d)
                /\ tls = dict_set (timelines w) h
                                  (VDict (dict_set d (VStr "cues")
                                                   (VDict cue_data)))
                /\ exists info_json, cues_loop info_json [] = inr cue_data)).
Proof.
  unfold get_cues, bind, send_json, lift.
  set (w1 := set_request_id (request_id w + 1) w).
  destruct (try_except _ _) as [e|cue_info]; cbn [fst snd];
    try (exists (timelines w); split;
         [now rewrite <- (set_timelines_same w1) at 1|now left]).
  destruct (cue_records json_loads cue_info) as [e|info_json]; cbn [fst snd];
    try (exists (timelines w); split;
         [now rewrite <- (set_timelines_same w1) at 1|now left]).
  destruct (cues_loop info_json []) as [e|cue_data] eqn:El; cbn [fst snd];
    try (exists (timelines w); split;
         [now rewrite <- (set_timelines_same w1) at 1|now left]).
  destruct (store_cues_world h cue_data w1) as (tls & Hw & Ht).
  exists tls. split; [exact Hw|].
  destruct Ht as [->|(Hr & d & Hd & ->)]; [now left|].
  right. split; [exact Hr|]. exists d, cue_data.
  split; [exact Hd|]. split; [reflexivity|]. now exists info_json.
Qed.

(** X10.  [get_cues] spends one request and, of the shared data, changes at
    most the [cues] of the timeline it is called for: the status, the
    polling state and the viewers are as before, the timelines keep their
    handles and their order, every other timeline is untouched, and so is
    every other key of the timeline itself.  When it raises, no timeline has
    changed. *)
Theorem get_cues_changes_one_cue_mapping (h : pyval) (w : World) :
  request_id (snd (get_cues' h w)) = request_id w + 1
  /\ status (snd (get_cues' h w)) = status w
  /\ polling (snd (get_cues' h w)) = polling w
  /\ connected_clients (snd (get_cues' h w)) = connected_clients w
  /\ sent (snd (get_cues' h w)) = sent w
  /\ dict_keys (timelines (snd (get_cues' h w))) = dict_keys (timelines w)
  /\ (forall h',
         key_eqb h h' = false ->
         dict_get (timelines (snd (get_cues' h w))) h'
         = dict_get (timelines w) h')
  /\ (forall k,
         key_eqb (VStr "cues") k = false ->
         option_map (fun tl => dict_get (items_of tl) k)
                    (dict_get (timelines (snd (get_cues' h w))) h)
         = option_map (fun tl => dict_get (items_of tl) k)
                      (dict_get (timelines w) h))
  /\ (forall e,
         fst (get_cues' h w) = inl e ->
         timelines (snd (get_cues' h w)) = timelines w).
Proof.
  destruct (get_cues_world h w) as (tls & -> & Ht).
  cbn [request_id status polling connected_clients sent timelines
       set_timelines set_request_id].
  do 5 (split; [reflexivity|]).
  destruct Ht as [->|(Hr & d & cue_data & Hd & -> & _)].
  - repeat split; reflexivity.
  - split; [exact (dict_keys_set _ _ _ _ Hd)|].
    split; [|split].
    + intros h' Hh. rewrite dict_get_set. now rewrite Hh.
    + intros k Hk. rewrite dict_get_set, Hd.
      destruct (key_eqb h h); cbn [option_map items_of]; [|reflexivity].
      now rewrite dict_get_set_str_other.
    + intros e He. congruence.
Qed.

End FetcherFrames.

Lemma get_cues_changes_one_cue_mapping_witness :
  key_eqb (VStr "cues") (VStr "info") = false
  /\ option_map (fun tl => dict_get (items_of tl) (VStr "info"))
                (dict_get (timelines (snd (get_cues example_net example_decode
                                                    example_loads (VInt 1)
                                                    example_world)))
                          (VInt 1))
     = option_map (fun tl => dict_get (items_of tl) (VStr "info"))
                  (dict_get (timelines example_world) (VInt 1)).
Proof.
  destruct (get_cues_changes_one_cue_mapping
              example_net example_decode example_loads (VInt 1) example_world)
    as (_ & _ & _ & _ & _ & _ & _ & Hk & _).
  split; [reflexivity|].
  exact (Hk (VStr "info") eq_refl).
Defined.

Lemma set_request_id_same (w : World) : set_request_id (request_id w) w = w.
Proof. now destruct w. Qed.

Section TimelineTable.

Context (net : pyval -> net_outcome)
        (bytes_decode : string -> option string)
        (json_loads : string -> option pyval).

Local Abbreviation send_json' := (send_json net bytes_decode json_loads).
Local Abbreviation timelines_loop' := (timelines_loop net bytes_decode json_loads).
Local Abbreviation get_timelines' := (get_timelines net bytes_decode json_loads).

Lemma timelines_loop_world (handles : list pyval) :
  forall clean w, exists n,
    snd (timelines_loop' handles clean w) = set_request_id n w.
Proof.
  induction handles as [|handle rest IH]; intros clean w.
  - exists (request_id w). cbn. now rewrite set_request_id_same.
  - cbn [timelines_loop]. unfold bind at 1, send_json at 1.
    set (w1 := set_request_id (request_id w + 1) w).
    destruct (try_except _ _) as [e|info]; [now eexists|].
    unfold bind at 1, lift, dict_setitem.
    destruct (hashable handle); [|now eexists].
    destruct (IH (dict_set clean handle
                    (VDict [ (VStr "info",
                              try_default
                                (r <- py_get info "result" (VStr "{}") ;;
                                 py_json_loads json_loads r)%res (VDict []));
                             (VStr "cues", VDict []) ])) w1) as [n Hn].
    exists n. rewrite Hn. reflexivity.
Qed.

Lemma timelines_loop_keys (handles : list pyval) :
  forall clean w clean' w',
    timelines_loop' handles clean w = (inr clean', w') ->
    request_id w' = request_id w + Z.of_nat (List.length handles)
    /\ (forall k,
           dict_get clean' k <> None
           <-> (dict_get clean k <> None
                \/ exists h, In h handles /\ key_eqb h k = true)).
Proof.
  induction handles as [|handle rest IH]; intros clean w clean' w' H.
  - cbn [timelines_loop] in H. unfold ret in H. injection H as <- <-.
    split; [cbn; lia|]. intros k. split; [now left|].
    intros [Hk|(h & [] & _)]. exact Hk.
  - cbn [timelines_loop] in H. unfold bind at 1 in H.
    unfold send_json at 1 in H.
    set (w1 := set_request_id (request_id w + 1) w) in H.
    destruct (try_except _ _) as [e|info] in H; [discriminate|].
    unfold bind at 1, lift, dict_setitem in H.
    destruct (hashable handle); [|discriminate].
    apply IH in H. destruct H as [Hid Hkeys].
    split.
    + rewrite Hid. cbn [w1 request_id set_request_id List.length].
      rewrite Nat2Z.inj_succ. lia.
    + intros k. rewrite Hkeys, dict_get_set. cbn [In]. split.
      * intros [Hk|(h & Hin & Hh)].
        -- destruct (key_eqb handle k) eqn:E; [|now left].
           right. exists handle. now split; [left|].
        -- right. exists h. now split; [right|].
      * intros [Hk|(h & [<-|Hin] & Hh)].
        -- left. now destruct (key_eqb handle k).
        -- left. now rewrite Hh.
        -- right. now exists h.
Qed.

(** X11.  [get_timelines] does not touch the status or the polling state.
    When it raises, the timelines are as before.  When it returns, it has
    sent one request for the list and one for every handle listed (as often
    as the handle is listed), and the new table holds exactly the handles
    listed, each with its info and no cues; nothing of the old table is
    kept. *)
Theorem get_timelines_replaces_the_table (w w' : World) (r : res unit) :
  get_timelines' w = (r, w') ->
  status w' = status w
  /\ polling w' = polling w
  /\ (forall e, r = inl e -> timelines w' = timelines w)
  /\ (r = inr tt ->
      exists reply tls handles,
        fst (send_json' GET_TIMELINES VNone w) = inr reply
        /\ py_get reply "result" (VList []) = inr tls
        /\ py_iter tls = inr handles
        /\ request_id w' = request_id w + 1 + Z.of_nat (List.length handles)
        /\ (forall k,
               dict_get (timelines w') k <> None
               <-> exists h, In h handles /\ key_eqb h k = true)
        /\ Forall fresh_timeline (map snd (timelines w'))).
Proof.
  intros H.
  assert (Hfresh : r = inr tt -> Forall fresh_timeline (map snd (timelines w'))).
  { intros ->. exact (get_timelines_fresh _ _ _ _ _ H). }
  revert H. unfold get_timelines. unfold bind at 1. unfold send_json at 1.
  set (w0 := set_request_id (request_id w + 1) w).
  destruct (try_except _ _) as [e|reply] eqn:Er.
  { intros [= <- <-]. repeat split; try reflexivity. discriminate. }
  unfold bind at 1, lift.
  destruct (py_get reply "result" (VList [])) as [e|tls] eqn:Et.
  { intros [= <- <-]. repeat split; try reflexivity. discriminate. }
  unfold bind at 1.
  destruct (py_iter tls) as [e|handles] eqn:Eh.
  { intros [= <- <-]. repeat split; try reflexivity. discriminate. }
  unfold bind at 1.
  destruct (timelines_loop_world handles [] w0) as [n Hn].
  destruct (timelines_loop' handles [] w0) as [[e|clean] w2] eqn:El;
    cbn [snd] in Hn; subst w2.
  { intros [= <- <-]. repeat split; try reflexivity. discriminate. }
  unfold modify. intros [= <- <-].
  split; [reflexivity|]. split; [reflexivity|]. split; [discriminate|].
  intros _. exists reply, tls, handles.
  destruct (timelines_loop_keys _ _ _ _ _ El) as [Hid Hkeys].
  split; [unfold send_json; cbn [fst]; exact Er|].
  split; [exact Et|]. split; [exact Eh|].
  split.
  { cbn [request_id set_request_id set_timelines] in *. rewrite Hid.
    unfold w0. reflexivity. }
  split; [|now apply Hfresh].
  intros k. cbn [timelines set_timelines]. rewrite Hkeys. cbn [dict_get].
  split.
  - intros [Hk|Hk]; [now elim Hk|exact Hk].
  - intros Hk. now right.
Qed.

End TimelineTable.

Lemma get_timelines_replaces_the_table_witness :
  request_id (snd (get_timelines example_net example_decode example_loads
                                 example_world))
  = request_id example_world + 1 + 1
  /\ (dict_get (timelines (snd (get_timelines example_net example_decode
                                              example_loads example_world)))
               (VInt 1) <> None).
Proof.
  destruct (get_timelines_replaces_the_table
              example_net example_decode example_loads example_world _ _
              example_get_timelines) as (_ & _ & _ & Hok).
  destruct (Hok eq_refl) as (reply & tls & handles & Hr & Ht & Hh & Hid & Hk & _).
  vm_compute in Hr. injection Hr as <-.
  vm_compute in Ht. injection Ht as <-.
  vm_compute in Hh. injection Hh as <-.
  rewrite example_get_timelines. cbn [snd]. split.
  - exact Hid.
  - apply Hk. exists (VInt 1). split; [now left|reflexivity].
Defined.

Section ProjectName.

Context (net : pyval -> net_outcome)
        (bytes_decode : string -> option string)
        (json_loads : string -> option pyval).

Local Abbreviation exchange' := (exchange net bytes_decode json_loads).
Local Abbreviation get_project_name' :=
  (get_project_name net bytes_decode json_loads).

(** X12.  [get_project_name] spends one request and leaves the timelines,
    the polling state and every other key of the status alone.  When the
    request fails (the connection raises, the bytes do not decode, the text
    is not JSON) it overwrites the stored name with ["Unknown"]; when the
    reply is an object, it stores the [result] of the reply, or ["Unknown"]
    if there is none; when the reply is JSON of another kind, it raises
    [AttributeError] and the status is as before. *)
Theorem get_project_name_outcomes (w : World) :
  timelines (snd (get_project_name' w)) = timelines w
  /\ polling (snd (get_project_name' w)) = polling w
  /\ request_id (snd (get_project_name' w)) = request_id w + 1
  /\ (forall k,
         key_eqb (VStr "projectName") k = false ->
         dict_get (status (snd (get_project_name' w))) k
         = dict_get (status w) k)
  /\ (forall e,
         exchange' (make_request (request_id w) GET_PROJECT_NAME VNone) = inl e ->
         fst (get_project_name' w) = inr tt
         /\ dict_get (status (snd (get_project_name' w))) (VStr "projectName")
            = Some (VStr "Unknown"))
  /\ (forall d,
         exchange' (make_request (request_id w) GET_PROJECT_NAME VNone)
         = inr (VDict d) ->
         fst (get_project_name' w) = inr tt
         /\ dict_get (status (snd (get_project_name' w))) (VStr "projectName")
            = Some (dict_get_default d "result" (VStr "Unknown")))
  /\ (forall v,
         exchange' (make_request (request_id w) GET_PROJECT_NAME VNone) = inr v ->
         isinstance_dict v = false ->
         fst (get_project_name' w) = inl AttributeError
         /\ status (snd (get_project_name' w)) = status w).
Proof.
  unfold get_project_name, bind, send_json, lift, modify.
  destruct (exchange' (make_request (request_id w) GET_PROJECT_NAME VNone))
    as [e|v]; cbn [try_except].
  - cbn [py_get fst snd timelines polling request_id status set_status
         set_request_id].
    do 3 (split; [reflexivity|]).
    split; [intros k Hk; now apply dict_get_set_str_other|].
    split; [intros _ _; split; [reflexivity|apply dict_get_set_str_same]|].
    split; [discriminate|]. discriminate.
  - destruct v as [| | | | |d];
      cbn [py_get fst snd timelines polling request_id status set_status
           set_request_id];
      (do 3 (split; [reflexivity|]));
      (split; [try (intros k Hk; now apply dict_get_set_str_other); reflexivity|]);
      (split; [discriminate|]);
      (split; [try discriminate
              |intros v0 [= <-] Hd; try discriminate Hd; now split]).
    intros d' [= <-]. split; [reflexivity|apply dict_get_set_str_same].
Qed.

End ProjectName.

Lemma get_project_name_outcomes_witness :
  fst (get_project_name example_net example_decode example_loads example_world)
  = inr tt
  /\ dict_get (status (snd (get_project_name example_net example_decode
                                              example_loads example_world)))
              (VStr "projectName")
     = Some (VStr "Unknown").
Proof.
  destruct (get_project_name_outcomes
              example_net example_decode example_loads example_world)
    as (_ & _ & _ & _ & Hfail & _).
  exact (Hfail TimeoutError eq_refl).
Defined.

(** ** Replies *)

Lemma terminator_not_early (c : ascii) (r : string) :
  PyStr.startswith (String c r) MSG_TERMINATOR = false ->
  PyStr.startswith (String c (r ++ MSG_TERMINATOR)) MSG_TERMINATOR = false.
Proof.
  unfold MSG_TERMINATOR.
  destruct r as [|c2 [|c3 [|c4 r]]]; cbn [PyStr.startswith append]; intros H.
  - destruct (Ascii.eqb c "0"); reflexivity.
  - destruct (Ascii.eqb c "0"), (Ascii.eqb c2 "x"); reflexivity.
  - destruct (Ascii.eqb c "0"), (Ascii.eqb c2 "x"), (Ascii.eqb c3 "P");
      reflexivity.
  - destruct r; exact H.
Qed.

Lemma remove_all_framed (body : string) :
  forall fuel,
    (String.length body < fuel)%nat ->
    occurs MSG_TERMINATOR body = false ->
    PyStr.remove_all MSG_TERMINATOR (body ++ MSG_TERMINATOR) fuel = body.
Proof.
  induction body as [|c r IH]; intros fuel Hf Ho.
  - destruct fuel as [|[|fuel]]; [cbn in Hf; lia|reflexivity|reflexivity].
  - destruct fuel as [|fuel]; [cbn in Hf; lia|].
    cbn [occurs] in Ho. apply orb_false_iff in Ho. destruct Ho as [Hs Ho].
    cbn [append PyStr.remove_all].
    rewrite (terminator_not_early _ _ Hs). cbn [andb].
    f_equal. apply IH; [cbn in Hf; lia|exact Ho].
Qed.

Lemma length_append (a b : string) :
  String.length (a ++ b) = (String.length a + String.length b)%nat.
Proof. induction a as [|c a IH]; cbn; [reflexivity|now rewrite IH]. Qed.

Lemma replace_framed (body : string) :
  occurs MSG_TERMINATOR body = false ->
  PyStr.replace_with_empty MSG_TERMINATOR (body ++ MSG_TERMINATOR) = body.
Proof.
  intros Ho. unfold PyStr.replace_with_empty.
  apply remove_all_framed; [|exact Ho].
  rewrite length_append. cbn. lia.
Qed.

Section Replies.

Context (net : pyval -> net_outcome)
        (bytes_decode : string -> option string)
        (json_loads : string -> option pyval).

Local Abbreviation send_json' := (send_json net bytes_decode json_loads).

(** X13.  A reply that is a text followed by the terminator, with no
    terminator inside the text, is read as that text: [send_json] returns
    what [json.loads] makes of it when it is JSON, and the empty dict when
    it is not. *)
Theorem send_json_reads_a_framed_reply (method : string) (params : pyval)
    (w : World) (data body : string) :
  net (make_request (request_id w) method params) = NetReceived data ->
  bytes_decode data = Some (body ++ MSG_TERMINATOR) ->
  occurs MSG_TERMINATOR body = false ->
  send_json' method params w
  = (inr (match json_loads body with
          | Some reply => reply
          | None => VDict []
          end),
     set_request_id (request_id w + 1) w).
Proof.
  intros Hn Hd Ho. unfold send_json, exchange.
  rewrite Hn, Hd, (replace_framed _ Ho).
  now destruct (json_loads body).
Qed.

End Replies.

Lemma send_json_reads_a_framed_reply_witness :
  send_json example_net example_decode example_loads GET_TIMELINES VNone
            (initial_world 0)
  = (inr (VDict [(VStr "result", VList [VInt 1])]),
     set_request_id 2 (initial_world 0)).
Proof.
  exact (send_json_reads_a_framed_reply
           example_net example_decode example_loads GET_TIMELINES VNone
           (initial_world 0) (timelines_text ++ MSG_TERMINATOR) timelines_text
           eq_refl eq_refl eq_refl).
Defined.

(** ** What a part of the globals is kept by *)

Section Keeps.

Context {B : Type} (f : World -> B).

Lemma keeps_part_ret {A : Type} (a : A) : keeps f (ret a).
Proof. intros w. reflexivity. Qed.

Lemma keeps_part_lift {A : Type} (r : res A) : keeps f (lift r).
Proof. intros w. reflexivity. Qed.

Lemma keeps_part_gets {A : Type} (g : World -> A) : keeps f (gets g).
Proof. intros w. reflexivity. Qed.

Lemma keeps_part_modify (g : World -> World) :
  (forall w, f (g w) = f w) -> keeps f (modify g).
Proof. intros Hg w. apply Hg. Qed.

Lemma keeps_part_bind {A C : Type} (m : M A) (k : A -> M C) :
  keeps f m -> (forall a, keeps f (k a)) -> keeps f (bind m k).
Proof.
  intros Hm Hk w. unfold bind. specialize (Hm w).
  destruct (m w) as [[e|a] w']; cbn [snd] in *.
  - exact Hm.
  - rewrite (Hk a w'). exact Hm.
Qed.

Section Broadcasts.

Hypothesis f_clients : forall x w, f (set_connected_clients x w) = f w.
Hypothesis f_sent : forall x w, f (set_sent x w) = f w.

Lemma keeps_part_deliver (text : pyval) (w : World) : f (deliver text w) = f w.
Proof. unfold deliver. now rewrite f_clients, f_sent. Qed.

Lemma keeps_part_broadcast_polling_state (w : World) :
  f (broadcast_polling_state w) = f w.
Proof.
  unfold broadcast_polling_state.
  destruct (connected_clients w); [reflexivity|apply keeps_part_deliver].
Qed.

Lemma keeps_part_broadcast_update : keeps f broadcast_update.
Proof.
  intros w. unfold broadcast_update.
  destruct (connected_clients w); [reflexivity|].
  destruct (rbind (snapshot_payload w) _); [reflexivity|apply keeps_part_deliver].
Qed.

Lemma keeps_part_ws_connect (c : nat) (w : World) : f (ws_connect c w) = f w.
Proof.
  unfold ws_connect.
  set (w1 := if existsb (Nat.eqb c) (connected_clients w) then w else _).
  assert (H1 : f w1 = f w).
  { unfold w1. destruct (existsb (Nat.eqb c) (connected_clients w));
      [reflexivity|apply f_clients]. }
  destruct (rbind (snapshot_payload w1) _); [exact H1|].
  destruct (is_closed w1 c); [now rewrite f_clients|now rewrite f_sent].
Qed.

End Broadcasts.

Section Fetchers.

Context (net : pyval -> net_outcome)
        (bytes_decode : string -> option string)
        (json_loads : string -> option pyval).

Hypothesis f_request_id : forall x w, f (set_request_id x w) = f w.

Lemma keeps_part_send_json (method : string) (params : pyval) :
  keeps f (send_json net bytes_decode json_loads method params).
Proof. intros w. apply f_request_id. Qed.

Lemma keeps_part_get_project_name :
  (forall x w, f (set_status x w) = f w) ->
  keeps f (get_project_name net bytes_decode json_loads).
Proof.
  intros f_status. unfold get_project_name.
  apply keeps_part_bind; [apply keeps_part_send_json|]. intros result.
  apply keeps_part_bind; [apply keeps_part_lift|]. intros name.
  apply keeps_part_modify. intros w. apply f_status.
Qed.

Lemma keeps_part_timelines_loop (handles : list pyval) (clean : dict) :
  keeps f (timelines_loop net bytes_decode json_loads handles clean).
Proof.
  revert clean. induction handles as [|handle rest IH]; intros clean.
  - apply keeps_part_ret.
  - cbn [timelines_loop].
    apply keeps_part_bind; [apply keeps_part_send_json|]. intros info.
    apply keeps_part_bind; [apply keeps_part_lift|]. intros clean'. apply IH.
Qed.

Hypothesis f_timelines : forall x w, f (set_timelines x w) = f w.

Lemma keeps_part_get_timelines :
  keeps f (get_timelines net bytes_decode json_loads).
Proof.
  unfold get_timelines.
  apply keeps_part_bind; [apply keeps_part_send_json|]. intros result.
  apply keeps_part_bind; [apply keeps_part_lift|]. intros tls.
  apply keeps_part_bind; [apply keeps_part_lift|]. intros handles.
  apply keeps_part_bind; [apply keeps_part_timelines_loop|]. intros clean.
  apply keeps_part_modify. intros w. apply f_timelines.
Qed.

Lemma keeps_part_store_cues (h : pyval) (cue_data : dict) :
  keeps f (store_cues h cue_data).
Proof.
  intros w. unfold store_cues.
  destruct (dict_contains (timelines w) h) as [e|[|]]; try reflexivity.
  destruct (dict_get (timelines w) h) as [tl|]; [|reflexivity].
  destruct (py_setitem tl "cues" (VDict cue_data)); [reflexivity|].
  apply f_timelines.
Qed.

Lemma keeps_part_get_cues (h : pyval) :
  keeps f (get_cues net bytes_decode json_loads h).
Proof.
  unfold get_cues.
  apply keeps_part_bind; [apply keeps_part_send_json|]. intros cue_info.
  apply keeps_part_bind; [apply keeps_part_lift|]. intros info_json.
  apply keeps_part_bind; [apply keeps_part_lift|]. intros cue_data.
  apply keeps_part_store_cues.
Qed.

Lemma keeps_part_cues_for_all (handles : list pyval) :
  keeps f (cues_for_all net bytes_decode json_loads handles).
Proof.
  induction handles as [|h rest IH]; cbn [cues_for_all].
  - apply keeps_part_ret.
  - apply keeps_part_bind; [apply keeps_part_get_cues|]. intros _. exact IH.
Qed.

Lemma keeps_part_fetch_cycle :
  keeps f (fetch_cycle net bytes_decode json_loads).
Proof.
  unfold fetch_cycle.
  apply keeps_part_bind; [apply keeps_part_get_timelines|]. intros _.
  apply keeps_part_bind; [apply keeps_part_gets|]. intros handles.
  apply keeps_part_cues_for_all.
Qed.

End Fetchers.

End Keeps.

(** ** The polling loop *)

Section PollingLoop.

Context (net : pyval -> net_outcome)
        (bytes_decode : string -> option string)
        (json_loads : string -> option pyval).

Local Abbreviation enable_polling' := (enable_polling net bytes_decode json_loads).
Local Abbreviation polling_iteration' :=
  (polling_iteration net bytes_decode json_loads).
Local Abbreviation run_event' := (run_event net bytes_decode json_loads).
Local Abbreviation run' := (run net bytes_decode json_loads).
Local Abbreviation reachable' := (reachable net bytes_decode json_loads).

Lemma idle_step (e : event) (w : World) :
  timers_ok w -> enabled (polling w) = false -> idle e ->
  fetched (run_event' e w) = fetched w.
Proof.
  intros Hok He Hi. destruct e as [| | |dt| | |c|c]; try contradiction.
  - cbn [run_event]. now rewrite (disable_polling_already w He).
  - cbn [run_event]. now rewrite (elapse_disabled dt w Hok He).
  - cbn [run_event]. unfold polling_iteration. rewrite He.
    now destruct (polling_task w) as [[| |]|].
  - cbn [run_event]. now apply keeps_part_ws_connect.
  - reflexivity.
Qed.

(** X16.  Take a state between two events in which polling is disabled, and
    a run of turns of the polling loop, of time passing, of viewers that
    connect or leave and of calls of [disable_polling], each running to its
    end before the next one starts.  Over that run no request is sent to the
    engine, and the timelines, the status and the polling state stay as
    they are. *)
Theorem disabled_backend_sends_no_request (evs : list event) :
  forall w,
    reachable' w ->
    enabled (polling w) = false ->
    Forall idle evs ->
    request_id (run' evs w) = request_id w
    /\ timelines (run' evs w) = timelines w
    /\ status (run' evs w) = status w
    /\ polling (run' evs w) = polling w.
Proof.
  induction evs as [|e evs IH]; intros w Hr He Hi.
  - repeat split.
  - inversion Hi as [|? ? Hie Hievs]; subst.
    pose proof (reachable_timers_ok net bytes_decode json_loads w Hr) as Hok.
    pose proof (idle_step e w Hok He Hie) as Hstep.
    unfold fetched in Hstep. injection Hstep as Ht Hs Hid Hp.
    cbn [run fold_left].
    destruct (IH (run_event' e w)) as (H1 & H2 & H3 & H4).
    + now apply reachable_step.
    + now rewrite Hp.
    + exact Hievs.
    + unfold run in *. rewrite H1, H2, H3, H4. now repeat split.
Qed.

Lemma polling_task_enable_locked (w : World) :
  polling_task w = Some Finished ->
  polling_task (enable_locked w) = Some Pending.
Proof.
  intros H. unfold enable_locked, create_auto_disable, cancel_auto_disable.
  cbn [polling_task set_polling set_auto_disable_task set_tasks].
  rewrite H. cbn [done start_polling_task].
  match goal with
  | |- context [match ?x with Some _ => _ | None => _ end] => destruct x
  end; [|reflexivity].
  match goal with
  | |- context [if ?x then _ else _] => destruct x
  end; reflexivity.
Qed.

Lemma polling_task_disable (w : World) :
  polling_task (snd (disable_polling w)) = polling_task w.
Proof.
  unfold disable_polling.
  destruct (negb (enabled (polling w))); [reflexivity|]. cbn [snd].
  rewrite keeps_part_broadcast_polling_state; try reflexivity.
  unfold disable_locked. cbn [auto_disable_task set_polling].
  destruct (auto_disable_task w); [|reflexivity].
  match goal with
  | |- context [if ?x then _ else _] => destruct x
  end; reflexivity.
Qed.

Lemma polling_task_enable (w : World) :
  enabled (polling w) = false ->
  polling_task (snd (enable_polling' w)) = polling_task (enable_locked w).
Proof.
  intros He. unfold enable_polling. rewrite He.
  apply (keeps_part_bind polling_task).
  { apply keeps_part_get_project_name; reflexivity. }
  intros _. apply keeps_part_bind.
  { apply keeps_part_fetch_cycle; reflexivity. }
  intros _. apply keeps_part_bind.
  { apply keeps_part_modify. intros w0.
    apply keeps_part_broadcast_polling_state; reflexivity. }
  intros _. apply keeps_part_bind.
  { apply keeps_part_broadcast_update; reflexivity. }
  intros _. apply keeps_part_bind; [apply keeps_part_gets|].
  intros p. apply keeps_part_ret.
Qed.

(** X17.  An exception in a turn of the polling loop ends the loop and
    leaves polling enabled: the loop does not run again, [enable_polling]
    answers [already_enabled] without starting it, and so the state stays
    as it is however often the two are tried.  [disable_polling] followed by
    [enable_polling] starts the loop again. *)
Theorem crashed_polling_loop_stays_down (w w' : World) (e : exn) :
  polling_task w = Some Pending ->
  polling_iteration' w = (inl e, w') ->
  polling_task (run_event' EvPoll w) = Some Finished
  /\ enabled (polling (run_event' EvPoll w)) = true
  /\ (forall evs,
         Forall (fun ev => ev = EvPoll \/ ev = EvEnable) evs ->
         run' evs (run_event' EvPoll w) = run_event' EvPoll w)
  /\ polling_task
       (snd (enable_polling' (snd (disable_polling (run_event' EvPoll w)))))
     = Some Pending.
Proof.
  intros Hp Hi.
  assert (He : enabled (polling w) = true).
  { destruct (enabled (polling w)) eqn:E; [reflexivity|].
    unfold polling_iteration in Hi. rewrite E in Hi. discriminate. }
  assert (Hpoll : polling w' = polling w).
  { pose proof (keeps_polling_iteration net bytes_decode json_loads w) as H.
    rewrite Hi in H. cbn [snd] in H.
    now destruct (timer_state_fields _ _ H) as (-> & _). }
  assert (Hrun : run_event' EvPoll w = set_polling_task (Some Finished) w').
  { cbn [run_event]. now rewrite Hp, Hi. }
  rewrite Hrun.
  set (w1 := set_polling_task (Some Finished) w').
  assert (He1 : enabled (polling w1) = true).
  { unfold w1. cbn [polling set_polling_task]. now rewrite Hpoll. }
  split; [reflexivity|]. split; [exact He1|]. split.
  - induction 1 as [|ev evs [->| ->] _ IH]; [reflexivity| |].
    + exact IH.
    + cbn [run fold_left run_event].
      rewrite (enable_polling_already net bytes_decode json_loads w1 He1).
      exact IH.
  - rewrite polling_task_enable.
    + apply polling_task_enable_locked. now rewrite polling_task_disable.
    + rewrite (disable_polling_world w1 He1). cbn [snd].
      rewrite keeps_part_broadcast_polling_state; try reflexivity.
      now rewrite disable_locked_polling.
Qed.

(** X18.  A turn of the polling loop asks for the project name only when
    ten seconds have passed since it last did (or since the loop started).
    In a turn before that the status is not written and the time of the
    last fetch stays; in a turn after that in which [get_project_name]
    returns, the time of the last fetch is the current time. *)
Theorem project_name_every_ten_seconds (w : World) :
  enabled (polling w) = true ->
  (clock w - last_project_timeline_fetch w < 10 ->
   status (snd (polling_iteration' w)) = status w
   /\ last_project_timeline_fetch (snd (polling_iteration' w))
      = last_project_timeline_fetch w)
  /\ (10 <= clock w - last_project_timeline_fetch w ->
      fst (get_project_name net bytes_decode json_loads w) = inr tt ->
      last_project_timeline_fetch (snd (polling_iteration' w)) = clock w).
Proof.
  intros He. unfold polling_iteration. rewrite He. split.
  - intros Hlt. apply Z.leb_gt in Hlt. rewrite Hlt. split.
    + apply (keeps_part_bind status); [apply keeps_part_ret|]. intros _.
      apply keeps_part_bind.
      * apply keeps_part_fetch_cycle; reflexivity.
      * intros _. apply keeps_part_broadcast_update; reflexivity.
    + apply (keeps_part_bind last_project_timeline_fetch);
        [apply keeps_part_ret|]. intros _.
      apply keeps_part_bind.
      * apply keeps_part_fetch_cycle; reflexivity.
      * intros _. apply keeps_part_broadcast_update; reflexivity.
  - intros Hge Hn. apply Z.leb_le in Hge. rewrite Hge.
    unfold bind at 1. unfold bind at 1.
    pose proof (keeps_part_get_project_name
                  clock net bytes_decode json_loads
                  (fun _ _ => eq_refl) (fun _ _ => eq_refl) w) as Hc.
    destruct (get_project_name net bytes_decode json_loads w) as [[e0|[]] w1];
      [discriminate|].
    cbn [snd] in Hc. unfold modify at 1.
    transitivity (last_project_timeline_fetch
                    (set_last_project_timeline_fetch (clock w) w1));
      [|reflexivity].
    apply (keeps_part_bind last_project_timeline_fetch).
    + apply keeps_part_fetch_cycle; reflexivity.
    + intros _. apply keeps_part_broadcast_update; reflexivity.
Qed.

End PollingLoop.

Lemma disabled_backend_sends_no_request_witness :
  request_id (run example_net example_decode example_loads
                  [EvElapse 30; EvPoll; EvConnect 8; EvDisable] one_viewer)
  = request_id one_viewer
  /\ timelines (run example_net example_decode example_loads
                    [EvElapse 30; EvPoll; EvConnect 8; EvDisable] one_viewer)
     = timelines one_viewer
  /\ status (run example_net example_decode example_loads
                 [EvElapse 30; EvPoll; EvConnect 8; EvDisable] one_viewer)
     = status one_viewer
  /\ polling (run example_net example_decode example_loads
                  [EvElapse 30; EvPoll; EvConnect 8; EvDisable] one_viewer)
     = polling one_viewer.
Proof.
  apply (disabled_backend_sends_no_request
           example_net example_decode example_loads
           [EvElapse 30; EvPoll; EvConnect 8; EvDisable] one_viewer).
  - exact one_viewer_reachable.
  - reflexivity.
  - repeat constructor.
Defined.

Lemma crashed_polling_loop_stays_down_witness :
  polling_task null_enabled = Some Pending
  /\ polling_task (run_event null_net example_decode null_loads EvPoll
                             null_enabled)
     = Some Finished
  /\ enabled (polling (run_event null_net example_decode null_loads EvPoll
                                 null_enabled))
     = true.
Proof.
  destruct (polling_iteration null_net example_decode null_loads null_enabled)
    as [[e|u] w'] eqn:E.
  - destruct (crashed_polling_loop_stays_down
                null_net example_decode null_loads null_enabled w' e eq_refl E)
      as (H1 & H2 & _).
    split; [reflexivity|]. split; assumption.
  - vm_compute in E. discriminate.
Defined.

Lemma project_name_every_ten_seconds_witness :
  clock (snd (enable_polling example_net example_decode example_loads
                             one_viewer))
  - last_project_timeline_fetch
      (snd (enable_polling example_net example_decode example_loads one_viewer))
  < 10
  /\ status (snd (polling_iteration
                    example_net example_decode example_loads
                    (snd (enable_polling example_net example_decode
                                         example_loads one_viewer))))
     = status (snd (enable_polling example_net example_decode example_loads
                                   one_viewer)).
Proof.
  assert (Hlt : clock (snd (enable_polling example_net example_decode
                                           example_loads one_viewer))
                - last_project_timeline_fetch
                    (snd (enable_polling example_net example_decode
                                         example_loads one_viewer))
                < 10) by (vm_compute; reflexivity).
  split; [exact Hlt|].
  exact (proj1 (proj1 (project_name_every_ten_seconds
                         example_net example_decode example_loads _
                         (enable_polling_enabled
                            example_net example_decode example_loads one_viewer))
                      Hlt)).
Defined.

(** ** The snapshot after a fetch cycle *)

Lemma fresh_timeline_cues_ok (tl : pyval) : fresh_timeline tl -> cues_ok tl = true.
Proof. intros [info ->]. reflexivity. Qed.

Lemma wf_timeline_parts (tl : pyval) :
  info_ok tl = true -> cues_ok tl = true -> wf_timeline tl = true.
Proof.
  intros Hi Hc. unfold wf_timeline. destruct tl as [| | | | |[|item d]]; try reflexivity.
  unfold info_ok in Hi. rewrite Hi. exact Hc.
Qed.

Lemma payload_timelines_infos (timelines : dict) :
  Forall (fun tl => cues_ok tl = true) (map snd timelines) ->
  forall countdowns,
    payload_timelines timelines countdowns
    = if infos_ok timelines
      then inr (countdowns ++ expected_countdowns timelines)%list
      else inl AttributeError.
Proof.
  induction timelines as [|[tl_handle tl] timelines IH]; intros Hc acc.
  - cbn. now rewrite app_nil_r.
  - cbn [map snd] in Hc. inversion Hc as [|? ? Hhead Hrest]; subst.
    cbn [infos_ok forallb snd]. fold (infos_ok timelines).
    destruct (info_ok tl) eqn:Hi; cbn [andb].
    + change ((tl_handle, tl) :: timelines)
        with ([(tl_handle, tl)] ++ timelines)%list.
      rewrite payload_timelines_app.
      rewrite (payload_timelines_wf [(tl_handle, tl)]).
      2: { unfold wf_timelines. cbn [forallb snd].
           now rewrite (wf_timeline_parts tl Hi Hhead). }
      cbn [rbind]. rewrite (IH Hrest).
      destruct (infos_ok timelines); [|reflexivity].
      cbn [expected_countdowns flat_map app fst snd].
      now rewrite app_nil_r, app_assoc.
    + unfold info_ok, mapping_or_empty in Hi.
      destruct tl as [| | | | |d]; try discriminate.
      cbn [field] in Hi.
      destruct (dict_get d (VStr "info")) as [info|] eqn:Ei; [|discriminate].
      cbn [or_none] in Hi. apply orb_false_iff in Hi as [Ht Hd].
      apply negb_false_iff in Ht.
      cbn [payload_timelines].
      assert (Hne : truthy (VDict d) = true).
      { destruct d; [discriminate|reflexivity]. }
      rewrite Hne. cbn [negb].
      rewrite (dict_get_default_some d "info" _ _ Ei).
      unfold py_or. rewrite Ht.
      destruct info; try discriminate; reflexivity.
Qed.

Section FetchedSnapshot.

Context (net : pyval -> net_outcome)
        (bytes_decode : string -> option string)
        (json_loads : string -> option pyval).

Local Abbreviation get_cues' := (get_cues net bytes_decode json_loads).
Local Abbreviation cues_for_all' := (cues_for_all net bytes_decode json_loads).
Local Abbreviation fetch_cycle' := (fetch_cycle net bytes_decode json_loads).

Lemma get_cues_cues_ok (h : pyval) (w : World) :
  Forall (fun tl => cues_ok tl = true) (map snd (timelines w)) ->
  Forall (fun tl => cues_ok tl = true) (map snd (timelines (snd (get_cues' h w)))).
Proof.
  intros Hw.
  destruct (get_cues_world net bytes_decode json_loads h w) as (tls & -> & Ht).
  cbn [timelines set_timelines].
  destruct Ht as [->|(_ & d & cue_data & Hd & -> & info_json & Hl)];
    [exact Hw|].
  apply dict_set_values; [exact Hw|].
  unfold cues_ok. cbn [field]. rewrite dict_get_set_str_same.
  now apply (cues_loop_wf info_json [] cue_data).
Qed.

Lemma cues_for_all_cues_ok (handles : list pyval) :
  forall w,
    Forall (fun tl => cues_ok tl = true) (map snd (timelines w)) ->
    Forall (fun tl => cues_ok tl = true)
           (map snd (timelines (snd (cues_for_all' handles w)))).
Proof.
  induction handles as [|h rest IH]; intros w Hw; [exact Hw|].
  cbn [cues_for_all]. unfold bind.
  pose proof (get_cues_cues_ok h w Hw) as Hstep.
  destruct (get_cues' h w) as [[e|[]] w1]; cbn [snd] in *.
  - exact Hstep.
  - now apply IH.
Qed.

Lemma fetch_cycle_cues_ok (w w' : World) :
  fetch_cycle' w = (inr tt, w') ->
  Forall (fun tl => cues_ok tl = true) (map snd (timelines w')).
Proof.
  unfold fetch_cycle. unfold bind at 1.
  destruct (get_timelines net bytes_decode json_loads w) as [[e|[]] w1] eqn:Et;
    [discriminate|].
  unfold bind at 1, gets. intros H.
  pose proof (get_timelines_fresh _ _ _ _ _ Et) as Hfresh.
  assert (H1 : Forall (fun tl => cues_ok tl = true) (map snd (timelines w1))).
  { eapply Forall_impl; [|exact Hfresh]. apply fresh_timeline_cues_ok. }
  pose proof (cues_for_all_cues_ok (dict_keys (timelines w1)) w1 H1) as H2.
  rewrite H in H2. exact H2.
Qed.

(** X19.  What a fetch cycle that returns has stored can be broadcast:
    every cue it stored has the integer [_original_countdown_ms] and the
    Countdown mapping the payload reads, so the payload is built and lists
    the cues that are not negative.  The one exception is a timeline whose
    [info], as the engine sent it, is neither a mapping nor a value that
    counts as false: then the payload raises [AttributeError]. *)
Theorem fetched_snapshot_can_be_broadcast (w w' : World) :
  fetch_cycle' w = (inr tt, w') ->
  snapshot_payload w'
  = if infos_ok (timelines w')
    then inr (VDict [ (VStr "projectName",
                       dict_get_default (status w') "projectName"
                                        (VStr "Unknown"));
                      (VStr "countdowns",
                       VList (expected_countdowns (timelines w')));
                      (VStr "polling", polling_to_py (polling w')) ])
    else inl AttributeError.
Proof.
  intros H. apply fetch_cycle_cues_ok in H.
  unfold snapshot_payload, buildCountdownPayload. cbv zeta.
  rewrite (payload_timelines_infos _ H).
  destruct (infos_ok (timelines w')); reflexivity.
Qed.

End FetchedSnapshot.

Lemma fetched_snapshot_can_be_broadcast_witness :
  exists w',
    fetch_cycle example_net example_decode example_loads example_world
    = (inr tt, w')
    /\ snapshot_payload w'
       = inr (VDict [ (VStr "projectName", VStr "Unknown");
                      (VStr "countdowns", VList []);
                      (VStr "polling", polling_to_py polling_disabled) ]).
Proof.
  destruct (fetch_cycle example_net example_decode example_loads example_world)
    as [[e|[]] w'] eqn:E; [vm_compute in E; discriminate|].
  exists w'. split; [reflexivity|].
  rewrite (fetched_snapshot_can_be_broadcast
             example_net example_decode example_loads example_world w' E).
  vm_compute in E. injection E as <-. reflexivity.
Defined.

(** ** Start-up *)

Section Startup.

Context (net : pyval -> net_outcome)
        (bytes_decode : string -> option string)
        (json_loads : string -> option pyval).

Local Abbreviation lifespan' := (lifespan net bytes_decode json_loads).
Local Abbreviation run_event' := (run_event net bytes_decode json_loads).

Lemma lifespan_before_broadcast {B : Type} (f : World -> B) :
  (forall x w, f (set_request_id x w) = f w) ->
  (forall x w, f (set_status x w) = f w) ->
  (forall x w, f (set_timelines x w) = f w) ->
  (forall w, f (start_polling_task w) = f w) ->
  keeps f (_ <- get_project_name net bytes_decode json_loads ;;
           _ <- fetch_cycle net bytes_decode json_loads ;;
           modify start_polling_task)%M.
Proof.
  intros H1 H2 H3 H4.
  apply keeps_part_bind; [now apply keeps_part_get_project_name|]. intros _.
  apply keeps_part_bind; [now apply keeps_part_fetch_cycle|]. intros _.
  now apply keeps_part_modify.
Qed.

Lemma lifespan_split (w : World) :
  lifespan' w
  = bind (_ <- get_project_name net bytes_decode json_loads ;;
          _ <- fetch_cycle net bytes_decode json_loads ;;
          modify start_polling_task)%M
         (fun _ => broadcast_update) w.
Proof.
  unfold lifespan, bind.
  destruct (get_project_name net bytes_decode json_loads w) as [[e|[]] w1];
    [reflexivity|].
  destruct (fetch_cycle net bytes_decode json_loads w1) as [[e|[]] w2];
    reflexivity.
Qed.

(** X20.  Start-up fetches the data once and leaves polling off: from the
    state of a freshly loaded module, whatever the engine answers, the
    polling state is the disabled one, no auto-disable timer exists and
    nothing has been sent to a viewer; if start-up returns, the polling
    loop has been started, and its ten seconds to the first request for
    the project name count from then. *)
Theorem startup_leaves_polling_off (t0 : Z) :
  polling (run_event' EvStartup (initial_world t0)) = polling_disabled
  /\ tasks (run_event' EvStartup (initial_world t0)) = []
  /\ auto_disable_task (run_event' EvStartup (initial_world t0)) = None
  /\ sent (run_event' EvStartup (initial_world t0)) = []
  /\ (fst (lifespan' (initial_world t0)) = inr tt ->
      polling_task (run_event' EvStartup (initial_world t0)) = Some Pending
      /\ last_project_timeline_fetch (run_event' EvStartup (initial_world t0))
         = t0).
Proof.
  cbn [run_event].
  pose proof (keeps_lifespan net bytes_decode json_loads (initial_world t0))
    as Ht.
  destruct (timer_state_fields _ _ Ht) as (Hp & Ha & Hts & _).
  split; [exact Hp|]. split; [exact Hts|]. split; [exact Ha|].
  rewrite lifespan_split.
  pose proof (lifespan_before_broadcast
                (fun w => (connected_clients w, sent w))
                (fun _ _ => eq_refl) (fun _ _ => eq_refl) (fun _ _ => eq_refl)
                (fun _ => eq_refl) (initial_world t0)) as Hv.
  set (m := (_ <- get_project_name net bytes_decode json_loads ;;
             _ <- fetch_cycle net bytes_decode json_loads ;;
             modify start_polling_task)%M) in *.
  unfold bind.
  destruct (m (initial_world t0)) as [[e|[]] w1] eqn:E;
    cbn [snd fst] in *; cbv beta in Hv;
    cbn [connected_clients sent initial_world] in Hv.
  - injection Hv as _ Hs. split; [exact Hs|]. discriminate.
  - injection Hv as Hcl Hs.
    unfold broadcast_update. rewrite Hcl. cbn [snd fst].
    split; [exact Hs|]. intros _.
    revert E. unfold m, bind.
    destruct (get_project_name net bytes_decode json_loads (initial_world t0))
      as [[e|[]] w2] eqn:E2; [discriminate|].
    pose proof (keeps_part_get_project_name
                  clock net bytes_decode json_loads
                  (fun _ _ => eq_refl) (fun _ _ => eq_refl) (initial_world t0))
      as Hc2.
    rewrite E2 in Hc2. cbn [snd] in Hc2.
    destruct (fetch_cycle net bytes_decode json_loads w2) as [[e|[]] w3] eqn:E3;
      [discriminate|].
    pose proof (keeps_part_fetch_cycle
                  clock net bytes_decode json_loads
                  (fun _ _ => eq_refl) (fun _ _ => eq_refl) w2) as Hc3.
    rewrite E3 in Hc3. cbn [snd] in Hc3.
    unfold modify. intros [= <-].
    split; [reflexivity|].
    cbn [last_project_timeline_fetch start_polling_task
         set_last_project_timeline_fetch].
    rewrite Hc3, Hc2. reflexivity.
Qed.

End Startup.

Lemma startup_leaves_polling_off_witness :
  fst (lifespan example_net example_decode example_loads (initial_world 0))
  = inr tt
  /\ polling_task (run_event example_net example_decode example_loads EvStartup
                             (initial_world 0))
     = Some Pending.
Proof.
  assert (H : fst (lifespan example_net example_decode example_loads
                            (initial_world 0)) = inr tt)
    by (vm_compute; reflexivity).
  split; [exact H|].
  destruct (startup_leaves_polling_off
              example_net example_decode example_loads 0)
    as (_ & _ & _ & _ & Hok).
  exact (proj1 (Hok H)).
Defined.

(** ** The two loops of a broadcast *)

Lemma set_sent_same (w : World) : set_sent (sent w) w = w.
Proof. now destruct w. Qed.

Lemma set_connected_clients_same (w : World) :
  set_connected_clients (connected_clients w) w = w.
Proof. now destruct w. Qed.

Lemma send_loop_result (text : pyval) (clients : list nat) :
  forall to_remove w,
    send_loop text clients to_remove w
    = ((to_remove ++ filter (is_closed w) clients)%list,
       set_sent (sent w
                   ++ map (fun c => (c, text))
                          (filter (fun c => negb (is_closed w c)) clients))%list
                w).
Proof.
  induction clients as [|ws rest IH]; intros to_remove w.
  - cbn. now rewrite !app_nil_r, set_sent_same.
  - cbn [send_loop filter].
    destruct (is_closed w ws) eqn:E; cbn [negb].
    + rewrite IH, <- app_assoc. reflexivity.
    + rewrite IH. cbn [sent set_sent map].
      rewrite <- app_assoc. reflexivity.
Qed.

Lemma discard_loop_result (to_remove : list nat) :
  forall w,
    discard_loop to_remove w
    = set_connected_clients
        (filter (fun c => negb (existsb (Nat.eqb c) to_remove))
                (connected_clients w)) w.
Proof.
  induction to_remove as [|ws rest IH]; intros w.
  - cbn [discard_loop existsb negb].
    rewrite <- (set_connected_clients_same w) at 1. f_equal.
    induction (connected_clients w) as [|c l IHl]; [reflexivity|].
    cbn [filter]. now rewrite <- IHl.
  - cbn [discard_loop]. rewrite IH. unfold discard.
    cbn [connected_clients set_connected_clients].
    change (set_connected_clients ?x (set_connected_clients ?y w))
      with (set_connected_clients x w).
    f_equal.
    induction (connected_clients w) as [|c l IHl]; [reflexivity|].
    cbn [filter existsb].
    destruct (Nat.eqb c ws); cbn [negb orb].
    + exact IHl.
    + cbn [filter]. destruct (existsb (Nat.eqb c) rest); cbn [negb];
        now rewrite IHl.
Qed.

Lemma filter_not_in_filter (p : nat -> bool) (l : list nat) :
  filter (fun c => negb (existsb (Nat.eqb c) (filter p l))) l
  = filter (fun c => negb (p c)) l.
Proof.
  apply filter_ext_in. intros c Hc. f_equal.
  destruct (p c) eqn:E.
  - apply existsb_exists. exists c. split.
    + apply filter_In. now split.
    + apply Nat.eqb_refl.
  - destruct (existsb (Nat.eqb c) (filter p l)) eqn:Ex; [|reflexivity].
    apply existsb_exists in Ex. destruct Ex as (c' & Hin & Heq).
    apply Nat.eqb_eq in Heq. subst c'.
    apply filter_In in Hin. destruct Hin as [_ Hp]. congruence.
Qed.

(** X21.  The two loops at the end of a broadcast amount to this: every
    viewer whose socket is open is sent the text once, in the order of the
    set, exactly the viewers whose [send_text] raises are removed from the
    set, and nothing else changes. *)
Theorem broadcast_loops_deliver (text : pyval) (w : World) :
  broadcast_loops text w = deliver text w
  /\ connected_clients (broadcast_loops text w) = live_clients w
  /\ sent (broadcast_loops text w)
     = (sent w ++ map (fun c => (c, text)) (live_clients w))%list
  /\ closed (broadcast_loops text w) = closed w.
Proof.
  assert (H : broadcast_loops text w = deliver text w).
  { unfold broadcast_loops. rewrite send_loop_result, discard_loop_result.
    cbn [app connected_clients set_sent]. unfold deliver. cbv zeta.
    now rewrite filter_not_in_filter. }
  rewrite H. repeat split.
Qed.


(** ** The fallback, as [get_cues] stores it *)

Lemma cues_loop_each (records : list pyval) :
  forall cue_data cue_data',
    cues_loop records cue_data = inr cue_data' ->
    forall cue, In cue records -> exists k v, cue_entry cue = inr (k, v).
Proof.
  induction records as [|r rest IH]; intros acc acc' H cue Hin; [now elim Hin|].
  cbn [cues_loop] in H.
  destruct (cue_entry r) as [e|[k v]] eqn:E; [discriminate|].
  cbn [rbind fst snd] in H.
  destruct Hin as [<-|Hin]; [now exists k, v|].
  now apply (IH _ _ H).
Qed.

Lemma last_with_name_app (k : pyval) (a b : list pyval) :
  last_with_name k (a ++ b)
  = match last_with_name k b with
    | Some v => Some v
    | None => last_with_name k a
    end.
Proof.
  induction a as [|cue a IH]; cbn [app last_with_name].
  - now destruct (last_with_name k b).
  - rewrite IH. now destruct (last_with_name k b).
Qed.

Lemma last_with_name_none (items : dict) (later : list pyval) :
  last_of_its_name items later ->
  last_with_name (cue_name items) later = None.
Proof.
  induction later as [|cue later IH]; intros H; [reflexivity|].
  cbn [last_with_name]. rewrite IH.
  2: { intros items' Hin. apply H. now right. }
  destruct (cue_entry cue) as [e|[k v]] eqn:E; [reflexivity|].
  destruct (cue_entry_inv _ _ _ E) as (items' & cp & tpo & -> & _ & _ & _ & -> & _).
  rewrite (H items'); [reflexivity|now left].
Qed.

Section StoredFallback.

Context (net : pyval -> net_outcome)
        (bytes_decode : string -> option string)
        (json_loads : string -> option pyval).

Local Abbreviation get_cues' := (get_cues net bytes_decode json_loads).
Local Abbreviation fetches_cue' := (fetches_cue net bytes_decode json_loads).
Local Abbreviation fetched_records' :=
  (fetched_records net bytes_decode json_loads).

Lemma send_json_reply (method : string) (params : pyval) (w : World) :
  fst (send_json net bytes_decode json_loads method params w)
  = inr (try_default
           (exchange net bytes_decode json_loads
                     (make_request (request_id w) method params))
           (VDict [])).
Proof.
  unfold send_json. cbn [fst].
  now destruct (exchange net bytes_decode json_loads _).
Qed.

(** What [get_cues] holds for a record it stores. *)
Lemma fetched_cue_stored (h : pyval) (w w' : World) (items : dict)
    (cp : Countdown) (tpo : option Countdown) :
  fetches_cue' h w w' items ->
  parse_countdown_string (dict_get_default items "countdown" VNone) = inr cp ->
  parse_if_present (dict_get_default items "time" VNone) = inr tpo ->
  exists cues,
    cues_of w' h = Some (VDict cues)
    /\ dict_get cues (cue_name items) = Some (VDict (stored_cue items cp tpo))
    /\ fallback (VDict items) (dict_get_default items "countdown" VNone) cp tpo
       = inr (fallback_value (dict_get_default items "countdown" VNone) cp tpo).
Proof.
  intros (Hrun & Hknown & earlier & later & Hrec & Hlast) Hc Ht.
  destruct (get_cues_stores net bytes_decode json_loads h w w' Hrun Hknown)
    as (cue_info & info_json & cue_data & Hs & Hr & Hl & Hcues & _).
  rewrite send_json_reply in Hs. injection Hs as <-.
  unfold fetched_records, cue_reply in Hrec. rewrite Hrec in Hr.
  injection Hr as <-.
  exists cue_data. split; [exact Hcues|].
  destruct (cues_loop_each _ _ _ Hl (VDict items)) as (k & v & He).
  { apply in_or_app. right. now left. }
  destruct (cue_entry_inv _ _ _ He)
    as (items' & cp' & tpo' & [= <-] & Hc' & Ht' & Hh & -> & ->).
  rewrite Hc in Hc'. injection Hc' as <-.
  rewrite Ht in Ht'. injection Ht' as <-.
  split; [|exact (cue_entry_fallback _ _ _ _ _ He Hc Ht)].
  rewrite (cues_loop_last _ _ _ (cue_name items) Hl).
  rewrite last_with_name_app. cbn [last_with_name].
  rewrite (last_with_name_none _ _ Hlast), He.
  now rewrite (key_eqb_refl _ Hh).
Qed.




(** C10.  Of the records of a cue reply, take one that [get_cues] stores
    and whose parsed countdown is negative.  The Countdown of the cue found
    under its name after the fetch keeps the cue's own countdown string in
    [raw], which is a non-empty string: it is neither the time string nor
    the empty [raw] of the zero Countdown.  This holds when the numeric
    fields are taken from the parsed time and when they are set to zero. *)
Theorem cue_fallback_keeps_raw (h : pyval) (w w' : World) (items : dict)
    (cp : Countdown) (tpo : option Countdown) :
  fetches_cue' h w w' items ->
  parse_countdown_string (dict_get_default items "countdown" VNone) = inr cp ->
  parse_if_present (dict_get_default items "time" VNone) = inr tpo ->
  totalMs cp < 0 ->
  exists s cues stored cd,
    dict_get_default items "countdown" VNone = VStr s
    /\ s <> ""
    /\ cues_of w' h = Some (VDict cues)
    /\ dict_get cues (cue_name items) = Some (VDict stored)
    /\ dict_get stored (VStr "countdown") = Some (VDict cd)
    /\ dict_get cd (VStr "raw") = Some (VStr s)
    /\ (forall tp, tpo = Some tp -> 0 <= totalMs tp -> numbers_of cd tp)
    /\ (tpo = None \/ (exists tp, tpo = Some tp /\ totalMs tp < 0) ->
        numbers_of cd zero_countdown).
Proof.
  intros Hf Hc Ht Hneg.
  destruct (fetched_cue_stored h w w' items cp tpo Hf Hc Ht)
    as (cues & Hcues & Hget & _).
  destruct (parse_nonzero_total _ _ Hc) as (s & Hs & Hraw & Hne); [lia|].
  exists s, cues, (stored_cue items cp tpo).
  exists (countdown_to_dict
            (fallback_value (dict_get_default items "countdown" VNone) cp tpo)).
  split; [exact Hs|]. split; [exact Hne|].
  split; [exact Hcues|]. split; [exact Hget|].
  split; [apply stored_cue_countdown|].
  assert (Hcases : (exists tp, tpo = Some tp /\ 0 <= totalMs tp)
                   \/ (tpo = None \/ exists tp, tpo = Some tp /\ totalMs tp < 0)).
  { destruct tpo as [tp|]; [|now right; left].
    destruct (Z_lt_ge_dec (totalMs tp) 0).
    - right. right. now exists tp.
    - left. exists tp. split; [reflexivity|lia]. }
  split; [|split].
  - destruct Hcases as [(tp & -> & Hpos)|Hno].
    + rewrite fallback_substituted by assumption. cbn. now rewrite Hs.
    + rewrite fallback_clamped by assumption. cbn. now rewrite Hraw.
  - intros tp -> Hpos. rewrite fallback_substituted by assumption.
    repeat split.
  - intros Hno. rewrite fallback_clamped by assumption. repeat split.
Qed.

End StoredFallback.

(** The engine with cues serves the two example records for timeline 1, and
    [get_cues] stores both. *)
Lemma stage_fetches_cues :
  exists w',
    fetches_cue stage_net example_decode stage_loads (VInt 1) example_world w'
                example_cue
    /\ fetches_cue stage_net example_decode stage_loads (VInt 1) example_world
                   w' example_cue_no_time.
Proof.
  destruct (get_cues stage_net example_decode stage_loads (VInt 1)
                     example_world) as [[e|[]] w'] eqn:E;
    [vm_compute in E; discriminate|].
  exists w'. split.
  - split; [exact E|]. split; [discriminate|].
    exists [], [VDict example_cue_no_time].
    split; [vm_compute; reflexivity|].
    intros items' [H|[]]. injection H as <-. reflexivity.
  - split; [exact E|]. split; [discriminate|].
    exists [VDict example_cue], [].
    split; [vm_compute; reflexivity|].
    intros items' [].
Qed.


Lemma cue_fallback_keeps_raw_witness :
  exists w',
    get_cues stage_net example_decode stage_loads (VInt 1) example_world
    = (inr tt, w')
    /\ (exists cues stored cd,
           cues_of w' (VInt 1) = Some (VDict cues)
           /\ dict_get cues (VStr "Intro") = Some (VDict stored)
           /\ dict_get stored (VStr "countdown") = Some (VDict cd)
           /\ dict_get cd (VStr "raw") = Some (VStr "-00:00:05:00")
           /\ dict_get cd (VStr "totalMs") = Some (VInt 60500))
    /\ (exists cues stored cd,
           cues_of w' (VInt 1) = Some (VDict cues)
           /\ dict_get cues (VInt 7) = Some (VDict stored)
           /\ dict_get stored (VStr "countdown") = Some (VDict cd)
           /\ dict_get cd (VStr "raw") = Some (VStr "-00:00:05:00")
           /\ dict_get cd (VStr "totalMs") = Some (VInt 0)).
Proof.
  destruct stage_fetches_cues as (w' & Hf1 & Hf2).
  assert (Hneg : -5000 < 0) by lia.
  exists w'. split; [exact (proj1 Hf1)|]. split.
  - destruct (cue_fallback_keeps_raw stage_net example_decode stage_loads
                (VInt 1) example_world w' example_cue
                {| raw := VStr "-00:00:05:00"; hours := 0; minutes := 0;
                   seconds := 5; frames := 0; totalMs := -5000 |}
                (Some {| raw := VStr "00:01:00:30"; hours := 0; minutes := 1;
                         seconds := 0; frames := 30; totalMs := 60500 |})
                Hf1 eq_refl eq_refl Hneg)
      as (s & cues & stored & cd & Hs & _ & Hcues & Hget & Hcd & Hraw & Hsub & _).
    exists cues, stored, cd.
    split; [exact Hcues|]. split; [exact Hget|]. split; [exact Hcd|].
    injection Hs as <-. split; [exact Hraw|].
    assert (Hpos : 0 <= 60500) by lia.
    exact (proj2 (proj2 (proj2 (proj2 (Hsub _ eq_refl Hpos))))).
  - destruct (cue_fallback_keeps_raw stage_net example_decode stage_loads
                (VInt 1) example_world w' example_cue_no_time
                {| raw := VStr "-00:00:05:00"; hours := 0; minutes := 0;
                   seconds := 5; frames := 0; totalMs := -5000 |}
                None Hf2 eq_refl eq_refl Hneg)
      as (s & cues & stored & cd & Hs & _ & Hcues & Hget & Hcd & Hraw & _ & Hno).
    exists cues, stored, cd.
    split; [exact Hcues|]. split; [exact Hget|]. split; [exact Hcd|].
    injection Hs as <-. split; [exact Hraw|].
    exact (proj2 (proj2 (proj2 (proj2 (Hno (or_introl eq_refl)))))).
Defined.


(** ** An engine that cannot be reached *)

Lemma filter_live_twice (w : World) (l : list nat) :
  filter (fun c => negb (is_closed w c)) (filter (fun c => negb (is_closed w c)) l)
  = filter (fun c => negb (is_closed w c)) l.
Proof.
  induction l as [|c l IH]; [reflexivity|].
  cbn [filter]. destruct (negb (is_closed w c)) eqn:E; [|exact IH].
  cbn [filter]. rewrite E. now rewrite IH.
Qed.

Section Outage.

Context (net : pyval -> net_outcome)
        (bytes_decode : string -> option string)
        (json_loads : string -> option pyval).

Local Abbreviation exchange' := (exchange net bytes_decode json_loads).
Local Abbreviation enable_polling' := (enable_polling net bytes_decode json_loads).

(** X14.  While no request gets an answer, [enable_polling] on a disabled
    backend still returns ["enabled"]: it spends two requests, stores
    ["Unknown"] as the project name and an empty timeline table (what was
    stored before is lost), and sends every viewer it reaches the polling
    message and then a payload with no countdowns. *)
Theorem outage_empties_the_snapshot (w : World) :
  enabled (polling w) = false ->
  (forall request, exists e, exchange' request = inl e) ->
  exists w',
    enable_polling' w = (inr ("enabled", polling w'), w')
    /\ enabled (polling w') = true
    /\ timelines w' = []
    /\ dict_get (status w') (VStr "projectName") = Some (VStr "Unknown")
    /\ request_id w' = request_id w + 2
    /\ connected_clients w' = live_clients w
    /\ sent w'
       = (sent w
            ++ map (fun c => (c, polling_message (polling w')))
                   (live_clients w)
            ++ map (fun c =>
                      (c, VDict [ (VStr "projectName", VStr "Unknown");
                                  (VStr "countdowns", VList []);
                                  (VStr "polling",
                                   polling_to_py (polling w')) ]))
                   (live_clients w))%list.
Proof.
  intros Hoff Hdead.
  unfold enable_polling. rewrite Hoff.
  set (w0 := enable_locked w).
  assert (H0 : request_id w0 = request_id w
               /\ connected_clients w0 = connected_clients w
               /\ sent w0 = sent w /\ closed w0 = closed w
               /\ enabled (polling w0) = true).
  { subst w0. unfold enable_locked, create_auto_disable, cancel_auto_disable,
      start_polling_task.
    repeat match goal with
           | |- context [match ?x with _ => _ end] => destruct x
           | |- context [if ?x then _ else _] => destruct x
           end; repeat split. }
  destruct H0 as (Hid0 & Hcc0 & Hsent0 & Hcl0 & Hon0).
  unfold get_project_name, fetch_cycle, get_timelines.
  unfold bind at 1. unfold bind at 1. unfold send_json at 1.
  destruct (Hdead (make_request (request_id w0) GET_PROJECT_NAME VNone))
    as [e1 ->].
  cbn [try_except]. unfold bind at 1, lift at 1, modify at 1. cbn [py_get].
  set (w1 := set_status _ _).
  unfold bind at 1. unfold bind at 1. unfold bind at 1. unfold send_json at 1.
  destruct (Hdead (make_request (request_id w1) GET_TIMELINES VNone))
    as [e2 ->].
  cbn [try_except]. unfold bind, lift, modify, gets, ret.
  cbn [py_get dict_get_default dict_get py_iter timelines_loop ret].
  unfold ret. cbn [timelines set_timelines dict_keys map cues_for_all].
  unfold ret.
  set (w2 := set_timelines [] _).
  assert (Hname : dict_get_default (status w2) "projectName" (VStr "Unknown")
                  = VStr "Unknown").
  { unfold dict_get_default. subst w2 w1.
    cbn [status set_timelines set_request_id set_status].
    now rewrite dict_get_set_str_same. }
  assert (Hstatus : dict_get (status w2) (VStr "projectName")
                    = Some (VStr "Unknown")).
  { subst w2 w1. cbn [status set_timelines set_request_id set_status].
    apply dict_get_set_str_same. }
  assert (Hid : request_id w2 = request_id w + 2).
  { subst w2 w1. cbn [request_id set_timelines set_request_id set_status]. lia. }
  assert (Hp : polling w2 = polling w0) by reflexivity.
  assert (Hon : enabled (polling w2) = true) by exact Hon0.
  assert (Hcc : connected_clients w2 = connected_clients w)
    by (rewrite <- Hcc0; reflexivity).
  assert (Hsent : sent w2 = sent w) by (rewrite <- Hsent0; reflexivity).
  assert (Hcl : closed w2 = closed w) by (rewrite <- Hcl0; reflexivity).
  assert (Hlive : forall l,
             filter (fun c => negb (is_closed w2 c)) l
             = filter (fun c => negb (is_closed w c)) l).
  { intros l. apply filter_ext. intros c. unfold is_closed. now rewrite Hcl. }
  unfold broadcast_polling_state, broadcast_update.
  destruct (connected_clients w2) as [|c cs] eqn:Ec.
  - cbv beta iota. rewrite Ec.
    exists w2. split; [reflexivity|]. split; [exact Hon|]. split; [reflexivity|].
    split; [exact Hstatus|]. split; [exact Hid|].
    unfold live_clients. rewrite <- Hcc. cbn [filter map app].
    split; [exact Ec|]. rewrite Hsent. now rewrite app_nil_r.
  - set (w3 := deliver _ w2).
    assert (Hcc3 : connected_clients w3 = live_clients w).
    { subst w3. unfold deliver, live_clients.
      cbn [connected_clients set_connected_clients set_sent].
      rewrite Ec, Hlive, Hcc. reflexivity. }
    assert (Hsent3 : sent w3
              = (sent w ++ map (fun c => (c, polling_message (polling w0)))
                               (live_clients w))%list).
    { subst w3. unfold deliver, live_clients.
      cbn [sent set_connected_clients set_sent].
      rewrite Ec, Hlive, Hcc, Hsent. reflexivity. }
    destruct (connected_clients w3) as [|c3 cs3] eqn:Ec3.
    + exists w3. split; [reflexivity|]. split; [exact Hon|]. split; [reflexivity|].
      split; [exact Hstatus|]. split; [exact Hid|].
      split; [now rewrite Ec3|].
      rewrite Hsent3, <- Hcc3. reflexivity.
    + unfold snapshot_payload.
      change (status w3) with (status w2). rewrite Hname.
      change (timelines w3) with (@nil (pyval * pyval)).
      cbn [buildCountdownPayload payload_timelines rbind json_dumps
           dict_get_default dict_get key_eqb String.eqb Ascii.eqb Bool.eqb
           printable forallb andb].
      eexists. split; [reflexivity|]. split; [exact Hon|].
      split; [reflexivity|]. split; [exact Hstatus|]. split; [exact Hid|].
      assert (Hl3 : filter (fun c => negb (is_closed w3 c)) (c3 :: cs3)
                    = live_clients w).
      { rewrite Hcc3. unfold live_clients.
        change (is_closed w3) with (is_closed w2).
        rewrite Hlive. apply filter_live_twice. }
      split.
      * unfold deliver. cbn [connected_clients set_connected_clients set_sent].
        rewrite Ec3. exact Hl3.
      * unfold deliver. cbn [sent set_connected_clients set_sent].
        rewrite Ec3, Hl3, Hsent3, <- app_assoc. reflexivity.
Qed.

End Outage.

Lemma outage_empties_the_snapshot_witness :
  exists w',
    enable_polling (fun _ => NetError OSError) example_decode example_loads
                   (set_connected_clients [7%nat] example_world)
    = (inr ("enabled", polling w'), w')
    /\ timelines example_world <> []
    /\ timelines w' = []
    /\ sent w'
       = [ (7%nat, polling_message (polling w'));
           (7%nat, VDict [ (VStr "projectName", VStr "Unknown");
                           (VStr "countdowns", VList []);
                           (VStr "polling", polling_to_py (polling w')) ]) ].
Proof.
  destruct (outage_empties_the_snapshot
              (fun _ => NetError OSError) example_decode example_loads
              (set_connected_clients [7%nat] example_world))
    as (w' & Hrun & _ & Ht & _ & _ & _ & Hs).
  - reflexivity.
  - intros request. exists OSError. reflexivity.
  - exists w'. split; [exact Hrun|]. split; [discriminate|].
    split; [exact Ht|exact Hs].
Defined.

(** ** The polling state *)

Section PollingState.

Context (net : pyval -> net_outcome)
        (bytes_decode : string -> option string)
        (json_loads : string -> option pyval).

Local Abbreviation enable_polling' := (enable_polling net bytes_decode json_loads).
Local Abbreviation run_event' := (run_event net bytes_decode json_loads).
Local Abbreviation reachable' := (reachable net bytes_decode json_loads).

Lemma enabled_in_the_past_ext (w w' : World) :
  timer_state w' = timer_state w ->
  enabled_in_the_past w -> enabled_in_the_past w'.
Proof.
  intros H Hw t0. destruct (timer_state_fields _ _ H) as (-> & _ & _ & ->).
  apply Hw.
Qed.

Lemma enabled_in_the_past_step (e : event) (w : World) :
  timers_ok w -> enabled_in_the_past w -> enabled_in_the_past (run_event' e w).
Proof.
  intros Hok Hw.
  destruct e as [| | |dt| | |c|c];
    try (apply enabled_in_the_past_ext with (w := w); [|exact Hw];
         apply run_event_quiet_timers; [exact I|discriminate]).
  - cbn [run_event]. destruct (enabled (polling w)) eqn:He.
    + now rewrite enable_polling_already.
    + intros t0.
      destruct (timer_state_fields _ _ (enable_polling_timers
                                          net bytes_decode json_loads w He))
        as (-> & _ & _ & ->).
      rewrite enable_locked_polling, enable_locked_clock. cbn [enabled_at].
      intros [= <-]. lia.
  - cbn [run_event]. destruct (enabled (polling w)) eqn:He.
    + rewrite (disable_polling_world w He). cbn [snd]. intros t0.
      destruct (timer_state_fields _ _ (broadcast_polling_state_timers
                                          (disable_locked w)))
        as (-> & _ & _ & _).
      rewrite disable_locked_polling. discriminate.
    + now rewrite (disable_polling_already w He).
  - cbn [run_event]. destruct (enabled (polling w)) eqn:He.
    + destruct (timers_ok_deadline w Hok He) as (t0 & Ha & _ & Hd & Hc).
      destruct (Z_lt_le_dec (clock w + Z.max 0 dt) (t0 + 6 * 3600)) as [Hlt|Hge].
      * rewrite (elapse_before dt _ w Hok He Hd Hlt).
        intros t1 H1. cbn [polling clock set_clock] in *.
        specialize (Hw t1 H1). lia.
      * destruct (elapse_after dt _ w Hok He Hd Hge) as (i & _ & ->).
        intros t1.
        destruct (auto_disable_polling_fields
                    i (set_clock (clock w + Z.max 0 dt) w)) as (-> & _).
        cbn [polling set_clock]. rewrite He. discriminate.
    + rewrite (elapse_disabled dt w Hok He).
      intros t1 H1. cbn [polling clock set_clock] in *.
      specialize (Hw t1 H1). lia.
Qed.

Lemma reachable_enabled_in_the_past (w : World) :
  reachable' w -> enabled_in_the_past w.
Proof.
  induction 1 as [t0|w e Hr IH].
  - intros t1. discriminate.
  - apply enabled_in_the_past_step; [|exact IH].
    now apply (reachable_timers_ok net bytes_decode json_loads).
Qed.

(** X15.  Take a run in which every request, every turn of the polling
    loop and every timer runs to its end before the next one starts.  In
    every state between two of its events the three fields of the polling
    state agree.  While polling is enabled, [enabled_at] and
    [auto_disable_at] are both set, [enabled_at] is not after the current
    time, and exactly one auto-disable timer is armed: the one
    [auto_disable_task] refers to.  While polling is disabled, [enabled_at]
    and [auto_disable_at] are null. *)
Theorem polling_state_is_coherent (w : World) :
  reachable' w ->
  if enabled (polling w) then
    exists t0 t1 i,
      enabled_at (polling w) = Some t0
      /\ auto_disable_at (polling w) = Some t1
      /\ t0 <= clock w
      /\ auto_disable_task w = Some i
      /\ task_pending w i = true
      /\ pending_tasks w = 1%nat
  else
    polling w = polling_disabled.
Proof.
  intros Hr.
  pose proof (reachable_timers_ok net bytes_decode json_loads w Hr) as Hok.
  pose proof (reachable_enabled_in_the_past w Hr) as Hpast.
  pose proof (timers_ok_pending w Hok) as Hp.
  unfold timers_ok in Hok.
  destruct (enabled (polling w)) eqn:He.
  - destruct Hok as (i & t & t0 & Htask & Hi & Ht & Ha & Hb & _).
    exists t0, (t0 + 6 * 3600), i.
    split; [exact Ha|]. split; [exact Hb|]. split; [exact (Hpast t0 Ha)|].
    split; [exact Htask|]. split; [|exact Hp].
    unfold task_pending. now rewrite Hi, Ht.
  - apply Hok.
Qed.

End PollingState.

Lemma polling_state_is_coherent_witness :
  exists t0 t1 i,
    enabled_at (polling (snd (enable_polling example_net example_decode
                                             example_loads one_viewer)))
    = Some t0
    /\ auto_disable_at (polling (snd (enable_polling example_net example_decode
                                                     example_loads one_viewer)))
       = Some t1
    /\ auto_disable_task (snd (enable_polling example_net example_decode
                                              example_loads one_viewer))
       = Some i
    /\ pending_tasks (snd (enable_polling example_net example_decode
                                          example_loads one_viewer)) = 1%nat.
Proof.
  pose proof (polling_state_is_coherent
                example_net example_decode example_loads _
                one_viewer_enabled_reachable) as H.
  rewrite enable_polling_enabled in H.
  destruct H as (t0 & t1 & i & Ha & Hb & _ & Ht & _ & Hp).
  exists t0, t1, i. split; [exact Ha|]. split; [exact Hb|].
  split; [exact Ht|exact Hp].
Defined.

(** ** The forced update *)

Section ForceUpdate.

Context (net : pyval -> net_outcome)
        (bytes_decode : string -> option string)
        (json_loads : string -> option pyval).

(** X22.  [force_update] raises [AttributeError] in its first statement,
    the call of [log] with the level ["EVENT"], which is not the name of a
    method of the logger: no request is sent to the engine, nothing is
    stored and nothing is broadcast, whatever the state and the engine. *)
Theorem force_update_raises (w : World) :
  force_update net bytes_decode json_loads w = (inl AttributeError, w)
  /\ run_event net bytes_decode json_loads EvForceUpdate w = w.
Proof. split; reflexivity. Qed.

End ForceUpdate.
